(** * nestjs-audit-logger: the request-audit capture pipeline

    A shallow embedding of the interceptor ([audit-logger.interceptor.ts]),
    of [saveAuditLog] and [cleanupOldAuditLogs] of the service
    ([audit-logger.service.ts]) and of the marker helpers
    ([decorators/audit-log.decorator.ts]), followed by the properties of the
    specification stated over that embedding.

    Conventions.
    - A JavaScript string is a [string]; one character stands for one code
      unit below 256 (header lines, urls and tokens reach the interceptor
      that way).
    - [undefined] is [None] where the source type is [T | undefined], and
      the constructor [VUndefined] where the source type is [any].
    - An object used as a dictionary ([Record<string, string>]) is a
      [gmap string string].
    - Library functions of the runtime (JSON.parse, Buffer, RegExp) are
      variables of the sections that use them; concrete instances for
      evaluation are given in [Module Json], [Module Base64] and
      [Module Regex]. *)

From Stdlib Require Import ZArith Ascii String List Bool Lia.
From stdpp Require Import base option list gmap strings fin_maps.

Import ListNotations.
Local Open Scope string_scope.
Set Warnings "-register-all".

(** ** Part I. The embedding *)

(** *** JavaScript strings *)

Module JsString.

Definition code (c : ascii) : nat := nat_of_ascii c.

(** [String.prototype.toLowerCase] on code units below 256: the ASCII
    capitals and the Latin-1 capitals U+00C0..U+00DE, U+00D7 excepted. *)
Definition lower_char (c : ascii) : ascii :=
  let n := code c in
  if ((65 <=? n) && (n <=? 90))%nat then ascii_of_nat (n + 32)
  else if ((192 <=? n) && (n <=? 222) && negb (n =? 215))%nat
       then ascii_of_nat (n + 32)
       else c.

Fixpoint toLowerCase (s : string) : string :=
  match s with
  | EmptyString => EmptyString
  | String c r => String (lower_char c) (toLowerCase r)
  end.

(** [s.startsWith(p)] *)
Definition startsWith (s p : string) : bool := String.prefix p s.

(** [s.includes(c)] for a one-character needle. *)
Fixpoint includes (s : string) (c : ascii) : bool :=
  match s with
  | EmptyString => false
  | String d r => if Ascii.eqb d c then true else includes r c
  end.

(** [s.split(c)] for a one-character separator: never the empty list. *)
Fixpoint split (c : ascii) (s : string) : list string :=
  match s with
  | EmptyString => [EmptyString]
  | String d r =>
      if Ascii.eqb d c then EmptyString :: split c r
      else match split c r with
           | [] => [String d EmptyString]
           | p :: ps => String d p :: ps
           end
  end.

(** The characters [\s] matches, below 256. *)
Definition is_space (c : ascii) : bool :=
  let n := code c in
  ((9 <=? n) && (n <=? 13) || (n =? 32) || (n =? 160))%nat.

(** The line terminators [.] refuses, below 256. *)
Definition is_line_terminator (c : ascii) : bool :=
  let n := code c in ((n =? 10) || (n =? 13))%nat.

Fixpoint forallb (p : ascii -> bool) (s : string) : bool :=
  match s with
  | EmptyString => true
  | String c r => p c && forallb p r
  end.

Fixpoint drop (n : nat) (s : string) : string :=
  match n, s with
  | O, _ => s
  | S m, EmptyString => EmptyString
  | S m, String _ r => drop m r
  end.

Fixpoint take (n : nat) (s : string) : string :=
  match n, s with
  | O, _ => EmptyString
  | S m, EmptyString => EmptyString
  | S m, String c r => String c (take m r)
  end.

(** Length of the longest prefix made of characters satisfying [p]. *)
Fixpoint span_length (p : ascii -> bool) (s : string) : nat :=
  match s with
  | String c r => if p c then S (span_length p r) else O
  | EmptyString => O
  end.

Definition is_empty (s : string) : bool :=
  match s with EmptyString => true | _ => false end.

(** [s.trim()] *)
Fixpoint trimStart (s : string) : string :=
  match s with
  | String c r => if is_space c then trimStart r else s
  | EmptyString => EmptyString
  end.

Fixpoint trimEnd (s : string) : string :=
  match s with
  | EmptyString => EmptyString
  | String c r =>
      let r' := trimEnd r in
      if is_space c && is_empty r' then EmptyString else String c r'
  end.

Definition trim (s : string) : string := trimEnd (trimStart s).

(** Truthiness of a [string | undefined], and [a || b] between two. *)
Definition truthy_string (o : option string) : bool :=
  match o with
  | Some s => negb (is_empty s)
  | None => false
  end.

Definition or_string (a b : option string) : option string :=
  if truthy_string a then a else b.

End JsString.

(** *** Header sanitizer ([sanitizeHeaders]) *)

Module Sanitizer.
Import JsString.

Definition REDACTED : string := "[REDACTED]".

Definition sensitiveHeaders : list string :=
  [ "authorization"; "cookie"; "x-api-token"; "x-auth-token";
    "x-access-token"; "api-key"; "apikey" ].

(** [if (sanitized[k]) { sanitized[k] = '[REDACTED]' }] *)
Definition redact (k : string) (sanitized : gmap string string)
  : gmap string string :=
  if truthy_string (sanitized !! k) then <[k := REDACTED]> sanitized else sanitized.

(** The body of the [forEach] callback. *)
Definition redact_header (sanitized : gmap string string) (header : string)
  : gmap string string :=
  redact (toLowerCase header) (redact header sanitized).

Definition sanitizeHeaders (headers : gmap string string)
  : gmap string string :=
  foldl redact_header headers sensitiveHeaders.

(** The same function over a store of objects, to speak about aliasing:
    [{ ...headers }] allocates a fresh object, and every assignment of
    the loop goes to that object. *)
Definition loc := nat.

Definition alloc (o : gmap string string) (h : gmap loc (gmap string string))
  : loc * gmap loc (gmap string string) :=
  let l := fresh (dom h) in (l, <[l := o]> h).

Definition redact_at (l : loc) (k : string)
    (h : gmap loc (gmap string string)) : gmap loc (gmap string string) :=
  match h !! l with
  | Some o =>
      if truthy_string (o !! k) then <[l := <[k := REDACTED]> o]> h else h
  | None => h
  end.

Definition redact_header_at (l : loc) (h : gmap loc (gmap string string))
    (header : string) : gmap loc (gmap string string) :=
  redact_at l (toLowerCase header) (redact_at l header h).

Definition sanitizeHeaders_ref (headers : loc)
    (h : gmap loc (gmap string string))
  : option (loc * gmap loc (gmap string string)) :=
  match h !! headers with
  | Some o =>
      let '(sanitized, h1) := alloc o h in
      Some (sanitized, foldl (redact_header_at sanitized) h1 sensitiveHeaders)
  | None => None
  end.

End Sanitizer.

(** *** JavaScript values *)

Module Js.
Import JsString.

(** A number read from decimal notation, [mantissa * 10 ^ exponent10]. *)
Record number := { mantissa : Z; exponent10 : Z }.

Definition of_Z (z : Z) : number := {| mantissa := z; exponent10 := 0 |}.

(** Whether the double nearest to the decimal is other than zero: the
    decimal rounds to zero exactly when its magnitude is at most
    [2 ^ -1075], half the least positive double. *)
Definition nonzero (n : number) : bool :=
  if (mantissa n =? 0)%Z then false
  else if (0 <=? exponent10 n)%Z then true
  else (10 ^ (- exponent10 n) <? 2 ^ 1075 * Z.abs (mantissa n))%Z.

Inductive prototype := ObjectPrototype | ErrorPrototype.

Inductive value :=
| VUndefined
| VNull
| VBool (b : bool)
| VNumber (n : number)
| VString (s : string)
| VArray (items : list value)
| VObject (proto : prototype) (props : list (string * value))
| VFunction (name : string).

Definition VInt (z : Z) : value := VNumber (of_Z z).

Definition of_string (o : option string) : value :=
  match o with Some s => VString s | None => VUndefined end.

(** [ToBoolean] *)
Definition truthy (v : value) : bool :=
  match v with
  | VUndefined | VNull => false
  | VBool b => b
  | VNumber n => nonzero n
  | VString s => negb (is_empty s)
  | VArray _ | VObject _ _ | VFunction _ => true
  end.

(** [a || b] *)
Definition or (a b : value) : value := if truthy a then a else b.

(** [e instanceof Error] *)
Definition instanceof_Error (v : value) : bool :=
  match v with VObject ErrorPrototype _ => true | _ => false end.

(** The property names the interceptor and the service read. *)
Inductive prop :=
| sub | userId | id | user_id | email | user_email | userEmail
| status | message | stack.

Definition prop_name (p : prop) : string :=
  match p with
  | sub => "sub" | userId => "userId" | id => "id" | user_id => "user_id"
  | email => "email" | user_email => "user_email"
  | userEmail => "userEmail"
  | status => "status" | message => "message" | stack => "stack"
  end.

(** An own property: the last definition of the name wins. *)
Fixpoint own (props : list (string * value)) (k : string) : option value :=
  match props with
  | [] => None
  | (k', v) :: rest =>
      match own rest k with
      | Some w => Some w
      | None => if String.eqb k' k then Some v else None
      end
  end.

(** What the prototype chain gives for these names: [Error.prototype]
    has an empty [message], [String.prototype] has the method [sub]. *)
Definition inherited (v : value) (p : prop) : value :=
  match v, p with
  | VObject ErrorPrototype _, message => VString EmptyString
  | VString _, sub => VFunction "String.prototype.sub"
  | _, _ => VUndefined
  end.

(** [v.p]; [None] when the read throws a TypeError, that is when [v] is
    [undefined] or [null]. *)
Definition get (v : value) (p : prop) : option value :=
  match v with
  | VUndefined | VNull => None
  | VObject _ props =>
      Some (match own props (prop_name p) with
            | Some w => w
            | None => inherited v p
            end)
  | _ => Some (inherited v p)
  end.

(** The TypeError of a property read on [undefined] or [null]. *)
Definition TypeError (p : prop) : value :=
  VObject ErrorPrototype
    [("message", VString ("Cannot read properties (reading '" ++ prop_name p ++ "')"))].

(** [v.p1 || v.p2 || ... ]; [None] when a read throws. *)
Fixpoint get_first (v : value) (p : prop) (ps : list prop) : option value :=
  match ps with
  | [] => get v p
  | q :: qs =>
      match get v p with
      | Some w => if truthy w then Some w else get_first v q qs
      | None => None
      end
  end.

End Js.

(** *** A JSON reader, for evaluation

    [JSON.parse] on text whose string literals stay below code unit 256;
    [None] stands for the SyntaxError. *)

Module Json.
Import Js.

Definition dquote : ascii := "034"%char.
Definition backslash : ascii := "092"%char.

(** Writes a text with ['] for the double quote. *)
Fixpoint quoted (s : string) : string :=
  match s with
  | EmptyString => EmptyString
  | String c r => String (if Ascii.eqb c "'" then dquote else c) (quoted r)
  end.

Definition is_ws (c : ascii) : bool :=
  let n := JsString.code c in
  ((n =? 32) || (n =? 9) || (n =? 10) || (n =? 13))%nat.

Fixpoint skip_ws (s : string) : string :=
  match s with
  | String c r => if is_ws c then skip_ws r else s
  | EmptyString => EmptyString
  end.

Definition digit (c : ascii) : option Z :=
  let n := JsString.code c in
  if ((48 <=? n) && (n <=? 57))%nat then Some (Z.of_nat (n - 48)) else None.

Definition hex_digit (c : ascii) : option nat :=
  let n := JsString.code c in
  if ((48 <=? n) && (n <=? 57))%nat then Some (n - 48)%nat
  else if ((65 <=? n) && (n <=? 70))%nat then Some (n - 55)%nat
  else if ((97 <=? n) && (n <=? 102))%nat then Some (n - 87)%nat
  else None.

(** A run of digits: its value so far, how many were read, the rest. *)
Fixpoint digits (acc : Z) (count : nat) (s : string) : Z * nat * string :=
  match s with
  | String c r =>
      match digit c with
      | Some d => digits (10 * acc + d) (S count) r
      | None => (acc, count, s)
      end
  | EmptyString => (acc, count, s)
  end.

(** [int frac? exp?] after the optional sign. *)
Definition unsigned_number (s : string) : option (number * string) :=
  let '(i, ni, r) := digits 0 0 s in
  let leading_zero :=
    match s with String "0" _ => true | _ => false end in
  if (ni =? 0)%nat || (leading_zero && negb (ni =? 1)%nat) then None
  else
    let after_frac : option (Z * nat * string) :=
      match r with
      | String "." r1 =>
          let '(m, nf, r2) := digits i 0 r1 in
          if (nf =? 0)%nat then None else Some (m, nf, r2)
      | _ => Some (i, O, r)
      end in
    match after_frac with
    | None => None
    | Some (m, nf, r2) =>
        let read_exp (neg : bool) (t : string) :=
          let '(e, ne, r3) := digits 0 0 t in
          if (ne =? 0)%nat then None
          else Some ((if neg then - e else e)%Z, r3) in
        let after_exp : option (Z * string) :=
          match r2 with
          | String c r3 =>
              if Ascii.eqb c "e" || Ascii.eqb c "E" then
                match r3 with
                | String "+" t => read_exp false t
                | String "-" t => read_exp true t
                | _ => read_exp false r3
                end
              else Some (0%Z, r2)
          | EmptyString => Some (0%Z, r2)
          end in
        match after_exp with
        | None => None
        | Some (e, rest) =>
            Some ({| mantissa := m; exponent10 := e - Z.of_nat nf |}, rest)
        end
    end.

Definition number_literal (s : string) : option (number * string) :=
  match s with
  | String "-" r =>
      match unsigned_number r with
      | Some (n, rest) =>
          Some ({| mantissa := - mantissa n; exponent10 := exponent10 n |}, rest)
      | None => None
      end
  | _ => unsigned_number s
  end.

(** The characters of a string literal after the opening quote. *)
Fixpoint string_body (s : string) : option (string * string) :=
  match s with
  | EmptyString => None
  | String c r =>
      if Ascii.eqb c dquote then Some (EmptyString, r)
      else if Ascii.eqb c backslash then
        match r with
        | String e r1 =>
            let simple (d : ascii) :=
              match string_body r1 with
              | Some (t, rest) => Some (String d t, rest)
              | None => None
              end in
            if Ascii.eqb e dquote then simple dquote
            else if Ascii.eqb e backslash then simple backslash
            else if Ascii.eqb e "/" then simple "/"%char
            else if Ascii.eqb e "b" then simple (ascii_of_nat 8)
            else if Ascii.eqb e "f" then simple (ascii_of_nat 12)
            else if Ascii.eqb e "n" then simple (ascii_of_nat 10)
            else if Ascii.eqb e "r" then simple (ascii_of_nat 13)
            else if Ascii.eqb e "t" then simple (ascii_of_nat 9)
            else if Ascii.eqb e "u" then
              match r1 with
              | String a (String b (String c1 (String d r2))) =>
                  match hex_digit a, hex_digit b, hex_digit c1, hex_digit d with
                  | Some x3, Some x2, Some x1, Some x0 =>
                      if ((x3 =? 0) && (x2 =? 0))%nat then
                        match string_body r2 with
                        | Some (t, rest) =>
                            Some (String (ascii_of_nat (16 * x1 + x0)) t, rest)
                        | None => None
                        end
                      else None
                  | _, _, _, _ => None
                  end
              | _ => None
              end
            else None
        | EmptyString => None
        end
      else if (JsString.code c <? 32)%nat then None
      else
        match string_body r with
        | Some (t, rest) => Some (String c t, rest)
        | None => None
        end
  end.

Definition keyword (k : string) (v : value) (s : string)
  : option (value * string) :=
  if String.prefix k s then Some (v, JsString.drop (String.length k) s)
  else None.

(** Recursive descent; every second call at least consumes a character,
    so [fuel] above twice the length of the text is never exhausted. *)
Fixpoint element (fuel : nat) (s : string) : option (value * string) :=
  match fuel with
  | O => None
  | S fuel =>
      match skip_ws s with
      | String c r =>
          if Ascii.eqb c "{" then
            match skip_ws r with
            | String "}" rest => Some (VObject ObjectPrototype [], rest)
            | _ =>
                match members fuel r with
                | Some (ms, rest) => Some (VObject ObjectPrototype ms, rest)
                | None => None
                end
            end
          else if Ascii.eqb c "[" then
            match skip_ws r with
            | String "]" rest => Some (VArray [], rest)
            | _ =>
                match elements fuel r with
                | Some (vs, rest) => Some (VArray vs, rest)
                | None => None
                end
            end
          else if Ascii.eqb c dquote then
            match string_body r with
            | Some (t, rest) => Some (VString t, rest)
            | None => None
            end
          else if Ascii.eqb c "t" then keyword "true" (VBool true) (String c r)
          else if Ascii.eqb c "f" then keyword "false" (VBool false) (String c r)
          else if Ascii.eqb c "n" then keyword "null" VNull (String c r)
          else
            match number_literal (String c r) with
            | Some (n, rest) => Some (VNumber n, rest)
            | None => None
            end
      | EmptyString => None
      end
  end
with elements (fuel : nat) (s : string) : option (list value * string) :=
  match fuel with
  | O => None
  | S fuel =>
      match element fuel s with
      | Some (v, r) =>
          match skip_ws r with
          | String "," r1 =>
              match elements fuel r1 with
              | Some (vs, rest) => Some (v :: vs, rest)
              | None => None
              end
          | String "]" rest => Some ([v], rest)
          | _ => None
          end
      | None => None
      end
  end
with members (fuel : nat) (s : string)
  : option (list (string * value) * string) :=
  match fuel with
  | O => None
  | S fuel =>
      match skip_ws s with
      | String "034" r =>
          match string_body r with
          | Some (k, r1) =>
              match skip_ws r1 with
              | String ":" r2 =>
                  match element fuel r2 with
                  | Some (v, r3) =>
                      match skip_ws r3 with
                      | String "," r4 =>
                          match members fuel r4 with
                          | Some (ms, rest) => Some ((k, v) :: ms, rest)
                          | None => None
                          end
                      | String "}" rest => Some ([(k, v)], rest)
                      | _ => None
                      end
                  | None => None
                  end
              | _ => None
              end
          | None => None
          end
      | _ => None
      end
  end.

Definition parse (text : string) : option value :=
  match element (2 * String.length text + 2) text with
  | Some (v, rest) => if JsString.is_empty (skip_ws rest) then Some v else None
  | None => None
  end.

End Json.

(** *** A base64url decoder, for evaluation

    [Buffer.from(s, 'base64url').toString()] where the decoded bytes are
    ASCII: both alphabets are accepted, a character outside them is
    skipped, [=] ends the input, and a trailing group of two or three
    characters gives one or two bytes. *)

Module Base64.

Definition sextet (c : ascii) : option nat :=
  let n := JsString.code c in
  if ((65 <=? n) && (n <=? 90))%nat then Some (n - 65)%nat
  else if ((97 <=? n) && (n <=? 122))%nat then Some (n - 71)%nat
  else if ((48 <=? n) && (n <=? 57))%nat then Some (n + 4)%nat
  else if ((n =? 43) || (n =? 45))%nat then Some 62%nat
  else if ((n =? 47) || (n =? 95))%nat then Some 63%nat
  else None.

Fixpoint sextets (s : string) : list nat :=
  match s with
  | EmptyString => []
  | String c r =>
      if Ascii.eqb c "=" then []
      else match sextet c with
           | Some x => x :: sextets r
           | None => sextets r
           end
  end.

Definition byte (n : nat) : ascii := ascii_of_nat (n mod 256).

Fixpoint bytes (l : list nat) : string :=
  match l with
  | a :: b :: c :: d :: r =>
      String (byte (4 * a + b / 16))
        (String (byte (16 * (b mod 16) + c / 4))
           (String (byte (64 * (c mod 4) + d)) (bytes r)))
  | [a; b; c] =>
      String (byte (4 * a + b / 16))
        (String (byte (16 * (b mod 16) + c / 4)) EmptyString)
  | [a; b] => String (byte (4 * a + b / 16)) EmptyString
  | _ => EmptyString
  end.

Definition decode (s : string) : string := bytes (sextets s).

End Base64.

(** *** A matcher for anchored patterns, for evaluation

    [new RegExp(source).test(s)] where [source] is [^ body $] and [body]
    is made of ordinary characters, [.] and [.*]; [None] for any other
    syntax. *)

Module Regex.
Import JsString.

Inductive atom := Lit (c : ascii) | AnyChar | AnyRun.

(** SyntaxCharacter of the grammar of patterns. *)
Definition is_syntax_character (c : ascii) : bool :=
  existsb (Ascii.eqb c)
    [ "^"; "$"; "092"; "."; "*"; "+"; "?"; "("; ")"; "["; "]"; "{"; "}";
      "|" ]%char.

Fixpoint atoms (body : string) : option (list atom) :=
  match body with
  | EmptyString => Some []
  | String c r =>
      if Ascii.eqb c "." then
        match r with
        | String d r' =>
            if Ascii.eqb d "*" then option_map (cons AnyRun) (atoms r')
            else option_map (cons AnyChar) (atoms r)
        | EmptyString => Some [AnyChar]
        end
      else if is_syntax_character c then None
      else option_map (cons (Lit c)) (atoms r)
  end.

Fixpoint matches (l : list atom) (s : string) : bool :=
  match l with
  | [] => is_empty s
  | Lit c :: l' =>
      match s with
      | String d r => Ascii.eqb c d && matches l' r
      | EmptyString => false
      end
  | AnyChar :: l' =>
      match s with
      | String d r => negb (is_line_terminator d) && matches l' r
      | EmptyString => false
      end
  | AnyRun :: l' =>
      (fix run (t : string) : bool :=
         matches l' t
         || match t with
            | String d r => negb (is_line_terminator d) && run r
            | EmptyString => false
            end) s
  end.

(** Splits [^ body $] into [body]. *)
Fixpoint before_dollar (s : string) : option string :=
  match s with
  | EmptyString => None
  | String c r =>
      if Ascii.eqb c "$" && is_empty r then Some EmptyString
      else option_map (String c) (before_dollar r)
  end.

Definition test (source s : string) : option bool :=
  match source with
  | String "^" r =>
      match before_dollar r with
      | Some body =>
          match atoms body with
          | Some l => Some (matches l s)
          | None => None
          end
      | None => None
      end
  | _ => None
  end.

End Regex.

(** *** Data shapes ([interfaces/audit-logger.interface.ts]) *)

Module AuditLogOptions.
Record t := {
  serviceName : option string;
  description : option string;
  logRequestBody : option bool;
  logResponseBody : option bool;
}.

(** [{}] *)
Definition empty : t :=
  {| serviceName := None; description := None;
     logRequestBody := None; logResponseBody := None |}.
End AuditLogOptions.

(** The express request, as far as the interceptor reads it. *)
Module Request.
Record t := {
  method : string;
  url : string;
  headers : gmap string string;
  query : gmap string string;
  body : Js.value;
  connection_remoteAddress : option string;
  socket_remoteAddress : option string;
  ip : option string;
}.

(** [req.get(name)] of express: the lookup is by lower-cased name, and
    the two spellings of the referrer header stand for each other. *)
Definition get (request : t) (name : string) : option string :=
  let lc := JsString.toLowerCase name in
  if String.eqb lc "referer" || String.eqb lc "referrer" then
    JsString.or_string (headers request !! "referrer")
                       (headers request !! "referer")
  else headers request !! lc.
End Request.

Inductive LogLevel := debug | info | warn | error.

Module ModuleOptions.
Record t := {
  logRequestBody : option bool;
  logResponseBody : option bool;
  excludeRoutes : option (list string);
  logLevel : option LogLevel;
  customTokenExtractor : option (Request.t -> option string);
  customUserIdExtractor : option (string -> option string);
  customUserEmailExtractor : option (string -> option string);
}.

(** The defaults of [AuditLoggerModule.forRoot]. *)
Definition defaults : t :=
  {| logRequestBody := Some false;
     logResponseBody := Some false;
     excludeRoutes := Some [];
     logLevel := Some info;
     customTokenExtractor := None;
     customUserIdExtractor := None;
     customUserEmailExtractor := None |}.

(** [forRoot({ excludeRoutes: routes })] *)
Definition excluding (routes : list string) : t :=
  {| logRequestBody := Some false;
     logResponseBody := Some false;
     excludeRoutes := Some routes;
     logLevel := Some info;
     customTokenExtractor := None;
     customUserIdExtractor := None;
     customUserEmailExtractor := None |}.
End ModuleOptions.

Module TokenExtractionResult.
Record t := {
  token : option string;
  userId : Js.value;
  userEmail : Js.value;
}.
End TokenExtractionResult.

Module RequestInfo.
Record t := {
  method : string;
  url : string;
  headers : gmap string string;
  query : gmap string string;
  body : Js.value;
  ip : string;
  userAgent : string;
}.
End RequestInfo.

Module ResponseInfo.
Record t := {
  statusCode : Js.value;
  data : Js.value;
}.
End ResponseInfo.

(** The object literal [{ body, query, headers }] of [requestData]. *)
Module RequestData.
Record t := {
  body : Js.value;
  query : gmap string string;
  headers : gmap string string;
}.
End RequestData.

Module AuditLogData.
Record t := {
  timestamp : Z;
  userId : Js.value;
  userEmail : Js.value;
  httpMethod : string;
  endpoint : string;
  serviceName : option string;
  actionDescription : option string;
  requestData : option RequestData.t;
  responseData : Js.value;
  userAgent : string;
  ipAddress : string;
  token : option string;
  statusCode : Js.value;
  executionTimeMs : Z;
}.
End AuditLogData.

(** *** Marker helpers ([decorators/audit-log.decorator.ts])

    A handler is known by the metadata [@AuditLog(options)] attached to it,
    if any. *)

Module Decorator.
Definition Handler := option AuditLogOptions.t.

(** [AuditLog(options = {})] applied to an unmarked handler. *)
Definition AuditLog (options : option AuditLogOptions.t) : Handler :=
  Some (default AuditLogOptions.empty options).

Definition isAuditLogEnabled (handler : Handler) : bool :=
  match handler with Some _ => true | None => false end.

Definition getAuditLogOptions (handler : Handler)
  : option AuditLogOptions.t := handler.
End Decorator.

(** *** What the handler produces ([next.handle()])

    The observable of the handler is the sequence of its notifications.
    Each one carries what the callbacks of the interceptor read from the
    environment at that moment: [Date.now()] and, for a value,
    [response.statusCode]. *)

Module Observable.
Record Next := {
  data : Js.value;
  statusCode : Z;
  now : Z;
}.

Inductive End :=
| Complete
| Error (e : Js.value) (now : Z).

Record t := { values : list Next; ending : End }.
End Observable.

(** The arguments of one deferred [createAuditLog] call. *)
Module Deferred.
Record t := {
  timestamp : Z;
  requestInfo : RequestInfo.t;
  responseInfo : ResponseInfo.t;
  tokenInfo : TokenExtractionResult.t;
  executionTime : Z;
  auditOptions : AuditLogOptions.t;
}.
End Deferred.

(** *** The interceptor ([audit-logger.interceptor.ts]) *)

Module Interceptor.
Import JsString Js.

Definition customHeaders : list string :=
  [ "x-api-token"; "x-auth-token"; "x-access-token"; "api-key"; "apikey" ].

Definition queryParams : list string :=
  [ "token"; "apikey"; "api_key"; "access_token" ].

(** [for (const k of names) { const value = read(k); if (value) return
    value; }], [None] when the loop falls through. *)
Fixpoint first_truthy (read : string -> option string) (names : list string)
  : option string :=
  match names with
  | [] => None
  | k :: rest =>
      if truthy_string (read k) then read k else first_truthy read rest
  end.

(** [authHeader.match(/^Bearer\s+(.+)$/i)], giving [match[1]]: the white
    space run is as long as it can be while leaving a non-empty rest free
    of line terminators. *)
Fixpoint bearer_rest (k : nat) (rest : string) : option string :=
  match k with
  | O => None
  | S k' =>
      let r := drop k rest in
      if negb (is_empty r) && forallb (fun c => negb (is_line_terminator c)) r
      then Some r
      else bearer_rest k' rest
  end.

Definition match_Bearer (authHeader : string) : option string :=
  if String.eqb (toLowerCase (take 6 authHeader)) "bearer" then
    let rest := drop 6 authHeader in
    bearer_rest (span_length is_space rest) rest
  else None.

Definition extractTokenFromRequest (request : Request.t) : option string :=
  let authHeader := Request.get request "Authorization" in
  if truthy_string authHeader then
    match authHeader with
    | Some h =>
        match match_Bearer h with
        | Some m1 => Some m1
        | None => Some h
        end
    | None => None
    end
  else
    match first_truthy (Request.get request) customHeaders with
    | Some v => Some v
    | None => first_truthy (fun k => Request.query request !! k) queryParams
    end.

(** [route.replace(/\*/g, '.*')] *)
Fixpoint replace_stars (route : string) : string :=
  match route with
  | EmptyString => EmptyString
  | String c r =>
      if Ascii.eqb c "*" then String "." (String "*" (replace_stars r))
      else String c (replace_stars r)
  end.

(** [xs.some(f)] where [f] may throw: the first [true] ends the scan. *)
Fixpoint some {A} (f : A -> option bool) (xs : list A) : option bool :=
  match xs with
  | [] => Some false
  | x :: rest =>
      match f x with
      | Some true => Some true
      | Some false => some f rest
      | None => None
      end
  end.

Definition extractRealIp (request : Request.t) : string :=
  let forwarded := Request.get request "X-Forwarded-For" in
  if truthy_string forwarded then
    match forwarded with
    | Some f => trim (hd EmptyString (split "," f))
    | None => EmptyString
    end
  else
    default "unknown"
      (or_string (Request.get request "X-Real-IP")
         (or_string (Request.get request "X-Client-IP")
            (or_string (Request.connection_remoteAddress request)
               (or_string (Request.socket_remoteAddress request)
                  (or_string (Request.ip request) (Some "unknown")))))).

Definition extractRequestInfo (request : Request.t) : RequestInfo.t :=
  {| RequestInfo.method := Request.method request;
     RequestInfo.url := Request.url request;
     RequestInfo.headers := Request.headers request;
     RequestInfo.query := Request.query request;
     RequestInfo.body := Request.body request;
     RequestInfo.ip := extractRealIp request;
     RequestInfo.userAgent :=
       default EmptyString
         (or_string (Request.get request "User-Agent")
                    (Some EmptyString)) |}.

Section WithRuntime.

(** [JSON.parse]; [None] for its SyntaxError. *)
Variable JSON_parse : string -> option value.
(** [s => Buffer.from(s, 'base64url').toString()] *)
Variable base64url_toString : string -> string.
(** [(source, s) => new RegExp(source).test(s)]; [None] for the
    SyntaxError of the constructor. *)
Variable RegExp_test : string -> string -> option bool.

Variable options : ModuleOptions.t.

Definition shouldExcludeRoute (url : string) : option bool :=
  match ModuleOptions.excludeRoutes options with
  | None => Some false
  | Some routes =>
      some
        (fun route =>
           if includes route "*" then
             let pattern := replace_stars route in
             RegExp_test ("^" ++ pattern ++ "$") url
           else Some (startsWith url route))
        routes
  end.

(** The body of the [try] of [extractUserIdFromCustomToken] and of
    [extractEmailFromCustomToken], which differ by the names they read;
    [None] when an exception reaches the [catch]. *)
Definition decode_claim (token : string)
    (jwt_first : prop) (jwt_rest : list prop)
    (json_first : prop) (json_rest : list prop) : option value :=
  let jwt : option string :=
    if includes token "." then
      let parts := split "." token in
      if (length parts =? 3)%nat then parts !! 1%nat else None
    else None in
  match jwt with
  | Some middle =>
      match JSON_parse (base64url_toString middle) with
      | Some payload => get_first payload jwt_first jwt_rest
      | None => None
      end
  | None =>
      if startsWith token "{" then
        match JSON_parse token with
        | Some parsed => get_first parsed json_first json_rest
        | None => None
        end
      else Some VUndefined
  end.

Definition extractUserIdFromCustomToken (token : string) : value :=
  match decode_claim token sub [userId; id; user_id]
                           userId [id; user_id; sub] with
  | Some v => v
  | None => VUndefined
  end.

Definition extractEmailFromCustomToken (token : string) : value :=
  match decode_claim token email [user_email; userEmail]
                           email [user_email; userEmail] with
  | Some v => v
  | None => VUndefined
  end.

Definition extractTokenInfo (request : Request.t)
  : TokenExtractionResult.t :=
  let token :=
    match ModuleOptions.customTokenExtractor options with
    | Some extractor => extractor request
    | None => extractTokenFromRequest request
    end in
  if truthy_string token then
    let t := default EmptyString token in
    {| TokenExtractionResult.token := token;
       TokenExtractionResult.userId :=
         match ModuleOptions.customUserIdExtractor options with
         | Some extractor => of_string (extractor t)
         | None => extractUserIdFromCustomToken t
         end;
       TokenExtractionResult.userEmail :=
         match ModuleOptions.customUserEmailExtractor options with
         | Some extractor => of_string (extractor t)
         | None => extractEmailFromCustomToken t
         end |}
  else
    {| TokenExtractionResult.token := token;
       TokenExtractionResult.userId := VUndefined;
       TokenExtractionResult.userEmail := VUndefined |}.

(** [a ?? b ?? false] *)
Definition coalesce (a b : option bool) : bool :=
  match a with
  | Some x => x
  | None => match b with Some y => y | None => false end
  end.

(** The record built by [createAuditLog]. *)
Definition auditData (call : Deferred.t) : AuditLogData.t :=
  let requestInfo := Deferred.requestInfo call in
  let responseInfo := Deferred.responseInfo call in
  let tokenInfo := Deferred.tokenInfo call in
  let auditOptions := Deferred.auditOptions call in
  let shouldLogRequestBody :=
    coalesce (AuditLogOptions.logRequestBody auditOptions)
             (ModuleOptions.logRequestBody options) in
  let shouldLogResponseBody :=
    coalesce (AuditLogOptions.logResponseBody auditOptions)
             (ModuleOptions.logResponseBody options) in
  {| AuditLogData.timestamp := Deferred.timestamp call;
     AuditLogData.userId := TokenExtractionResult.userId tokenInfo;
     AuditLogData.userEmail := TokenExtractionResult.userEmail tokenInfo;
     AuditLogData.httpMethod := RequestInfo.method requestInfo;
     AuditLogData.endpoint := RequestInfo.url requestInfo;
     AuditLogData.serviceName := AuditLogOptions.serviceName auditOptions;
     AuditLogData.actionDescription :=
       AuditLogOptions.description auditOptions;
     AuditLogData.requestData :=
       if shouldLogRequestBody then
         Some {| RequestData.body := RequestInfo.body requestInfo;
                 RequestData.query := RequestInfo.query requestInfo;
                 RequestData.headers :=
                   Sanitizer.sanitizeHeaders
                     (RequestInfo.headers requestInfo) |}
       else None;
     AuditLogData.responseData :=
       if shouldLogResponseBody then ResponseInfo.data responseInfo
       else VUndefined;
     AuditLogData.userAgent := RequestInfo.userAgent requestInfo;
     AuditLogData.ipAddress := RequestInfo.ip requestInfo;
     AuditLogData.token := TokenExtractionResult.token tokenInfo;
     AuditLogData.statusCode := ResponseInfo.statusCode responseInfo;
     AuditLogData.executionTimeMs := Deferred.executionTime call |}.

(** What [intercept] is called with: the handler, the request, and the
    readings of [Date.now()] and [new Date()] on entry. *)
Record ExecutionContext := {
  getHandler : Decorator.Handler;
  getRequest : Request.t;
  startTime : Z;
  timestamp : Z;
}.

Section Pipe.
Variable context : ExecutionContext.
Variable auditOptions : AuditLogOptions.t.
Variable requestInfo : RequestInfo.t.
Variable tokenInfo : TokenExtractionResult.t.

Definition defer (responseInfo : ResponseInfo.t) (now : Z)
  : Deferred.t :=
  {| Deferred.timestamp := timestamp context;
     Deferred.requestInfo := requestInfo;
     Deferred.responseInfo := responseInfo;
     Deferred.tokenInfo := tokenInfo;
     Deferred.executionTime := now - startTime context;
     Deferred.auditOptions := auditOptions |}.

(** The callback of [tap]: the [setImmediate] it registers. *)
Definition tap_next (n : Observable.Next) : Deferred.t :=
  defer {| ResponseInfo.statusCode := VInt (Observable.statusCode n);
           ResponseInfo.data := Observable.data n |}
        (Observable.now n).

(** The callback of [catchError]: the [setImmediate] it registers and
    the error it throws. A read of [error.status] that throws leaves
    the callback before anything is registered. *)
Definition catchError_selector (e : value) (now : Z)
  : list Deferred.t * value :=
  match get e status, get e message with
  | Some st, Some msg =>
      ([ defer {| ResponseInfo.statusCode := or st (VInt 500);
                  ResponseInfo.data := msg |} now ], e)
  | None, _ => ([], TypeError status)
  | _, None => ([], TypeError message)
  end.

(** [next.handle().pipe(tap(...), catchError(...))]: the observable
    handed back and the calls registered with [setImmediate], in
    order. *)
Definition pipe (source : Observable.t)
  : Observable.t * list Deferred.t :=
  let on_values := map tap_next (Observable.values source) in
  match Observable.ending source with
  | Observable.Complete => (source, on_values)
  | Observable.Error e now =>
      let '(on_error, thrown) := catchError_selector e now in
      ({| Observable.values := Observable.values source;
          Observable.ending := Observable.Error thrown now |},
       (on_values ++ on_error)%list)
  end.
End Pipe.

(** [intercept(context, next)]; [None] when it throws (the SyntaxError
    of a route pattern). *)
Definition intercept (context : ExecutionContext) (next : Observable.t)
  : option (Observable.t * list Deferred.t) :=
  let handler := getHandler context in
  if negb (Decorator.isAuditLogEnabled handler) then Some (next, [])
  else
    let request := getRequest context in
    match shouldExcludeRoute (Request.url request) with
    | None => None
    | Some true => Some (next, [])
    | Some false =>
        let auditOptions :=
          default AuditLogOptions.empty
                  (Decorator.getAuditLogOptions handler) in
        let requestInfo := extractRequestInfo request in
        let tokenInfo := extractTokenInfo request in
        Some (pipe context auditOptions requestInfo tokenInfo next)
    end.

End WithRuntime.

End Interceptor.


(** *** The persisted row ([entities/audit-log.entity.ts]) *)

Module AuditLogEntity.
Record t := {
  id : option Z;
  timestamp : Z;
  userId : Js.value;
  userEmail : Js.value;
  httpMethod : string;
  endpoint : string;
  serviceName : option string;
  actionDescription : option string;
  requestData : option RequestData.t;
  responseData : Js.value;
  userAgent : string;
  ipAddress : string;
  token : option string;
  statusCode : Js.value;
  executionTimeMs : Z;
  createdAt : option Z;
}.
End AuditLogEntity.

(** *** Effects: exceptions, the logger and the repository

    A computation runs on a world made of the store behind the repository
    and of what was written to the logger, and either returns or throws. *)

Module Effect.
Import Js.

Inductive result (A : Type) :=
| Returned (a : A)
| Thrown (e : value).
Arguments Returned {A} a.
Arguments Thrown {A} e.

Inductive LogEntry :=
| LogError (text : string) (detail : value) (stack : value)
| LogDebug (text : string) (args : list value)
| LogInfo (text : string) (args : list value).

(** [result.affected] of a delete. *)
Record DeleteResult := { affected : option Z }.

(** The repository of typeorm, as far as the service calls it. *)
Class Repository (Store : Type) := {
  create : AuditLogEntity.t -> result AuditLogEntity.t;
  save : AuditLogEntity.t -> Store -> result unit * Store;
  delete_where_timestamp_lt : Z -> Store -> result DeleteResult * Store;
}.

Record World (Store : Type) := {
  store : Store;
  logged : list LogEntry;
  save_calls : nat;
}.
Arguments store {Store} w.
Arguments logged {Store} w.
Arguments save_calls {Store} w.

Definition M (Store A : Type) : Type :=
  World Store -> result A * World Store.

Definition ret {Store A} (a : A) : M Store A := fun w => (Returned a, w).

Definition throw {Store A} (e : value) : M Store A := fun w => (Thrown e, w).

Definition bind {Store A B} (m : M Store A) (k : A -> M Store B)
  : M Store B :=
  fun w =>
    match m w with
    | (Returned a, w') => k a w'
    | (Thrown e, w') => (Thrown e, w')
    end.

(** [try { m } catch (error) { handler(error) }] *)
Definition try_catch {Store A} (m : M Store A) (handler : value -> M Store A)
  : M Store A :=
  fun w =>
    match m w with
    | (Returned a, w') => (Returned a, w')
    | (Thrown e, w') => handler e w'
    end.

Definition log {Store} (entry : LogEntry) : M Store unit :=
  fun w =>
    (Returned tt,
     {| store := store w; logged := logged w ++ [entry];
        save_calls := save_calls w |}).

Definition lift {Store A} (r : result A) : M Store A := fun w => (r, w).

Definition call_save {Store} `{Repository Store} (entity : AuditLogEntity.t)
  : M Store unit :=
  fun w =>
    let '(r, s) := save entity (store w) in
    (r, {| store := s; logged := logged w;
           save_calls := S (save_calls w) |}).

Definition call_delete {Store} `{Repository Store} (cutoffDate : Z)
  : M Store DeleteResult :=
  fun w =>
    let '(r, s) := delete_where_timestamp_lt cutoffDate (store w) in
    (r, {| store := s; logged := logged w; save_calls := save_calls w |}).

End Effect.

(** *** Dates ([new Date()], [getDate], [setDate])

    The time value of a date is a whole number of milliseconds since the
    epoch. The operations are those of ECMA-262, section Date Objects; the
    offsets of the time zone are the host's. [TimeClip], which keeps every
    instant within 8.64e15 ms of the epoch, is the identity here: the
    clock of a process and the days around it are well inside. *)

Module JsDate.
Local Open Scope Z_scope.

Definition msPerDay : Z := 86400000.

Definition Day (t : Z) : Z := t / msPerDay.
Definition TimeWithinDay (t : Z) : Z := t mod msPerDay.

Definition DaysInYear (y : Z) : Z :=
  if negb (y mod 4 =? 0) then 365
  else if negb (y mod 100 =? 0) then 366
  else if negb (y mod 400 =? 0) then 365
  else 366.

Definition DayFromYear (y : Z) : Z :=
  365 * (y - 1970) + (y - 1969) / 4 - (y - 1901) / 100 + (y - 1601) / 400.

(** The largest year that starts on or before the day of [t]: the year the
    mean length of a year gives, or a neighbour. *)
Definition YearFromTime (t : Z) : Z :=
  let y := 1970 + 400 * Day t / 146097 in
  if DayFromYear (y + 1) <=? Day t then y + 1
  else if DayFromYear y <=? Day t then y
  else y - 1.

Definition InLeapYear (t : Z) : Z :=
  if DaysInYear (YearFromTime t) =? 366 then 1 else 0.

Definition DayWithinYear (t : Z) : Z := Day t - DayFromYear (YearFromTime t).

Definition MonthFromTime (t : Z) : Z :=
  let d := DayWithinYear t in
  let leap := InLeapYear t in
  if d <? 31 then 0
  else if d <? 59 + leap then 1
  else if d <? 90 + leap then 2
  else if d <? 120 + leap then 3
  else if d <? 151 + leap then 4
  else if d <? 181 + leap then 5
  else if d <? 212 + leap then 6
  else if d <? 243 + leap then 7
  else if d <? 273 + leap then 8
  else if d <? 304 + leap then 9
  else if d <? 334 + leap then 10
  else 11.

Definition DateFromTime (t : Z) : Z :=
  let d := DayWithinYear t in
  let leap := InLeapYear t in
  match MonthFromTime t with
  | 0 => d + 1
  | 1 => d - 30
  | 2 => d - 58 - leap
  | 3 => d - 89 - leap
  | 4 => d - 119 - leap
  | 5 => d - 150 - leap
  | 6 => d - 180 - leap
  | 7 => d - 211 - leap
  | 8 => d - 242 - leap
  | 9 => d - 272 - leap
  | 10 => d - 303 - leap
  | _ => d - 333 - leap
  end.

(** The day number of the first of month [mn] (0 to 11) of year [ym]. *)
Definition first_of_month (ym mn : Z) : Z :=
  let leap := if DaysInYear ym =? 366 then 1 else 0 in
  DayFromYear ym
  + match mn with
    | 0 => 0
    | 1 => 31
    | 2 => 59 + leap
    | 3 => 90 + leap
    | 4 => 120 + leap
    | 5 => 151 + leap
    | 6 => 181 + leap
    | 7 => 212 + leap
    | 8 => 243 + leap
    | 9 => 273 + leap
    | 10 => 304 + leap
    | _ => 334 + leap
    end.

(** [MakeDay(year, month, date)]: the day of the first of the month, moved
    by [date - 1]; a date below 1 reaches into the months before. *)
Definition MakeDay (year month date : Z) : Z :=
  let ym := year + month / 12 in
  let mn := month mod 12 in
  first_of_month ym mn + date - 1.

Definition MakeDate (day time : Z) : Z := day * msPerDay + time.

(** The time zone of the process: the offset of local time at an instant,
    and the offset to take off a local time, in milliseconds. *)
Record Zone := {
  offset_at : Z -> Z;
  offset_of_local : Z -> Z;
}.

Definition LocalTime (zone : Zone) (t : Z) : Z := t + offset_at zone t.
Definition UTC (zone : Zone) (t : Z) : Z := t - offset_of_local zone t.

(** [date.getDate()] and the time value after [date.setDate(dt)], for a
    date of time value [t]. *)
Definition getDate (zone : Zone) (t : Z) : Z := DateFromTime (LocalTime zone t).

Definition setDate (zone : Zone) (t dt : Z) : Z :=
  let t := LocalTime zone t in
  let newDate :=
    MakeDate (MakeDay (YearFromTime t) (MonthFromTime t) dt)
      (TimeWithinDay t) in
  UTC zone newDate.

(** A zone that keeps one offset all year. *)
Definition fixed (offset : Z) : Zone :=
  {| offset_at := fun _ => offset; offset_of_local := fun _ => offset |}.

(** A zone on [offset] whose clocks go forward one hour at the instant
    [change]; a local time in the hour that is skipped is read with the
    offset before the change. *)
Definition summer_time_from (offset change : Z) : Zone :=
  {| offset_at := fun t => if t <? change then offset else offset + 3600000;
     offset_of_local :=
       fun t =>
         if t <? change + offset + 3600000 then offset
         else offset + 3600000 |}.

End JsDate.

(** *** The service ([audit-logger.service.ts]) *)

Module Service.
Import Js Effect.

#[export] Instance M_bind {Store} : MBind (M Store) :=
  fun A B k m => bind m k.
#[export] Instance M_ret {Store} : MRet (M Store) := fun A a => ret a.

(** [error instanceof Error ? error.message : 'Unknown error'] and
    [error instanceof Error ? error.stack : undefined] *)
Definition message_of (e : value) : value :=
  if instanceof_Error e then default VUndefined (get e message)
  else VString "Unknown error".

Definition stack_of (e : value) : value :=
  if instanceof_Error e then default VUndefined (get e stack)
  else VUndefined.

(** The object literal [saveAuditLog] passes to [repository.create]. *)
Definition plain_object (auditData : AuditLogData.t) : AuditLogEntity.t :=
  {| AuditLogEntity.id := None;
     AuditLogEntity.timestamp := AuditLogData.timestamp auditData;
     AuditLogEntity.userId := AuditLogData.userId auditData;
     AuditLogEntity.userEmail := AuditLogData.userEmail auditData;
     AuditLogEntity.httpMethod := AuditLogData.httpMethod auditData;
     AuditLogEntity.endpoint := AuditLogData.endpoint auditData;
     AuditLogEntity.serviceName := AuditLogData.serviceName auditData;
     AuditLogEntity.actionDescription :=
       AuditLogData.actionDescription auditData;
     AuditLogEntity.requestData := AuditLogData.requestData auditData;
     AuditLogEntity.responseData := AuditLogData.responseData auditData;
     AuditLogEntity.userAgent := AuditLogData.userAgent auditData;
     AuditLogEntity.ipAddress := AuditLogData.ipAddress auditData;
     AuditLogEntity.token := AuditLogData.token auditData;
     AuditLogEntity.statusCode := AuditLogData.statusCode auditData;
     AuditLogEntity.executionTimeMs :=
       AuditLogData.executionTimeMs auditData;
     AuditLogEntity.createdAt := None |}.

(** [const cutoffDate = new Date();
    cutoffDate.setDate(cutoffDate.getDate() - retentionDays)] at the
    instant [now], for a whole number of days. *)
Definition cutoffDate (zone : JsDate.Zone) (now retentionDays : Z) : Z :=
  JsDate.setDate zone now (JsDate.getDate zone now - retentionDays)%Z.

Section WithRepository.

Context {Store : Type} `{Repository Store}.
Variable options : ModuleOptions.t.

(** The date arithmetic of the cleanup, left open here: what the cleanup
    does with the store and the log does not depend on it.
    [AuditLoggerService.cleanupOldAuditLogs] below is the method with the
    arithmetic of the source, [cutoffDate zone]. *)
Variable days_before : Z -> Z -> Z.

Definition saveAuditLog (auditData : AuditLogData.t) : M Store unit :=
  try_catch
    (auditLog ← lift (create (plain_object auditData));
     call_save auditLog;;
     match ModuleOptions.logLevel options with
     | Some debug =>
         log (LogDebug "Audit log saved"
                [ VString (AuditLogData.httpMethod auditData);
                  VString (AuditLogData.endpoint auditData);
                  AuditLogData.statusCode auditData ])
     | _ => ret tt
     end)
    (fun error =>
       log (LogError "Failed to save audit log"
              (message_of error) (stack_of error))).

(** [result.affected || 0] *)
Definition affected_or_0 (r : DeleteResult) : Z :=
  match affected r with
  | Some n => if (n =? 0)%Z then 0%Z else n
  | None => 0%Z
  end.

(** The body of [cleanupOldAuditLogs(retentionDays = 90)] called at the
    instant [now], over [days_before]; [None] for an argument left out. *)
Definition cleanupOldAuditLogs (now : Z) (retentionDays : option Z)
  : M Store Z :=
  let retentionDays := default 90%Z retentionDays in
  try_catch
    (let cutoffDate := days_before now retentionDays in
     r ← call_delete cutoffDate;
     let deletedCount := affected_or_0 r in
     log (LogInfo "Cleaned up audit logs"
            [ VInt deletedCount; VInt retentionDays ]);;
     ret deletedCount)
    (fun error =>
       log (LogError "Failed to cleanup old audit logs"
              (message_of error) (stack_of error));;
       throw error).

(** [createAuditLog] of the interceptor, which awaits [saveAuditLog]. *)
Definition createAuditLog (call : Deferred.t) : M Store unit :=
  try_catch
    (saveAuditLog (Interceptor.auditData options call))
    (fun error =>
       match get error message, get error stack with
       | Some m, Some s => log (LogError "Failed to save audit log" m s)
       | None, _ => throw (TypeError message)
       | _, None => throw (TypeError stack)
       end).

(** The [setImmediate] callbacks of one request, run in the order they
    were registered; a callback does not await [createAuditLog], so what
    that call throws is lost to the next callback. *)
Fixpoint run_deferred (calls : list Deferred.t) : M Store unit :=
  match calls with
  | [] => ret tt
  | c :: rest =>
      try_catch (createAuditLog c) (fun _ => ret tt);; run_deferred rest
  end.

End WithRepository.

(** An in-memory store: rows in insertion order; [outage], when set, is
    the error every statement is rejected with; [reports_affected] tells
    whether the driver fills [affected]. *)
Record Db := {
  rows : list AuditLogEntity.t;
  next_id : Z;
  clock : Z;
  outage : option value;
  reports_affected : bool;
}.

Definition stamp (e : AuditLogEntity.t) (db : Db) : AuditLogEntity.t :=
  {| AuditLogEntity.id := Some (next_id db);
     AuditLogEntity.timestamp := AuditLogEntity.timestamp e;
     AuditLogEntity.userId := AuditLogEntity.userId e;
     AuditLogEntity.userEmail := AuditLogEntity.userEmail e;
     AuditLogEntity.httpMethod := AuditLogEntity.httpMethod e;
     AuditLogEntity.endpoint := AuditLogEntity.endpoint e;
     AuditLogEntity.serviceName := AuditLogEntity.serviceName e;
     AuditLogEntity.actionDescription := AuditLogEntity.actionDescription e;
     AuditLogEntity.requestData := AuditLogEntity.requestData e;
     AuditLogEntity.responseData := AuditLogEntity.responseData e;
     AuditLogEntity.userAgent := AuditLogEntity.userAgent e;
     AuditLogEntity.ipAddress := AuditLogEntity.ipAddress e;
     AuditLogEntity.token := AuditLogEntity.token e;
     AuditLogEntity.statusCode := AuditLogEntity.statusCode e;
     AuditLogEntity.executionTimeMs := AuditLogEntity.executionTimeMs e;
     AuditLogEntity.createdAt := Some (clock db) |}.

Definition with_rows (db : Db) (l : list AuditLogEntity.t) (n : Z) : Db :=
  {| rows := l; next_id := n; clock := clock db; outage := outage db;
     reports_affected := reports_affected db |}.

Definition older_than (cutoffDate : Z) (e : AuditLogEntity.t) : bool :=
  (AuditLogEntity.timestamp e <? cutoffDate)%Z.

#[export] Instance memory : Repository Db := {
  create e := Returned e;
  save e db :=
    match outage db with
    | Some err => (Thrown err, db)
    | None => (Returned tt,
               with_rows db (rows db ++ [stamp e db]) (next_id db + 1))
    end;
  delete_where_timestamp_lt cutoffDate db :=
    match outage db with
    | Some err => (Thrown err, db)
    | None =>
        let gone := List.filter (older_than cutoffDate) (rows db) in
        let kept :=
          List.filter (fun e => negb (older_than cutoffDate e)) (rows db) in
        (Returned
           {| affected :=
                if reports_affected db then Some (Z.of_nat (length gone))
                else None |},
         with_rows db kept (next_id db))
    end;
}.

(** Calendar arithmetic in a zone without clock changes, in milliseconds. *)
Definition utc_days_before (now days : Z) : Z := (now - days * 86400000)%Z.

End Service.

(** *** [AuditLoggerService.cleanupOldAuditLogs] *)

Module AuditLoggerService.
Import Js Effect Service.

(** [cleanupOldAuditLogs(retentionDays: number = 90)] in a process whose
    time zone is [zone], called at the instant [now] ([new Date()]);
    [None] for an argument left out; a whole number of days. *)
Definition cleanupOldAuditLogs {Store : Type} `{Repository Store}
    (zone : JsDate.Zone) (now : Z) (retentionDays : option Z) : M Store Z :=
  let retentionDays := default 90%Z retentionDays in
  try_catch
    (let cutoffDate :=
       JsDate.setDate zone now (JsDate.getDate zone now - retentionDays)%Z in
     r ← call_delete cutoffDate;
     let deletedCount := affected_or_0 r in
     log (LogInfo "Cleaned up audit logs"
            [ VInt deletedCount; VInt retentionDays ]);;
     ret deletedCount)
    (fun error =>
       log (LogError "Failed to cleanup old audit logs"
              (message_of error) (stack_of error));;
       throw error).

End AuditLoggerService.

(** [serve]: one request through the interceptor, then the turn of the
    event loop that runs what [setImmediate] registered. The observable is
    handed back to the framework before that turn. *)
Module Server.
Import Effect.

Definition serve {Store : Type} `{Repository Store}
    (JSON_parse : string -> option Js.value)
    (base64url_toString : string -> string)
    (RegExp_test : string -> string -> option bool)
    (options : ModuleOptions.t)
    (context : Interceptor.ExecutionContext) (next : Observable.t)
    (w : World Store) : option (Observable.t * World Store) :=
  match Interceptor.intercept JSON_parse base64url_toString RegExp_test
          options context next with
  | None => None
  | Some (handed_back, calls) =>
      Some (handed_back, snd (Service.run_deferred options calls w))
  end.

End Server.

(** *** The specification's wording

    Definitions that follow the sentences of the specification, to be
    compared with the functions of the source. *)

Module Spec.
Import JsString Js.

(** Sanitizer: every header under one of the names is redacted, every
    other header is kept. *)
Definition sanitize (headers : gmap string string) : gmap string string :=
  map_imap
    (fun k v =>
       Some (if decide (k ∈ Sanitizer.sensitiveHeaders)
             then Sanitizer.REDACTED else v))
    headers.

(** A [string | undefined] that is neither [undefined] nor empty. *)
Definition nonempty (o : option string) : option string :=
  match o with
  | Some s => if is_empty s then None else Some s
  | None => None
  end.

(** The custom headers, then the query parameters, that carry a non-empty
    value, in the order they are tried. *)
Definition candidates (request : Request.t) : list string :=
  omap (fun k => nonempty (Request.headers request !! k))
       Interceptor.customHeaders
  ++ omap (fun k => nonempty (Request.query request !! k))
          Interceptor.queryParams.

(** Token resolution: the first source that is present wins. *)
Fixpoint first_present (read : string -> option string)
    (names : list string) : option string :=
  match names with
  | [] => None
  | k :: rest =>
      match read k with
      | Some v => Some v
      | None => first_present read rest
      end
  end.

(** The Authorization header as worded: a case-insensitive [Bearer ]
    prefix is stripped, any other value is used as it is. *)
Definition strip_Bearer (h : string) : string :=
  if String.eqb (toLowerCase (take 7 h)) "bearer " then drop 7 h else h.

Definition resolve_token (request : Request.t) : option string :=
  match Request.headers request !! "authorization" with
  | Some h => Some (strip_Bearer h)
  | None =>
      match first_present (fun k => Request.headers request !! k)
              Interceptor.customHeaders with
      | Some v => Some v
      | None =>
          first_present (fun k => Request.query request !! k)
            Interceptor.queryParams
      end
  end.

(** The Bearer form, amended: the header [h] is [Bearer] in any letter
    case, then one or more white-space characters, then the token [t],
    which is not empty and holds no line terminator; the white space is
    taken as long as it can be, so [t] does not begin with white space
    unless it is one character, the white space the header ends with. *)
Definition bearer_form (h t : string) : Prop :=
  ∃ b ws : string,
    h = (b ++ ws ++ t)%string
    ∧ String.length b = 6%nat ∧ toLowerCase b = "bearer"
    ∧ is_empty ws = false ∧ forallb is_space ws = true
    ∧ is_empty t = false
    ∧ forallb (fun c => negb (is_line_terminator c)) t = true
    ∧ (span_length is_space t = 0%nat ∨ String.length t = 1%nat).




Definition email_names : list prop := [email; user_email; userEmail].

(** Route exclusion: [*] stands for any characters, every other character
    for itself, and the whole path must be matched. *)
Fixpoint glob (pattern : string) (path : string) : bool :=
  match pattern with
  | EmptyString => is_empty path
  | String c pattern' =>
      if Ascii.eqb c "*" then
        (fix any (t : string) : bool :=
           glob pattern' t
           || match t with
              | String _ r => any r
              | EmptyString => false
              end) path
      else
        match path with
        | String d r => Ascii.eqb c d && glob pattern' r
        | EmptyString => false
        end
  end.

Definition pattern_matches (pattern path : string) : bool :=
  if includes pattern "*" then glob pattern path
  else startsWith path pattern.

Definition isExcluded (path : string) (patterns : list string) : bool :=
  existsb (fun pattern => pattern_matches pattern path) patterns.

(** A field of the record is present when it is not [undefined]. *)
Definition present (v : value) : bool :=
  match v with VUndefined => false | _ => true end.

(** The effective flag: the per-call option when present, else the global
    option when present, else [false]. *)
Definition effective (per_call global : option bool) : bool :=
  default false (per_call ∪ global).

(** Error path: the status code carried by the error when present, 500
    otherwise. *)
Definition carried_status (e : value) : value :=
  match get e status with
  | Some VUndefined | None => VInt 500
  | Some st => st
  end.

(** The status code the [catchError] callback settles on. *)
Definition truthy_status (e : value) : value :=
  or (default VUndefined (get e status)) (VInt 500).

Section Requests.

Variable JSON_parse : string -> option value.
Variable base64url_toString : string -> string.
Variable RegExp_test : string -> string -> option bool.
Variable options : ModuleOptions.t.

(** A request is audited when its handler carries the marker and its url
    is not excluded. *)
Definition audited (context : Interceptor.ExecutionContext) : Prop :=
  Decorator.isAuditLogEnabled (Interceptor.getHandler context) = true
  ∧ Interceptor.shouldExcludeRoute RegExp_test options
      (Request.url (Interceptor.getRequest context)) = Some false.

(** The per-call options of a request and the two effective flags. *)
Definition per_call (context : Interceptor.ExecutionContext)
  : AuditLogOptions.t :=
  default AuditLogOptions.empty (Interceptor.getHandler context).

Definition logs_request (context : Interceptor.ExecutionContext) : bool :=
  effective (AuditLogOptions.logRequestBody (per_call context))
            (ModuleOptions.logRequestBody options).

Definition logs_response (context : Interceptor.ExecutionContext) : bool :=
  effective (AuditLogOptions.logResponseBody (per_call context))
            (ModuleOptions.logResponseBody options).

(** A handler that throws [e]: no value, then the error. *)
Definition throws (e : value) (now : Z) : Observable.t :=
  {| Observable.values := []; Observable.ending := Observable.Error e now |}.

(** Error path parity, with the rule for the status code as a parameter:
    one record is composed, it has that status code and, when the response
    body is logged, the message of the error, and the error goes on
    unchanged. *)
Definition error_parity (status_of : value -> value)
    (context : Interceptor.ExecutionContext) (e : value) (now : Z) : Prop :=
  ∃ call : Deferred.t,
    Interceptor.intercept JSON_parse base64url_toString RegExp_test options
      context (throws e now)
    = Some (throws e now, [call])
    ∧ AuditLogData.statusCode (Interceptor.auditData options call)
      = status_of e
    ∧ AuditLogData.responseData (Interceptor.auditData options call)
      = if logs_response context
        then default VUndefined (get e message)
        else VUndefined.

(** Presence of the optional fields, as worded: each of the two is there
    exactly when its effective flag is on. *)
Definition presence_follows_flags
    (context : Interceptor.ExecutionContext) (next : Observable.t) : Prop :=
  ∀ (handed_back : Observable.t) (calls : list Deferred.t) (call : Deferred.t),
    Interceptor.intercept JSON_parse base64url_toString RegExp_test options
      context next = Some (handed_back, calls) →
    call ∈ calls →
    (is_Some (AuditLogData.requestData (Interceptor.auditData options call))
     ↔ logs_request context = true)
    ∧ (present (AuditLogData.responseData
                  (Interceptor.auditData options call)) = true
       ↔ logs_response context = true).

End Requests.

End Spec.

(** *** Routes within the reach of [Module Regex] *)

Module Routes.
Import JsString.

(** A route is clean when each of its characters is [*] or is ordinary for
    the pattern grammar. *)
Definition clean_char (c : ascii) : bool :=
  Ascii.eqb c "*" || negb (Regex.is_syntax_character c).

Definition clean (route : string) : bool := forallb clean_char route.

Definition single_line (s : string) : bool :=
  forallb (fun c => negb (is_line_terminator c)) s.

(** What the translated route compiles to. *)
Fixpoint translate (route : string) : list Regex.atom :=
  match route with
  | EmptyString => []
  | String c r =>
      (if Ascii.eqb c "*" then Regex.AnyRun else Regex.Lit c) :: translate r
  end.

End Routes.

(** *** Sample requests, handlers, errors and stores *)

Module Samples.
Import JsString Js Interceptor Effect Service.

(** The request [GET /items?token=&apikey=k1]: a [token] parameter that is
    present and empty, followed by an [apikey]. *)
Definition empty_token_request : Request.t :=
  {| Request.method := "GET";
     Request.url := "/items?token=&apikey=k1";
     Request.headers := ∅;
     Request.query := <["token" := EmptyString]> {[ "apikey" := "k1" ]};
     Request.body := VUndefined;
     Request.connection_remoteAddress := None;
     Request.socket_remoteAddress := None;
     Request.ip := None |}.

(** The request of the specification's example: [Authorization: Bearer abc]
    together with [?token=zzz]. *)
Definition bearer_and_query_request : Request.t :=
  {| Request.method := "GET";
     Request.url := "/items?token=zzz";
     Request.headers := {[ "authorization" := "Bearer abc" ]};
     Request.query := {[ "token" := "zzz" ]};
     Request.body := VUndefined;
     Request.connection_remoteAddress := None;
     Request.socket_remoteAddress := None;
     Request.ip := None |}.

(** [Authorization: Bearer], two spaces, [abc]. *)
Definition two_spaces_request : Request.t :=
  {| Request.method := "GET";
     Request.url := "/items";
     Request.headers := {[ "authorization" := "Bearer  abc" ]};
     Request.query := ∅;
     Request.body := VUndefined;
     Request.connection_remoteAddress := None;
     Request.socket_remoteAddress := None;
     Request.ip := None |}.

(** A request without credentials. *)
Definition plain_request (url : string) : Request.t :=
  {| Request.method := "GET";
     Request.url := url;
     Request.headers := {[ "user-agent" := "curl/8.5.0" ]};
     Request.query := ∅;
     Request.body := VUndefined;
     Request.connection_remoteAddress := Some "10.0.0.7";
     Request.socket_remoteAddress := Some "10.0.0.7";
     Request.ip := Some "10.0.0.7" |}.

(** A handler without the marker, serving [/health]. *)
Definition unmarked_context : ExecutionContext :=
  {| getHandler := None;
     getRequest := plain_request "/health";
     startTime := 1000;
     timestamp := 1000 |}.

(** An error that carries the status code 404. *)
Definition not_found : value :=
  VObject ErrorPrototype
    [ ("status", VInt 404); ("message", VString "Not Found") ].

(** A handler marked with [@AuditLog(auditOptions)]. *)
Definition marked_context (auditOptions : AuditLogOptions.t) (url : string)
  : ExecutionContext :=
  {| getHandler := Decorator.AuditLog (Some auditOptions);
     getRequest := plain_request url;
     startTime := 1000;
     timestamp := 1000 |}.

(** An error that carries the status code 0, as the errors of a failed
    upstream call do. *)
Definition upstream_unreachable : value :=
  VObject ErrorPrototype
    [ ("status", VInt 0); ("message", VString "connect ECONNREFUSED") ].

(** A marked handler that asks for the response body and returns nothing:
    [@AuditLog({ logResponseBody: true })] on a handler of type void. *)
Definition logs_response_body : AuditLogOptions.t :=
  {| AuditLogOptions.serviceName := Some "OrdersService";
     AuditLogOptions.description := Some "Delete order";
     AuditLogOptions.logRequestBody := None;
     AuditLogOptions.logResponseBody := Some true |}.

(** A handler that returns [data] once and completes. *)
Definition returns (data : value) (statusCode now : Z) : Observable.t :=
  {| Observable.values :=
       [ {| Observable.data := data; Observable.statusCode := statusCode;
            Observable.now := now |} ];
     Observable.ending := Observable.Complete |}.

(** The error of a refused connection. *)
Definition connection_refused : value :=
  VObject ErrorPrototype
    [ ("message", VString "connect ECONNREFUSED 127.0.0.1:5432");
      ("stack", VString "Error: connect ECONNREFUSED 127.0.0.1:5432") ].

(** A store that rejects every statement. *)
Definition db_down : Db :=
  {| rows := []; next_id := 1; clock := 2000;
     outage := Some connection_refused; reports_affected := true |}.

(** The world before anything was logged or saved. *)
Definition start (db : Db) : World Db :=
  {| store := db; logged := []; save_calls := 0 |}.

(** A composed record. *)
Definition sample_data : AuditLogData.t :=
  {| AuditLogData.timestamp := 1000;
     AuditLogData.userId := VString "u1";
     AuditLogData.userEmail := VUndefined;
     AuditLogData.httpMethod := "GET";
     AuditLogData.endpoint := "/orders";
     AuditLogData.serviceName := Some "OrdersService";
     AuditLogData.actionDescription := None;
     AuditLogData.requestData := None;
     AuditLogData.responseData := VUndefined;
     AuditLogData.userAgent := "curl/8.5.0";
     AuditLogData.ipAddress := "10.0.0.7";
     AuditLogData.token := Some "abc";
     AuditLogData.statusCode := VInt 200;
     AuditLogData.executionTimeMs := 12 |}.

(** A stored row with the given timestamp. *)
Definition row_at (timestamp : Z) : AuditLogEntity.t :=
  stamp (plain_object
           {| AuditLogData.timestamp := timestamp;
              AuditLogData.userId := VUndefined;
              AuditLogData.userEmail := VUndefined;
              AuditLogData.httpMethod := "GET";
              AuditLogData.endpoint := "/orders";
              AuditLogData.serviceName := None;
              AuditLogData.actionDescription := None;
              AuditLogData.requestData := None;
              AuditLogData.responseData := VUndefined;
              AuditLogData.userAgent := EmptyString;
              AuditLogData.ipAddress := "10.0.0.7";
              AuditLogData.token := None;
              AuditLogData.statusCode := VInt 200;
              AuditLogData.executionTimeMs := 3 |})
        {| rows := []; next_id := 1; clock := timestamp;
           outage := None; reports_affected := true |}.

Definition day : Z := 86400000.

(** Three rows, aged 200, 90 and 10 days on day 500. *)
Definition three_rows (reports : bool) : Db :=
  {| rows := [ row_at (300 * day); row_at (410 * day); row_at (490 * day) ];
     next_id := 4; clock := 500 * day;
     outage := None; reports_affected := reports |}.

End Samples.


(** *** Shapes of text and of routes, for the statements below *)

Module Text.
Import JsString.

Definition starts_with_space (s : string) : bool :=
  match s with
  | String c _ => is_space c
  | EmptyString => false
  end.

Fixpoint ends_with_space (s : string) : bool :=
  match s with
  | EmptyString => false
  | String c r => if is_empty r then is_space c else ends_with_space r
  end.

(** The route without its last character when that is a star. *)
Fixpoint without_last_star (route : string) : string :=
  match route with
  | EmptyString => EmptyString
  | String c r =>
      if Ascii.eqb c "*" && is_empty r then EmptyString
      else String c (without_last_star r)
  end.

(** A route made of ordinary characters, with at most one star, at its
    end. *)
Definition prefix_route (route : string) : bool :=
  Routes.clean route && negb (includes (without_last_star route) "*").

(** What [(.+)$] accepts: a non-empty rest without line terminators. *)
Definition one_line_rest (r : string) : bool :=
  negb (is_empty r) && forallb (fun c => negb (is_line_terminator c)) r.

(** [null] and [undefined]. *)
Definition nullish (v : Js.value) : bool :=
  match v with
  | Js.VUndefined | Js.VNull => true
  | _ => false
  end.

End Text.

(** *** More sample inputs *)

Module More.
Import JsString Js Interceptor Effect Service.

(** A request that went through a proxy: the header is the proxy's, the
    socket is the proxy itself. *)
Definition forwarded_request (forwarded : string) : Request.t :=
  {| Request.method := "GET";
     Request.url := "/orders";
     Request.headers := {[ "x-forwarded-for" := forwarded ]};
     Request.query := ∅;
     Request.body := VUndefined;
     Request.connection_remoteAddress := Some "10.0.0.7";
     Request.socket_remoteAddress := Some "10.0.0.7";
     Request.ip := Some "10.0.0.7" |}.

(** A request that carries [Authorization: Bearer] and the token [t], a
    query string and a body. *)
Definition bearer_request (t : string) : Request.t :=
  {| Request.method := "POST";
     Request.url := "/login?next=%2Fhome";
     Request.headers :=
       <["authorization" := "Bearer " ++ t]>
         {[ "content-type" := "application/json" ]};
     Request.query := {[ "next" := "/home" ]};
     Request.body :=
       VObject ObjectPrototype [ ("password", VString "hunter2") ];
     Request.connection_remoteAddress := Some "10.0.0.7";
     Request.socket_remoteAddress := Some "10.0.0.7";
     Request.ip := Some "10.0.0.7" |}.

(** [@AuditLog({ logRequestBody: true })] *)
Definition logs_request_body : AuditLogOptions.t :=
  {| AuditLogOptions.serviceName := Some "AuthService";
     AuditLogOptions.description := Some "Log in";
     AuditLogOptions.logRequestBody := Some true;
     AuditLogOptions.logResponseBody := None |}.

Definition login_context (t : string) : ExecutionContext :=
  {| getHandler := Decorator.AuditLog (Some logs_request_body);
     getRequest := bearer_request t;
     startTime := 1000;
     timestamp := 1000 |}.

(** A handler observable of two values, as a stream gives. *)
Definition two_values : Observable.t :=
  {| Observable.values :=
       [ {| Observable.data := VString "a"; Observable.statusCode := 200;
            Observable.now := 1004 |};
         {| Observable.data := VString "b"; Observable.statusCode := 200;
            Observable.now := 1009 |} ];
     Observable.ending := Observable.Complete |}.

End More.

(** *** Reporting ([getAuditLogs], [getAuditLogsCount],
    [getAuditStatistics] of [audit-logger.service.ts])

    The service builds queries and hands them to typeorm. A query is the
    list of its WHERE conditions, its order and its window; what a
    condition means for a row, how rows are ordered and aggregated are the
    database's, and variables here. Pages, limits and status codes are
    whole numbers, dates are instants in milliseconds. *)

Module Reporting.
Import JsString Js Effect Service.

(** [keyof AuditLogEntity] *)
Module Column.
Inductive t :=
| id | timestamp | userId | userEmail | httpMethod | endpoint | serviceName
| actionDescription | requestData | responseData | userAgent | ipAddress
| token | statusCode | executionTimeMs | createdAt.
End Column.

Inductive SortOrder := ASC | DESC.

Inductive Condition :=
| UserIdIs (userId : string)
| ServiceNameIs (serviceName : string)
| HttpMethodIs (httpMethod : string)
| StatusCodeIs (statusCode : Z)
| EndpointILike (pattern : string)
| TimestampGe (startDate : Z)
| TimestampLe (endDate : Z)
| Sql (text : string).

Module Filters.
Record t := {
  userId : option string;
  serviceName : option string;
  httpMethod : option string;
  statusCode : option Z;
  startDate : option Z;
  endDate : option Z;
  endpoint : option string;
}.

(** [{}] *)
Definition none : t :=
  {| userId := None; serviceName := None; httpMethod := None;
     statusCode := None; startDate := None; endDate := None;
     endpoint := None |}.
End Filters.

Module Paging.
Record t := {
  page : option Z;
  limit : option Z;
  sortBy : option Column.t;
  sortOrder : option SortOrder;
}.
End Paging.

Module Query.
Record t := {
  wheres : list Condition;
  orderBy : Column.t * SortOrder;
  skip : Z;
  take : Z;
}.
End Query.

Module Page.
Record t := {
  data : list AuditLogEntity.t;
  total : Z;
  page : Z;
  limit : Z;
}.
End Page.

(** [if (text) { andWhere(...) }] and its like for a number and a date: a
    date object is always truthy. *)
Definition when_text (o : option string) (c : string -> Condition)
  : list Condition :=
  match o with
  | Some s => if is_empty s then [] else [c s]
  | None => []
  end.

Definition when_number (o : option Z) (c : Z -> Condition)
  : list Condition :=
  match o with
  | Some n => if (n =? 0)%Z then [] else [c n]
  | None => []
  end.

Definition when_date (o : option Z) (c : Z -> Condition) : list Condition :=
  match o with
  | Some d => [c d]
  | None => []
  end.

(** [n || d] on a number. *)
Definition number_or (o : option Z) (d : Z) : Z :=
  match o with
  | Some n => if (n =? 0)%Z then d else n
  | None => d
  end.

(** The conditions [getAuditLogs] adds, in order. *)
Definition conditions (filters : Filters.t) : list Condition :=
  (when_text (Filters.userId filters) UserIdIs
   ++ when_text (Filters.serviceName filters) ServiceNameIs
   ++ when_text (Filters.httpMethod filters) HttpMethodIs
   ++ when_number (Filters.statusCode filters) StatusCodeIs
   ++ when_text (Filters.endpoint filters)
        (fun e => EndpointILike ("%" ++ e ++ "%")%string)
   ++ when_date (Filters.startDate filters) TimestampGe
   ++ when_date (Filters.endDate filters) TimestampLe)%list.

(** The query [getAuditLogs] builds, with the page and the limit it
    reports. *)
Definition query (filters : Filters.t) (options : Paging.t) : Query.t :=
  let sortBy := default Column.timestamp (Paging.sortBy options) in
  let sortOrder := default DESC (Paging.sortOrder options) in
  let page := number_or (Paging.page options) 1 in
  let limit := number_or (Paging.limit options) 50 in
  let skip := ((page - 1) * limit)%Z in
  {| Query.wheres := conditions filters;
     Query.orderBy := (sortBy, sortOrder);
     Query.skip := skip;
     Query.take := limit |}.

(** Filters that differ only where both hold nothing or a falsy value: an
    empty text, the number 0. *)
Definition blank_text (o : option string) : bool :=
  match o with
  | Some s => is_empty s
  | None => true
  end.

Definition blank_number (o : option Z) : bool :=
  match o with
  | Some n => (n =? 0)%Z
  | None => true
  end.

Definition same_text (a b : option string) : bool :=
  (blank_text a && blank_text b) || bool_decide (a = b).

Definition same_number (a b : option Z) : bool :=
  (blank_number a && blank_number b) || bool_decide (a = b).

Definition same_filters (f g : Filters.t) : bool :=
  same_text (Filters.userId f) (Filters.userId g)
  && same_text (Filters.serviceName f) (Filters.serviceName g)
  && same_text (Filters.httpMethod f) (Filters.httpMethod g)
  && same_number (Filters.statusCode f) (Filters.statusCode g)
  && same_text (Filters.endpoint f) (Filters.endpoint g)
  && bool_decide (Filters.startDate f = Filters.startDate g)
  && bool_decide (Filters.endDate f = Filters.endDate g).

(** A request for the status code 0 and for empty texts, in a date
    range. *)
Definition blank_filters (startDate endDate : option Z) : Filters.t :=
  {| Filters.userId := Some EmptyString;
     Filters.serviceName := Some EmptyString;
     Filters.httpMethod := Some EmptyString;
     Filters.statusCode := Some 0%Z;
     Filters.startDate := startDate;
     Filters.endDate := endDate;
     Filters.endpoint := Some EmptyString |}.

(** [result >>= k] on results. *)
Definition and_then {A B} (r : result A) (k : A -> result B) : result B :=
  match r with
  | Returned a => k a
  | Thrown e => Thrown e
  end.

(** The error of a window the database refuses. *)
Definition negative_window : value :=
  VObject ErrorPrototype
    [ ("message", VString "OFFSET and LIMIT must not be negative") ].

Module Statistics.
Record t := {
  totalRequests : Z;
  successfulRequests : Z;
  failedRequests : Z;
  averageExecutionTime : value;
  topEndpoints : list (value * value);
  topUsers : list (value * value);
}.
End Statistics.

(** What [getStats] answers. *)
Module Stats.
Inductive t :=
| Report (totalLogs last24Hours : Z) (recentLogs : list AuditLogEntity.t)
    (lastUpdate : Z)
| Failure (error : string) (message : value) (timestamp : Z).
End Stats.

Section WithDatabase.

(** Whether a row satisfies a condition. *)
Variable holds : Condition -> AuditLogEntity.t -> bool.
(** [ORDER BY column order] *)
Variable ordered :
  Column.t -> SortOrder -> list AuditLogEntity.t -> list AuditLogEntity.t.
(** [AVG(audit.executionTimeMs)] as the driver gives it: text, or nothing
    for NULL. *)
Variable average : list AuditLogEntity.t -> option string.
(** [SELECT column, COUNT( * ) ... GROUP BY column ORDER BY count DESC
    LIMIT 10] as the driver gives it: the value and the count as text. *)
Variable top : Column.t -> list AuditLogEntity.t -> list (value * string).
Variable parseFloat : string -> value.
Variable parseInt : string -> value.

(** The rows that satisfy every condition: conditions added with
    [andWhere] are joined by AND. *)
Definition selected (wheres : list Condition) (db : Db)
  : list AuditLogEntity.t :=
  List.filter (fun row => List.forallb (fun c => holds c row) wheres)
    (rows db).

(** [getCount()] *)
Definition getCount (wheres : list Condition) (db : Db) : result Z :=
  match outage db with
  | Some e => Thrown e
  | None => Returned (Z.of_nat (length (selected wheres db)))
  end.

(** [getManyAndCount()]: the window is cut out of the ordered rows, the
    count is that of all the rows selected. *)
Definition getManyAndCount (q : Query.t) (db : Db)
  : result (list AuditLogEntity.t * Z) :=
  match outage db with
  | Some e => Thrown e
  | None =>
      if ((Query.skip q <? 0) || (Query.take q <? 0))%Z
      then Thrown negative_window
      else
        let all := selected (Query.wheres q) db in
        Returned
          (firstn (Z.to_nat (Query.take q))
             (skipn (Z.to_nat (Query.skip q))
                (ordered (fst (Query.orderBy q)) (snd (Query.orderBy q))
                   all)),
           Z.of_nat (length all))
  end.

Definition getAuditLogs (filters : Filters.t) (options : Paging.t) (db : Db)
  : result Page.t :=
  let q := query filters options in
  and_then (getManyAndCount q db)
    (fun '(data, total) =>
       Returned
         {| Page.data := data;
            Page.total := total;
            Page.page := number_or (Paging.page options) 1;
            Page.limit := Query.take q |}).

Definition getAuditLogsCount (startDate endDate : option Z) (db : Db)
  : result Z :=
  getCount
    (when_date startDate TimestampGe ++ when_date endDate TimestampLe)%list
    db.

(** [getRawOne()] and [getRawMany()] for the aggregates. *)
Definition getRawOne (wheres : list Condition) (db : Db)
  : result (option string) :=
  match outage db with
  | Some e => Thrown e
  | None => Returned (average (selected wheres db))
  end.

Definition getRawMany (column : Column.t) (wheres : list Condition) (db : Db)
  : result (list (value * string)) :=
  match outage db with
  | Some e => Thrown e
  | None => Returned (top column (selected wheres db))
  end.

(** [getAuditStatistics(filters)]. The clones add to the conditions of the
    base query with [andWhere]; the last one calls [where], which in
    typeorm replaces the conditions set so far. The six queries are
    answered by one state [db] of the store: this is the call on a store
    that does not change while it runs. *)
Definition getAuditStatistics (startDate endDate : option Z)
    (serviceName : option string) (db : Db) : result Statistics.t :=
  let base : list Condition :=
    (when_date startDate TimestampGe
     ++ when_date endDate TimestampLe
     ++ when_text serviceName ServiceNameIs)%list in
  and_then (getCount base db) (fun totalRequests =>
  and_then
    (getCount
       (base ++ [Sql "audit.statusCode >= 200 AND audit.statusCode < 300"])%list
       db) (fun successfulRequests =>
  and_then (getCount (base ++ [Sql "audit.statusCode >= 400"])%list db)
    (fun failedRequests =>
  and_then (getRawOne base db) (fun avg =>
  let averageExecutionTime :=
    parseFloat (default "0" (JsString.or_string avg (Some "0"))) in
  and_then (getRawMany Column.endpoint base db) (fun topEndpoints =>
  and_then (getRawMany Column.userId [Sql "audit.userId IS NOT NULL"] db)
    (fun topUsers =>
  Returned
    {| Statistics.totalRequests := totalRequests;
       Statistics.successfulRequests := successfulRequests;
       Statistics.failedRequests := failedRequests;
       Statistics.averageExecutionTime := averageExecutionTime;
       Statistics.topEndpoints :=
         map (fun item => (fst item, parseInt (snd item))) topEndpoints;
       Statistics.topUsers :=
         map (fun item => (fst item, parseInt (snd item))) topUsers |})))))).

(** [getStats()] of [AuditLoggerDiagnosticController]: [now] is
    [Date.now()], [later] the instant of the [new Date()] of the answer.
    The three queries are answered by one state [db] of the store. *)
Definition getStats (now later : Z) (db : Db) : Stats.t :=
  match
    and_then (getAuditLogsCount None None db) (fun total =>
    and_then (getAuditLogsCount (Some (now - 24 * 60 * 60 * 1000)%Z) None db)
      (fun recent =>
    and_then
      (getAuditLogs Filters.none
         {| Paging.page := None;
            Paging.limit := Some 10%Z;
            Paging.sortBy := Some Column.timestamp;
            Paging.sortOrder := Some DESC |}
         db) (fun recentLogs =>
    Returned (total, recent, Page.data recentLogs))))
  with
  | Returned (total, recent, recentLogs) =>
      Stats.Report total recent recentLogs later
  | Thrown thrown =>
      Stats.Failure "Failed to get stats" (message_of thrown) later
  end.

End WithDatabase.

(** The rows of a page, none when the query failed. *)
Definition rows_of (r : result Page.t) : list AuditLogEntity.t :=
  match r with
  | Returned p => Page.data p
  | Thrown _ => []
  end.

(** A database for the examples: a condition on the service name is
    checked against the row, any other holds; rows stay in insertion
    order; the aggregates are empty. *)
Definition sample_holds (c : Condition) (row : AuditLogEntity.t) : bool :=
  match c with
  | ServiceNameIs s =>
      match AuditLogEntity.serviceName row with
      | Some s' => String.eqb s s'
      | None => false
      end
  | TimestampGe d => (d <=? AuditLogEntity.timestamp row)%Z
  | TimestampLe d => (AuditLogEntity.timestamp row <=? d)%Z
  | _ => true
  end.

Definition sample_ordered (_ : Column.t) (_ : SortOrder)
    (l : list AuditLogEntity.t) : list AuditLogEntity.t := l.

End Reporting.

(** *** Diagnostics ([testConnection] and
    [saveAuditLogWithDiagnostics] of [audit-logger.service.ts], and
    [AuditLoggerDiagnosticController])

    Text outside ASCII is kept as its UTF-8 bytes. A log entry keeps the
    constant words of its text and the values put into it. *)

Module Diagnostics.
Import JsString Js Effect Service.

(** [s.includes(sub)] *)
Fixpoint contains (s sub : string) : bool :=
  String.prefix sub s
  || match s with
     | String _ r => contains r sub
     | EmptyString => false
     end.

Module ConnectionTest.
Record t := {
  connected : bool;
  tableExists : bool;
  canWrite : bool;
  error : value;
}.
End ConnectionTest.

(** What the environment answers to each step of [testConnection]; a step
    is asked at most once. *)
Record Probe := {
  (** [this.auditLogRepository] is there *)
  repository : bool;
  (** [this.auditLogRepository.metadata.tableName] *)
  metadata_tableName : result value;
  (** [this.auditLogRepository.manager.connection.isInitialized] *)
  isInitialized : result bool;
  (** [connection.createQueryRunner().hasTable('audit_logs')] *)
  hasTable : result bool;
  (** [queryRunner.release()] *)
  release : result unit;
  (** [create(testData)] then [save(testLog)] *)
  create_and_save : result unit;
  (** [delete({ id: testLog.id })] *)
  delete_test_record : result unit;
}.

Definition failed (error : value) : ConnectionTest.t :=
  {| ConnectionTest.connected := false;
     ConnectionTest.tableExists := false;
     ConnectionTest.canWrite := false;
     ConnectionTest.error := error |}.

(** The [catch] at the end of [testConnection]. *)
Definition diagnostics_failed (e : value) (logs : list LogEntry)
  : ConnectionTest.t * list LogEntry :=
  (failed (message_of e),
   (logs ++ [LogError "Audit Logger diagnostics failed" (message_of e)
               VUndefined])%list).

Definition testConnection (probe : Probe)
  : ConnectionTest.t * list LogEntry :=
  if negb (repository probe) then
    (failed
       (VString
          "AuditLogRepository not injected - check TypeORM configuration"),
     [])
  else
    match metadata_tableName probe with
    | Thrown _ =>
        (failed
           (VString
              "AuditLogEntity not registered in TypeORM. Add AuditLogEntity to your entities array."),
         [])
    | Returned tableName =>
        let logs := [LogDebug "Entity metadata found" [tableName]] in
        match isInitialized probe with
        | Thrown e => diagnostics_failed e logs
        | Returned false =>
            (failed (VString "Database connection not initialized"), logs)
        | Returned true =>
            match hasTable probe with
            | Thrown e => diagnostics_failed e logs
            | Returned tableExists =>
                match release probe with
                | Thrown e => diagnostics_failed e logs
                | Returned _ =>
                    if negb tableExists then
                      ({| ConnectionTest.connected := true;
                          ConnectionTest.tableExists := false;
                          ConnectionTest.canWrite := false;
                          ConnectionTest.error :=
                            VString
                              (Json.quoted
                                 "Table 'audit_logs' does not exist. Run the migration SQL.") |},
                       logs)
                    else
                      match create_and_save probe with
                      | Thrown e => diagnostics_failed e logs
                      | Returned _ =>
                          match delete_test_record probe with
                          | Thrown e => diagnostics_failed e logs
                          | Returned _ =>
                              ({| ConnectionTest.connected := true;
                                  ConnectionTest.tableExists := true;
                                  ConnectionTest.canWrite := true;
                                  ConnectionTest.error := VUndefined |},
                               (logs
                                ++ [LogInfo
                                      "Audit Logger diagnostics: All tests passed"
                                      []])%list)
                          end
                      end
                end
            end
        end
    end.

(** [result.error && result.error.includes('not registered in TypeORM')];
    [None] when the call throws: a truthy error that is neither a string
    nor an array is taken to have no method [includes]. *)
Definition not_registered (error : value) : option bool :=
  if truthy error then
    match error with
    | VString s => Some (contains s "not registered in TypeORM")
    | VArray items =>
        Some (existsb
                (fun item =>
                   match item with
                   | VString s => String.eqb s "not registered in TypeORM"
                   | _ => false
                   end)
                items)
    | _ => None
    end
  else Some false.

(** [generateRecommendations(result)]; [None] when it throws. *)
Definition generateRecommendations (result : ConnectionTest.t)
  : option (list string) :=
  match not_registered (ConnectionTest.error result) with
  | None => None
  | Some true =>
      Some
        [ "❌ PROBLEMA ENCONTRADO: AuditLogEntity não está registrada no TypeORM";
          "🔧 SOLUÇÃO: Adicione AuditLogEntity ao array de entities";
          Json.quoted
            "💻 CÓDIGO: import { AuditLogEntity } from '@viniciushrk/nestjs-audit-logger'";
          "💻 CÓDIGO: entities: [...yourEntities, AuditLogEntity]" ]
  | Some false =>
      Some
        ((if negb (ConnectionTest.connected result) then
            [ "❌ Verificar configuração do TypeORM e conexão com PostgreSQL";
              "❌ Verificar se o AuditLoggerModule foi importado corretamente" ]
          else [])
         ++ (if negb (ConnectionTest.tableExists result) then
               [ "❌ Executar a migration SQL para criar a tabela audit_logs";
                 "📋 SQL: CREATE TABLE audit_logs (...)" ]
             else [])
         ++ (if negb (ConnectionTest.canWrite result) then
               [ "❌ Verificar permissões de escrita no banco de dados";
                 "❌ Verificar se a entidade AuditLogEntity está configurada corretamente" ]
             else [])
         ++ (if ConnectionTest.connected result
                && ConnectionTest.tableExists result
                && ConnectionTest.canWrite result then
               [ "✅ Sistema de auditoria funcionando corretamente";
                 Json.quoted
                   "💡 Para debugar logs, configure logLevel: 'debug' no módulo";
                 "💡 Use @AuditLog() nos endpoints que deseja auditar" ]
             else []))%list
  end.

Module Health.
Record t := {
  status : string;
  timestamp : Z;
  details : ConnectionTest.t;
  recommendations : list string;
}.
End Health.

(** [checkHealth()] at the instant [now]; [None] when it throws. *)
Definition checkHealth (probe : Probe) (now : Z) : option Health.t :=
  let result := fst (testConnection probe) in
  match generateRecommendations result with
  | None => None
  | Some recommendations =>
      Some
        {| Health.status :=
             if ConnectionTest.connected result
                && ConnectionTest.tableExists result
                && ConnectionTest.canWrite result
             then "healthy" else "unhealthy";
           Health.timestamp := now;
           Health.details := result;
           Health.recommendations := recommendations |}
  end.

(** [details] of the report of [saveAuditLogWithDiagnostics]. *)
Inductive Details :=
| NoDetails
| TheData (auditData : AuditLogData.t)
| TheId (id : value)
| TheFailure (auditData : AuditLogData.t) (stack : value).

Module SaveReport.
Record t := {
  success : bool;
  error : value;
  details : Details;
}.
End SaveReport.

Section WithRepository.

Context {Store : Type} `{Repository Store}.
(** [this.auditLogRepository] is there. *)
Variable repository_available : bool.
(** [saved.id]: the id of the row last saved in a store. *)
Variable saved_id : Store -> value.

(** The log entry and the report after [save]. *)
Definition report_saved : M Store SaveReport.t :=
  fun w =>
    (Returned
       {| SaveReport.success := true;
          SaveReport.error := VUndefined;
          SaveReport.details := TheId (saved_id (store w)) |},
     {| store := store w;
        logged := (logged w
                   ++ [LogInfo "Audit log saved successfully with ID"
                         [saved_id (store w)]])%list;
        save_calls := save_calls w |}).

(** [auditData.timestamp] is a date object, never falsy; the method and
    the endpoint are strings, falsy when empty. The data handed to the
    logger with "Missing required fields" and with "Created audit entity"
    is not kept in the entry. *)
Definition saveAuditLogWithDiagnostics (auditData : AuditLogData.t)
  : M Store SaveReport.t :=
  try_catch
    (log (LogDebug "Attempting to save audit log"
            [ VString (AuditLogData.httpMethod auditData);
              VString (AuditLogData.endpoint auditData) ]);;
     if negb repository_available then
       log (LogError "Repository not available" VUndefined VUndefined);;
       ret {| SaveReport.success := false;
              SaveReport.error := VString "Repository not available";
              SaveReport.details := NoDetails |}
     else if is_empty (AuditLogData.httpMethod auditData)
             || is_empty (AuditLogData.endpoint auditData) then
       log (LogError "Missing required fields" VUndefined VUndefined);;
       ret {| SaveReport.success := false;
              SaveReport.error := VString "Missing required fields";
              SaveReport.details := TheData auditData |}
     else
       auditLog ← lift (create (plain_object auditData));
       log (LogDebug "Created audit entity" []);;
       call_save auditLog;;
       report_saved)
    (fun error =>
       log (LogError "Failed to save audit log"
              (message_of error) (stack_of error));;
       ret {| SaveReport.success := false;
              SaveReport.error := message_of error;
              SaveReport.details := TheFailure auditData (stack_of error) |}).

End WithRepository.

(** The id the in-memory store gave last. *)
Definition memory_saved_id (db : Db) : value :=
  match last (rows db) with
  | Some row => default VUndefined (VInt <$> AuditLogEntity.id row)
  | None => VUndefined
  end.

(** Probes for the examples: everything works; the write is refused. *)
Definition all_fine : Probe :=
  {| repository := true;
     metadata_tableName := Returned (VString "audit_logs");
     isInitialized := Returned true;
     hasTable := Returned true;
     release := Returned tt;
     create_and_save := Returned tt;
     delete_test_record := Returned tt |}.

Definition write_refused : Probe :=
  {| repository := true;
     metadata_tableName := Returned (VString "audit_logs");
     isInitialized := Returned true;
     hasTable := Returned true;
     release := Returned tt;
     create_and_save :=
       Thrown
         (VObject ErrorPrototype
            [ ("message",
               VString "permission denied for table audit_logs") ]);
     delete_test_record := Returned tt |}.

End Diagnostics.


(** ** Part II. Properties *)

(** *** Header sanitizer *)

Module SanitizerProps.
Import JsString Sanitizer.

Lemma truthy_REDACTED : truthy_string (Some REDACTED) = true.
Proof. reflexivity. Qed.

Lemma lookup_redact (k j : string) (m : gmap string string) :
  redact k m !! j =
    if decide (j = k) then
      if truthy_string (m !! k) then Some REDACTED else m !! k
    else m !! j.
Proof.
  unfold redact. destruct (truthy_string (m !! k)) eqn:E.
  - case_decide as Hj.
    + subst j. by rewrite lookup_insert_eq.
    + by rewrite lookup_insert_ne.
  - case_decide as Hj; [by rewrite Hj|done].
Qed.

Lemma redact_redact (k : string) (m : gmap string string) :
  redact k (redact k m) = redact k m.
Proof.
  apply map_eq. intros j. rewrite !lookup_redact.
  case_decide as Hj; [|done]. rewrite decide_True by done.
  destruct (truthy_string (m !! k)) eqn:E; [done|]. by rewrite E.
Qed.

(** The loop reads the names as written and lower-cased; the names of the
    list are in lower case already. *)
Lemma sensitiveHeaders_lower :
  Forall (fun h => toLowerCase h = h) sensitiveHeaders.
Proof. repeat constructor. Qed.

Lemma lookup_foldl_redact (names : list string) (m : gmap string string)
    (j : string) :
  Forall (fun h => toLowerCase h = h) names →
  foldl redact_header m names !! j =
    if decide (j ∈ names) then
      if truthy_string (m !! j) then Some REDACTED else m !! j
    else m !! j.
Proof.
  intros Hlow. revert m. induction Hlow as [|h names Hh _ IH]; intros m.
  - cbn [foldl]. case_decide as Hin; [by apply elem_of_nil in Hin|done].
  - cbn [foldl]. rewrite IH. unfold redact_header. rewrite Hh, redact_redact.
    rewrite lookup_redact.
    destruct (decide (j = h)) as [->|Hne].
    + rewrite (decide_True (P := h ∈ h :: names)) by apply list_elem_of_here.
      destruct (truthy_string (m !! h)) eqn:E.
      * rewrite truthy_REDACTED. by case_decide.
      * rewrite E. by case_decide.
    + destruct (decide (j ∈ names)) as [Hin|Hnin].
      * rewrite (decide_True (P := j ∈ h :: names)); [done|].
        by apply list_elem_of_further.
      * rewrite (decide_False (P := j ∈ h :: names)); [done|].
        intros [?|?]%elem_of_cons; done.
Qed.

(** What the sanitizer leaves under each name. *)
Lemma lookup_sanitizeHeaders (headers : gmap string string) (k : string) :
  sanitizeHeaders headers !! k =
    if decide (k ∈ sensitiveHeaders) then
      if truthy_string (headers !! k) then Some REDACTED else headers !! k
    else headers !! k.
Proof. apply lookup_foldl_redact, sensitiveHeaders_lower. Qed.

Lemma sanitizeHeaders_idempotent (headers : gmap string string) :
  sanitizeHeaders (sanitizeHeaders headers) = sanitizeHeaders headers.
Proof.
  apply map_eq. intros k. rewrite !lookup_sanitizeHeaders.
  case_decide as Hk; [|done].
  destruct (truthy_string (headers !! k)) eqn:E; [done|]. by rewrite E.
Qed.

(** Over the store: an assignment of the loop rewrites the object at [l]
    alone. *)
Lemma redact_at_insert (l : loc) (k : string) (o : gmap string string)
    (h : gmap loc (gmap string string)) :
  h !! l = Some o → redact_at l k h = <[l := redact k o]> h.
Proof.
  intros Hl. unfold redact_at, redact. rewrite Hl.
  destruct (truthy_string (o !! k)); [done|]. by rewrite insert_id.
Qed.

Lemma foldl_redact_header_at (l : loc) (names : list string)
    (o : gmap string string) (h : gmap loc (gmap string string)) :
  h !! l = Some o →
  foldl (redact_header_at l) h names = <[l := foldl redact_header o names]> h.
Proof.
  revert o h. induction names as [|n names IH]; intros o h Hl; simpl.
  - by rewrite insert_id.
  - unfold redact_header_at at 2.
    rewrite (redact_at_insert l n o h Hl).
    rewrite (redact_at_insert l (toLowerCase n) (redact n o));
      [|by rewrite lookup_insert_eq].
    rewrite insert_insert_eq.
    rewrite (IH (redact_header o n)); [|by rewrite lookup_insert_eq].
    by rewrite insert_insert_eq.
Qed.

Lemma sanitizeHeaders_ref_spec (l : loc) (o : gmap string string)
    (h : gmap loc (gmap string string)) :
  h !! l = Some o →
  sanitizeHeaders_ref l h =
    Some (fresh (dom h), <[fresh (dom h) := sanitizeHeaders o]> h).
Proof.
  intros Hl. unfold sanitizeHeaders_ref, alloc. rewrite Hl.
  cbv beta iota zeta. unfold sanitizeHeaders.
  rewrite (foldl_redact_header_at _ _ o); [|apply lookup_insert_eq].
  rewrite insert_insert_eq. reflexivity.
Qed.

End SanitizerProps.

(** *** Claims about the sanitizer *)

Module SanitizerClaims.
Import JsString Sanitizer SanitizerProps.

(** C4, as worded, fails: a sensitive header whose value is the empty
    string is not redacted, because the loop tests the value for
    truthiness; [{ cookie: (empty) }] comes out unchanged, where the
    wording asks for the marker. *)
Lemma sanitizeHeaders_keeps_empty_cookie :
  sanitizeHeaders {[ "cookie" := EmptyString ]}
    ≠ Spec.sanitize {[ "cookie" := EmptyString ]}.
Proof.
  intros Heq.
  assert (Hk : sanitizeHeaders {[ "cookie" := EmptyString ]} !! "cookie"
               = Spec.sanitize {[ "cookie" := EmptyString ]} !! "cookie")
    by (by rewrite Heq).
  vm_compute in Hk. discriminate Hk.
Qed.

(** C4, amended. For every header map, the sanitizer replaces by the
    marker [[REDACTED]] the value of every header whose key is exactly one
    of authorization, cookie, x-api-token, x-auth-token, x-access-token,
    api-key, apikey and whose value is not the empty string; every other
    header passes through with key and value unchanged, and no key is added
    or removed. *)
Theorem sanitizeHeaders_complete (headers : gmap string string) (k : string) :
  sanitizeHeaders headers !! k =
    match headers !! k with
    | Some v =>
        Some (if bool_decide (k ∈ sensitiveHeaders) && negb (is_empty v)
              then REDACTED else v)
    | None => None
    end.
Proof.
  rewrite lookup_sanitizeHeaders.
  destruct (headers !! k) as [v|] eqn:E; simpl.
  - case_decide as Hk.
    + rewrite bool_decide_eq_true_2 by done. by destruct (is_empty v).
    + by rewrite bool_decide_eq_false_2.
  - by case_decide.
Qed.

(** C9. Sanitizing twice is sanitizing once; over a store of objects the
    sanitizer returns a newly allocated object and leaves the store it was
    given, its argument included, as it was; and
    [{authorization: "Bearer xyz", "content-type": "json"}] gives
    [{authorization: "[REDACTED]", "content-type": "json"}]. *)
Theorem sanitizeHeaders_idempotent_pure :
  (∀ headers : gmap string string,
     sanitizeHeaders (sanitizeHeaders headers) = sanitizeHeaders headers)
  ∧ (∀ (l : loc) (o : gmap string string)
       (h : gmap loc (gmap string string)),
       ∃ l' : loc,
         <[l := o]> h !! l' = None
         ∧ sanitizeHeaders_ref l (<[l := o]> h)
           = Some (l', <[l' := sanitizeHeaders o]> (<[l := o]> h)))
  ∧ sanitizeHeaders
      (<["authorization" := "Bearer xyz"]> {[ "content-type" := "json" ]})
    = <["authorization" := "[REDACTED]"]> {[ "content-type" := "json" ]}.
Proof.
  split; [exact sanitizeHeaders_idempotent|split].
  - intros l o h. exists (fresh (dom (<[l := o]> h))). split.
    + apply not_elem_of_dom, is_fresh.
    + apply sanitizeHeaders_ref_spec, lookup_insert_eq.
  - vm_compute. reflexivity.
Qed.

End SanitizerClaims.

(** *** Token extractor *)

Module TokenProps.
Import JsString Js Interceptor.

Lemma first_truthy_head (read : string -> option string)
    (names : list string) :
  first_truthy read names = head (omap (fun k => Spec.nonempty (read k)) names).
Proof.
  induction names as [|k names IH]; [done|].
  cbn [first_truthy]. rewrite IH. unfold truthy_string. simpl.
  destruct (read k) as [v|]; simpl; [|done].
  by destruct (is_empty v).
Qed.

Lemma first_truthy_ext (f g : string -> option string) (names : list string) :
  Forall (fun k => f k = g k) names →
  first_truthy f names = first_truthy g names.
Proof.
  induction 1 as [|k names Hk _ IH]; [done|].
  cbn [first_truthy]. by rewrite Hk, IH.
Qed.

(** express resolves the names the extractor asks for to the lower-case
    keys of the header map. *)
Lemma get_Authorization (request : Request.t) :
  Request.get request "Authorization" = Request.headers request !! "authorization".
Proof. reflexivity. Qed.

Lemma get_customHeaders (request : Request.t) :
  Forall (fun k => Request.get request k = Request.headers request !! k)
         customHeaders.
Proof. repeat constructor. Qed.

Lemma head_app_omap {A} (l1 l2 : list A) :
  head (l1 ++ l2) = match head l1 with Some x => Some x | None => head l2 end.
Proof. by destruct l1. Qed.

Lemma extractTokenFromRequest_spec (request : Request.t) :
  extractTokenFromRequest request =
    match Spec.nonempty (Request.headers request !! "authorization") with
    | Some h => Some (default h (match_Bearer h))
    | None => head (Spec.candidates request)
    end.
Proof.
  unfold extractTokenFromRequest. rewrite get_Authorization.
  unfold truthy_string, Spec.nonempty.
  destruct (Request.headers request !! "authorization") as [h|] eqn:Eh.
  - destruct (is_empty h) eqn:Ee; cbn [negb].
    + unfold Spec.candidates. rewrite head_app_omap.
      rewrite (first_truthy_ext _ _ _ (get_customHeaders request)).
      by rewrite !first_truthy_head.
    + by destruct (match_Bearer h).
  - unfold Spec.candidates. rewrite head_app_omap.
    rewrite (first_truthy_ext _ _ _ (get_customHeaders request)).
    by rewrite !first_truthy_head.
Qed.

(** The scheme once matched: six letters that spell bearer in any case, a
    non-empty run of white space, and the token, which is not empty. *)
Lemma forallb_take_span (p : ascii -> bool) (n : nat) (s : string) :
  (n ≤ span_length p s)%nat → forallb p (take n s) = true.
Proof.
  revert s. induction n as [|n IH]; intros s Hn; [by destruct s|].
  destruct s as [|c r]; cbn [span_length] in Hn; [lia|].
  destruct (p c) eqn:Ep; [|lia].
  cbn [take forallb]. rewrite Ep. apply IH. lia.
Qed.

Lemma bearer_rest_spec (k : nat) (rest t : string) :
  bearer_rest k rest = Some t →
  ∃ n : nat, (0 < n ≤ k)%nat ∧ t = drop n rest ∧ is_empty t = false.
Proof.
  induction k as [|k IH]; [done|]. cbn [bearer_rest].
  destruct (negb (is_empty (drop (S k) rest))
            && forallb (fun c => negb (is_line_terminator c))
                       (drop (S k) rest)) eqn:E.
  - intros [= <-]. exists (S k). split; [lia|]. split; [done|].
    apply andb_true_iff in E as [E _]. by apply negb_true_iff in E.
  - intros (n & Hn & Ht)%IH. exists n. split; [lia|done].
Qed.

Lemma drop_drop (n m : nat) (s : string) :
  drop n (drop m s) = drop (m + n) s.
Proof.
  revert s. induction m as [|m IH]; intros s; [done|].
  destruct s as [|c r]; [by destruct n|]. apply IH.
Qed.

Lemma match_Bearer_spec (h t : string) :
  match_Bearer h = Some t →
  ∃ n : nat,
    (0 < n)%nat
    ∧ toLowerCase (take 6 h) = "bearer"
    ∧ forallb is_space (take n (drop 6 h)) = true
    ∧ t = drop (6 + n) h
    ∧ is_empty t = false.
Proof.
  unfold match_Bearer.
  destruct (String.eqb_spec (toLowerCase (take 6 h)) "bearer") as [Hb|];
    [|done].
  intros (n & Hn & Ht & Hne)%bearer_rest_spec.
  exists n. split; [lia|]. split; [done|]. split.
  - apply forallb_take_span. lia.
  - by rewrite <- drop_drop.
Qed.

Lemma take_app_length (b x : string) : take (String.length b) (b ++ x) = b.
Proof. induction b as [|c b IH]; simpl; [by destruct x|by rewrite IH]. Qed.

Lemma drop_app_length (b x : string) : drop (String.length b) (b ++ x) = x.
Proof. induction b as [|c b IH]; simpl; done. Qed.

Lemma span_length_app (p : ascii -> bool) (ws t : string) :
  forallb p ws = true →
  span_length p (ws ++ t) = (String.length ws + span_length p t)%nat.
Proof.
  induction ws as [|c ws IH]; [done|]. simpl.
  intros [Hc Hws]%andb_true_iff. by rewrite Hc, IH.
Qed.

(** And the other way round: a header of that form is matched, and what is
    captured starts after the whole run of white space. *)
Lemma match_Bearer_complete (b ws t : string) :
  String.length b = 6%nat → toLowerCase b = "bearer" →
  is_empty ws = false → forallb is_space ws = true →
  is_empty t = false → span_length is_space t = 0%nat →
  Routes.single_line t = true →
  match_Bearer (b ++ ws ++ t) = Some t.
Proof.
  intros Hlen Hb Hws Hsp Ht Ht0 Hline. unfold match_Bearer.
  rewrite <- Hlen, take_app_length, drop_app_length, Hb.
  change (String.eqb "bearer" "bearer") with true. cbv iota.
  rewrite (span_length_app _ _ _ Hsp), Ht0, Nat.add_0_r.
  destruct ws as [|c ws']; [done|].
  change (String.length (String c ws')) with (S (String.length ws')).
  cbn [bearer_rest].
  change (S (String.length ws')) with (String.length (String c ws')).
  rewrite drop_app_length, Ht. cbn [negb andb].
  unfold Routes.single_line in Hline. by rewrite Hline.
Qed.

(** The match in full: which run of white space the pattern settles on. *)
Lemma bearer_rest_iff (k : nat) (rest t : string) :
  bearer_rest k rest = Some t ↔
  ∃ j : nat,
    (0 < j ≤ k)%nat ∧ t = drop j rest ∧ Text.one_line_rest t = true
    ∧ ∀ j' : nat,
        (j < j' ≤ k)%nat → Text.one_line_rest (drop j' rest) = false.
Proof.
  induction k as [|k IH]; [split; [done|intros (j & ? & _); lia]|].
  cbn [bearer_rest]. fold (Text.one_line_rest (drop (S k) rest)).
  destruct (Text.one_line_rest (drop (S k) rest)) eqn:E.
  - split.
    + intros [= <-]. exists (S k). repeat split; (lia || done).
    + intros (j & Hj & -> & Hg & Hmax).
      destruct (decide (j = S k)) as [->|Hne]; [done|].
      rewrite (Hmax (S k)) in E by lia. done.
  - rewrite IH. split.
    + intros (j & Hj & -> & Hg & Hmax). exists j.
      repeat split; try (lia || done).
      intros j' Hj'. destruct (decide (j' = S k)) as [->|]; [done|].
      apply Hmax. lia.
    + intros (j & Hj & -> & Hg & Hmax).
      destruct (decide (j = S k)) as [->|Hne]; [congruence|].
      exists j. repeat split; try (lia || done).
      intros j' Hj'. apply Hmax. lia.
Qed.

Lemma take_drop (n : nat) (s : string) : (take n s ++ drop n s)%string = s.
Proof.
  revert s. induction n as [|n IH]; intros [|c r]; try done.
  change (String c (take n r ++ drop n r) = String c r). by rewrite IH.
Qed.

Lemma length_toLowerCase (s : string) :
  String.length (toLowerCase s) = String.length s.
Proof. induction s as [|c r IH]; simpl; [done|by rewrite IH]. Qed.

Lemma span_length_le (p : ascii -> bool) (s : string) :
  (span_length p s ≤ String.length s)%nat.
Proof. induction s as [|c r IH]; simpl; [lia|]. destruct (p c); lia. Qed.

Lemma length_take (n : nat) (s : string) :
  (n ≤ String.length s)%nat → String.length (take n s) = n.
Proof.
  revert s. induction n as [|n IH]; intros [|c r]; simpl; try (done || lia).
  intros ?. rewrite IH; lia.
Qed.

Lemma span_length_drop (p : ascii -> bool) (j : nat) (s : string) :
  (j ≤ span_length p s)%nat →
  span_length p (drop j s) = (span_length p s - j)%nat.
Proof.
  revert s. induction j as [|j IH]; intros s Hj; [simpl; lia|].
  destruct s as [|c r]; simpl in *; [lia|].
  destruct (p c); [|lia]. apply IH. lia.
Qed.

Lemma drop_S (j : nat) (s : string) :
  drop (S j) s = drop 1 (drop j s).
Proof. rewrite drop_drop. f_equal. lia. Qed.

Lemma good_tail (c : ascii) (r : string) :
  Text.one_line_rest (String c r) = true →
  Text.one_line_rest r = false →
  r = EmptyString.
Proof.
  unfold Text.one_line_rest. cbn [is_empty negb forallb andb].
  intros [_ Hr]%andb_true_iff. rewrite Hr, andb_true_r.
  by destruct r.
Qed.

(** The pattern matches exactly the headers of the Bearer form, and
    captures its token. *)
Lemma match_Bearer_form (h t : string) :
  match_Bearer h = Some t ↔ Spec.bearer_form h t.
Proof.
  unfold match_Bearer, Spec.bearer_form. split.
  - destruct (String.eqb_spec (toLowerCase (take 6 h)) "bearer") as [Hb|];
      [|done].
    intros (j & Hj & Ht & Hg & Hmax)%bearer_rest_iff.
    set (rest := drop 6 h) in *.
    pose proof (span_length_le is_space rest) as Hle.
    exists (take 6 h), (take j rest).
    apply andb_true_iff in Hg as Hg'. destruct Hg' as [Hne Hline].
    apply negb_true_iff in Hne.
    split; [by rewrite Ht, take_drop; unfold rest; rewrite take_drop|].
    split; [by rewrite <- length_toLowerCase, Hb|].
    split; [done|].
    split.
    { assert (String.length (take j rest) = j) as Hl by (apply length_take; lia).
      destruct (take j rest); [simpl in Hl; lia|done]. }
    split; [apply forallb_take_span; lia|].
    split; [done|]. split; [done|].
    destruct (decide (j = span_length is_space rest)) as [Hjn|Hjn].
    + left. rewrite Ht, span_length_drop by lia. lia.
    + right. specialize (Hmax (S j) ltac:(lia)).
      rewrite drop_S, <- Ht in Hmax.
      destruct t as [|c r]; [done|]. cbn [drop] in Hmax.
      by rewrite (good_tail c r Hg Hmax).
  - intros (b & ws & -> & Hlen & Hb & Hws & Hsp & Hne & Hline & Hmax).
    rewrite <- Hlen, take_app_length, drop_app_length, Hb.
    change (String.eqb "bearer" "bearer") with true. cbv iota.
    apply bearer_rest_iff. exists (String.length ws).
    rewrite (span_length_app _ _ _ Hsp), drop_app_length.
    split; [destruct ws; [done|simpl; lia]|].
    split; [done|].
    split; [unfold Text.one_line_rest; by rewrite Hne, Hline|].
    intros j' Hj'. destruct Hmax as [H0|H1]; [lia|].
    pose proof (span_length_le is_space t).
    assert (j' = S (String.length ws)) as -> by lia.
    rewrite drop_S, drop_app_length.
    destruct t as [|c [|d r]]; simpl in H1; done.
Qed.

Lemma token_of_custom_extractor
    (JSON_parse : string -> option value)
    (base64url_toString : string -> string)
    (options : ModuleOptions.t) (request : Request.t)
    (extractor : Request.t -> option string) :
  ModuleOptions.customTokenExtractor options = Some extractor →
  TokenExtractionResult.token
    (extractTokenInfo JSON_parse base64url_toString options request)
  = extractor request.
Proof.
  intros Hc. unfold extractTokenInfo. rewrite Hc.
  by destruct (truthy_string (extractor request)).
Qed.


End TokenProps.

(** *** Claims about the token extractor *)

Module TokenClaims.
Import JsString Js Interceptor TokenProps Samples.

(** C2, as worded, fails twice. A source that is present with an empty
    value does not win: for [?token=&apikey=k1] the first present query
    parameter is [token], yet the extracted token is [k1]. And what is
    taken off the header is not the prefix [Bearer] with one space: for
    [Authorization: Bearer], two spaces, [abc], the extracted token is
    [abc], where stripping that prefix leaves a space and [abc]. *)
Lemma extractTokenFromRequest_not_as_worded :
  (extractTokenFromRequest empty_token_request = Some "k1"
   ∧ Spec.resolve_token empty_token_request = Some EmptyString)
  ∧ (extractTokenFromRequest two_spaces_request = Some "abc"
     ∧ Spec.resolve_token two_spaces_request = Some " abc").
Proof. repeat split; reflexivity. Qed.

(** C2, amended. With no custom extractor the raw token is the first match
    of, in this order: (1) the Authorization header when present and not
    empty: when it consists of [Bearer] in any letter case, one or more
    white-space characters and a non-empty rest without line terminators,
    the token is that rest, the white space being taken as long as
    possible (so the rest does not begin with white space, unless it is
    the single white-space character the header ends with); else the
    header value unmodified; (2) the first of the custom headers
    x-api-token, x-auth-token, x-access-token, api-key, apikey that is
    present with a non-empty value; (3) the first of the query parameters
    token, apikey, api_key, access_token that is present with a non-empty
    value. With [Authorization: Bearer abc] and [token=zzz] the token is
    [abc]. A configured customTokenExtractor decides the token alone. *)
Theorem token_resolution_priority :
  (∀ request : Request.t,
     extractTokenFromRequest request =
       match Spec.nonempty (Request.headers request !! "authorization") with
       | Some h => Some (default h (match_Bearer h))
       | None => head (Spec.candidates request)
       end)
  ∧ (∀ h t : string, match_Bearer h = Some t ↔ Spec.bearer_form h t)
  ∧ (∀ request : Request.t,
       Request.headers request !! "authorization" = Some "Bearer abc" →
       Request.query request !! "token" = Some "zzz" →
       extractTokenFromRequest request = Some "abc")
  ∧ (∀ (JSON_parse : string -> option value)
       (base64url_toString : string -> string)
       (options : ModuleOptions.t) (request : Request.t)
       (extractor : Request.t -> option string),
       ModuleOptions.customTokenExtractor options = Some extractor →
       TokenExtractionResult.token
         (extractTokenInfo JSON_parse base64url_toString options request)
       = extractor request).
Proof.
  split; [exact extractTokenFromRequest_spec|].
  split; [exact match_Bearer_form|].
  split; [|exact token_of_custom_extractor].
  intros request Ha _. rewrite extractTokenFromRequest_spec, Ha. reflexivity.
Qed.

Lemma token_resolution_priority_witness :
  extractTokenFromRequest bearer_and_query_request = Some "abc".
Proof.
  apply (proj1 (proj2 (proj2 token_resolution_priority))); reflexivity.
Defined.




(** The specification's example of a JWT-shaped token. *)
Example identity_of_jwt_example :
  extractUserIdFromCustomToken Json.parse Base64.decode
    "header.eyJzdWIiOiJ1MSIsImVtYWlsIjoiYUBiLmNvbSJ9.sig" = VString "u1"
  ∧ extractEmailFromCustomToken Json.parse Base64.decode
      "header.eyJzdWIiOiJ1MSIsImVtYWlsIjoiYUBiLmNvbSJ9.sig"
    = VString "a@b.com".
Proof. split; vm_compute; reflexivity. Qed.

End TokenClaims.


(** *** Route exclusion *)

Module RouteProps.
Import JsString Interceptor Routes.

Lemma syntax_character_dot : Regex.is_syntax_character "." = true.
Proof. reflexivity. Qed.

Lemma atoms_replace_stars (route : string) :
  clean route = true →
  Regex.atoms (replace_stars route) = Some (translate route).
Proof.
  induction route as [|c r IH]; [done|].
  cbn [clean forallb]. intros [Hc Hr]%andb_true_iff.
  specialize (IH Hr). cbn [replace_stars translate].
  destruct (Ascii.eqb c "*") eqn:Estar.
  - cbn [Regex.atoms]. change (Ascii.eqb "." ".") with true.
    change (Ascii.eqb "*" "*") with true. cbv iota. by rewrite IH.
  - unfold clean_char in Hc. rewrite Estar in Hc. cbn [orb] in Hc.
    apply negb_true_iff in Hc. cbn [Regex.atoms].
    destruct (Ascii.eqb c ".") eqn:Edot.
    + apply Ascii.eqb_eq in Edot. subst c. by rewrite syntax_character_dot in Hc.
    + by rewrite Hc, IH.
Qed.

Lemma single_line_tail (c : ascii) (s : string) :
  single_line (String c s) = true →
  is_line_terminator c = false ∧ single_line s = true.
Proof.
  unfold single_line. cbn [forallb]. intros [H1 H2]%andb_true_iff.
  by apply negb_true_iff in H1.
Qed.

Lemma matches_translate (route path : string) :
  single_line path = true →
  Regex.matches (translate route) path = Spec.glob route path.
Proof.
  revert path. induction route as [|c r IH]; intros path Hp; [done|].
  cbn [translate Spec.glob]. destruct (Ascii.eqb c "*") eqn:Estar.
  - cbn [Regex.matches].
    induction path as [|d t IHt].
    + by rewrite IH.
    + apply single_line_tail in Hp as Hd. destruct Hd as [Hd Ht].
      rewrite (IH _ Hp), Hd. cbn [negb andb]. by rewrite (IHt Ht).
  - cbn [Regex.matches]. destruct path as [|d t]; [done|].
    apply single_line_tail in Hp as [_ Ht]. by rewrite (IH _ Ht).
Qed.

Lemma before_dollar_app (body : string) :
  Regex.before_dollar (body ++ "$") = Some body.
Proof.
  induction body as [|c r IH]; [done|].
  simpl. rewrite IH.
  destruct r; simpl; by rewrite andb_false_r.
Qed.

Lemma test_anchored (route url : string) :
  clean route = true → single_line url = true →
  Regex.test ("^" ++ replace_stars route ++ "$") url
  = Some (Spec.glob route url).
Proof.
  intros Hr Hu.
  change ("^" ++ replace_stars route ++ "$")
    with (String "^" (replace_stars route ++ "$")).
  cbn [Regex.test].
  rewrite before_dollar_app, (atoms_replace_stars _ Hr).
  by rewrite (matches_translate _ _ Hu).
Qed.

Lemma some_existsb {A} (f : A -> option bool) (g : A -> bool) (l : list A) :
  Forall (fun x => f x = Some (g x)) l → some f l = Some (existsb g l).
Proof.
  induction 1 as [|x l Hx _ IH]; [done|].
  cbn [some existsb]. rewrite Hx. by destruct (g x).
Qed.

(** On clean routes and one-line urls the matcher of the source is the
    matcher of the specification. *)
Theorem shouldExcludeRoute_glob (options : ModuleOptions.t)
    (routes : list string) (url : string) :
  ModuleOptions.excludeRoutes options = Some routes →
  Forall (fun route => clean route = true) routes →
  single_line url = true →
  shouldExcludeRoute Regex.test options url
  = Some (Spec.isExcluded url routes).
Proof.
  intros Ho Hr Hu. unfold shouldExcludeRoute, Spec.isExcluded. rewrite Ho.
  apply some_existsb. eapply Forall_impl; [exact Hr|].
  intros route Hc. cbn beta. unfold Spec.pattern_matches.
  destruct (includes route "*"); [|done]. by apply test_anchored.
Qed.

End RouteProps.

(** *** Claims about route exclusion *)

Module RouteClaims.
Import JsString Interceptor Routes RouteProps.

(** The routes of the specification's example behave as it says. *)
Example exclusion_example :
  let options := ModuleOptions.excluding ["/health"; "/api/*"] in
  shouldExcludeRoute Regex.test options "/health" = Some true
  ∧ shouldExcludeRoute Regex.test options "/api/anything" = Some true
  ∧ shouldExcludeRoute Regex.test options "/apiv2" = Some false.
Proof. repeat split. Qed.

(** C7, in the source. The translation of a route that contains [*]
    leaves its other characters to the pattern grammar: with the route
    [/api/v1.0/*] the dot stands for any character, and the url
    [/api/v1x0/users] is excluded, which the matching of the
    specification, where [*] alone is a wildcard, does not do. *)
Theorem shouldExcludeRoute_dot_matches_any :
  shouldExcludeRoute Regex.test (ModuleOptions.excluding ["/api/v1.0/*"])
    "/api/v1x0/users" = Some true
  ∧ Spec.isExcluded "/api/v1x0/users" ["/api/v1.0/*"] = false.
Proof. split; reflexivity. Qed.

End RouteClaims.

(** *** The interceptor *)

Module InterceptorProps.
Import JsString Js Interceptor.

Lemma coalesce_effective (a b : option bool) :
  coalesce a b = Spec.effective a b.
Proof. by destruct a, b. Qed.

Lemma get_defined (e : value) (p : prop) :
  e ≠ VUndefined → e ≠ VNull → get e p = Some (default VUndefined (get e p)).
Proof. by destruct e. Qed.

Section WithRuntime.

Variable JSON_parse : string -> option value.
Variable base64url_toString : string -> string.
Variable RegExp_test : string -> string -> option bool.
Variable options : ModuleOptions.t.

Lemma intercept_unmarked (context : ExecutionContext) (next : Observable.t) :
  Decorator.isAuditLogEnabled (getHandler context) = false →
  intercept JSON_parse base64url_toString RegExp_test options context next
  = Some (next, []).
Proof. intros Hm. unfold intercept. by rewrite Hm. Qed.

Lemma intercept_audited (context : ExecutionContext) (next : Observable.t) :
  Spec.audited RegExp_test options context →
  intercept JSON_parse base64url_toString RegExp_test options context next
  = Some (pipe context (Spec.per_call context)
            (extractRequestInfo (getRequest context))
            (extractTokenInfo JSON_parse base64url_toString options
               (getRequest context))
            next).
Proof. intros [Hm Hx]. unfold intercept. by rewrite Hm, Hx. Qed.

(** Whatever [intercept] registers was registered by [pipe], for an
    audited request. *)
Lemma intercept_calls (context : ExecutionContext) (next handed_back : Observable.t)
    (calls : list Deferred.t) (call : Deferred.t) :
  intercept JSON_parse base64url_toString RegExp_test options context next
  = Some (handed_back, calls) →
  call ∈ calls →
  ∃ (requestInfo : RequestInfo.t) (tokenInfo : TokenExtractionResult.t),
    call ∈ snd (pipe context (Spec.per_call context) requestInfo tokenInfo next).
Proof.
  unfold intercept.
  destruct (Decorator.isAuditLogEnabled (getHandler context)); cbn [negb].
  - destruct (shouldExcludeRoute _ _ _) as [[|]|]; [| |done].
    + intros [= _ <-] Hin. by apply elem_of_nil in Hin.
    + intros [= Hp] Hin.
      exists (extractRequestInfo (getRequest context)),
             (extractTokenInfo JSON_parse base64url_toString options
                (getRequest context)).
      unfold Spec.per_call. unfold Decorator.getAuditLogOptions in Hp.
      by rewrite Hp.
  - intros [= _ <-] Hin. by apply elem_of_nil in Hin.
Qed.

Lemma pipe_calls_defer (context : ExecutionContext)
    (auditOptions : AuditLogOptions.t) (requestInfo : RequestInfo.t)
    (tokenInfo : TokenExtractionResult.t) (source : Observable.t)
    (call : Deferred.t) :
  call ∈ snd (pipe context auditOptions requestInfo tokenInfo source) →
  ∃ (responseInfo : ResponseInfo.t) (now : Z),
    call = defer context auditOptions requestInfo tokenInfo responseInfo now.
Proof.
  unfold pipe.
  destruct (Observable.ending source) as [|e now]; cbn [snd].
  - intros (n & -> & _)%list_elem_of_fmap. by eexists _, _.
  - unfold catchError_selector.
    destruct (get e status) as [st|], (get e message) as [msg|]; cbn [snd];
      rewrite ?app_nil_r.
    + intros [(n & -> & _)%list_elem_of_fmap | ->%list_elem_of_singleton]%elem_of_app;
        by eexists _, _.
    + intros (n & -> & _)%list_elem_of_fmap. by eexists _, _.
    + intros (n & -> & _)%list_elem_of_fmap. by eexists _, _.
    + intros (n & -> & _)%list_elem_of_fmap. by eexists _, _.
Qed.

Lemma pipe_throws (context : ExecutionContext)
    (auditOptions : AuditLogOptions.t) (requestInfo : RequestInfo.t)
    (tokenInfo : TokenExtractionResult.t) (e : value) (now : Z) :
  e ≠ VUndefined → e ≠ VNull →
  pipe context auditOptions requestInfo tokenInfo (Spec.throws e now)
  = (Spec.throws e now,
     [ defer context auditOptions requestInfo tokenInfo
         {| ResponseInfo.statusCode := Spec.truthy_status e;
            ResponseInfo.data := default VUndefined (get e message) |}
         now ]).
Proof.
  intros H1 H2. unfold pipe, Spec.throws, catchError_selector.
  cbn [Observable.ending Observable.values map].
  by rewrite (get_defined e status H1 H2), (get_defined e message H1 H2).
Qed.

End WithRuntime.

End InterceptorProps.

(** *** Claims about the interceptor *)

Module InterceptorClaims.
Import JsString Js Interceptor InterceptorProps Samples.

(** C1. When the handler does not carry the marker, whatever the options
    (the excluded routes among them), [intercept] hands back the very
    observable of the handler, so that its values and its error go through
    as they are, and registers no deferred call: serving the request leaves
    the store and the log as they were. *)
Theorem marker_gating
    (JSON_parse : string -> option value)
    (base64url_toString : string -> string)
    (RegExp_test : string -> string -> option bool)
    (options : ModuleOptions.t)
    (context : ExecutionContext) (next : Observable.t) :
  Decorator.isAuditLogEnabled (getHandler context) = false →
  intercept JSON_parse base64url_toString RegExp_test options context next
  = Some (next, [])
  ∧ ∀ (Store : Type) (repository : Effect.Repository Store)
      (w : Effect.World Store),
      Server.serve JSON_parse base64url_toString RegExp_test options
        context next w
      = Some (next, w).
Proof.
  intros Hm. split; [by apply intercept_unmarked|].
  intros Store repository w. unfold Server.serve.
  by rewrite intercept_unmarked.
Qed.

Lemma marker_gating_witness :
  intercept Json.parse Base64.decode Regex.test
    (ModuleOptions.excluding ["/health"]) unmarked_context
    (Spec.throws not_found 1003)
  = Some (Spec.throws not_found 1003, []).
Proof.
  apply (marker_gating Json.parse Base64.decode Regex.test
           (ModuleOptions.excluding ["/health"]) unmarked_context
           (Spec.throws not_found 1003)).
  reflexivity.
Defined.

(** C6, as worded, fails: a status code that the error carries is not
    taken when it is falsy. An error with [status: 0] is recorded with the
    status code 500. *)
Lemma error_status_zero_recorded_as_500 :
  ¬ Spec.error_parity Json.parse Base64.decode Regex.test
      ModuleOptions.defaults Spec.carried_status
      (marked_context AuditLogOptions.empty "/orders")
      upstream_unreachable 1042.
Proof.
  intros (call & Hi & Hs & _).
  vm_compute in Hi. injection Hi as <-.
  vm_compute in Hs. discriminate Hs.
Qed.

(** C6, amended. For every audited request whose handler throws an error
    other than [null] and [undefined], exactly one audit record is
    composed; its statusCode is the status carried by the error when that
    status is truthy (present and neither 0 nor another falsy value) and
    500 otherwise; its responseData is the message of the error when
    response-body logging is enabled and absent otherwise; and the error
    handed back is the original one. *)
Theorem error_path_parity
    (JSON_parse : string -> option value)
    (base64url_toString : string -> string)
    (RegExp_test : string -> string -> option bool)
    (options : ModuleOptions.t)
    (context : ExecutionContext) (e : value) (now : Z) :
  Spec.audited RegExp_test options context →
  e ≠ VUndefined → e ≠ VNull →
  Spec.error_parity JSON_parse base64url_toString RegExp_test options
    Spec.truthy_status context e now.
Proof.
  intros Ha H1 H2. unfold Spec.error_parity.
  rewrite (intercept_audited _ _ _ _ _ _ Ha), (pipe_throws _ _ _ _ _ _ H1 H2).
  eexists. split; [reflexivity|]. split; [reflexivity|].
  cbn. by rewrite coalesce_effective.
Qed.

Lemma error_path_parity_witness :
  Spec.error_parity Json.parse Base64.decode Regex.test
    ModuleOptions.defaults Spec.truthy_status
    (marked_context AuditLogOptions.empty "/orders") not_found 1042.
Proof.
  apply error_path_parity; [split; reflexivity|discriminate|discriminate].
Defined.

(** C8, as worded, fails: with the response body enabled, the record of a
    handler that returns nothing has no responseData. *)
Lemma responseData_absent_for_void_handler :
  ¬ Spec.presence_follows_flags Json.parse Base64.decode Regex.test
      ModuleOptions.defaults
      (marked_context logs_response_body "/orders/7")
      (returns VUndefined 200 1015).
Proof.
  intros H.
  destruct (intercept Json.parse Base64.decode Regex.test
              ModuleOptions.defaults
              (marked_context logs_response_body "/orders/7")
              (returns VUndefined 200 1015))
    as [[handed_back [|call calls]]|] eqn:Hi;
    try (vm_compute in Hi; discriminate Hi).
  destruct (H handed_back (call :: calls) call Hi (list_elem_of_here _ _))
    as [_ [_ Hp]].
  vm_compute in Hi. injection Hi as _ <- _.
  vm_compute in Hp. specialize (Hp eq_refl). discriminate Hp.
Qed.

(** C8, amended. For every audited request, the effective logRequestBody
    (and likewise logResponseBody) is the per-call option when present,
    else the global option when present, else false; the requestData of
    the composed record is present exactly when the effective
    logRequestBody is true, and holds the body, the query and the
    sanitized headers; its responseData is the response data when the
    effective logResponseBody is true (so it is absent when the handler
    produced nothing) and absent otherwise. *)
Theorem policy_merge_presence
    (JSON_parse : string -> option value)
    (base64url_toString : string -> string)
    (RegExp_test : string -> string -> option bool)
    (options : ModuleOptions.t)
    (context : ExecutionContext) (next handed_back : Observable.t)
    (calls : list Deferred.t) (call : Deferred.t) :
  intercept JSON_parse base64url_toString RegExp_test options context next
  = Some (handed_back, calls) →
  call ∈ calls →
  let data := auditData options call in
  (is_Some (AuditLogData.requestData data)
   ↔ Spec.logs_request options context = true)
  ∧ AuditLogData.requestData data
    = (if Spec.logs_request options context then
         Some {| RequestData.body :=
                   RequestInfo.body (Deferred.requestInfo call);
                 RequestData.query :=
                   RequestInfo.query (Deferred.requestInfo call);
                 RequestData.headers :=
                   Sanitizer.sanitizeHeaders
                     (RequestInfo.headers (Deferred.requestInfo call)) |}
       else None)
  ∧ AuditLogData.responseData data
    = (if Spec.logs_response options context
       then ResponseInfo.data (Deferred.responseInfo call)
       else VUndefined).
Proof.
  intros Hi Hin.
  destruct (intercept_calls _ _ _ _ _ _ _ _ _ Hi Hin) as (ri & ti & Hp).
  destruct (pipe_calls_defer _ _ _ _ _ _ Hp) as (resp & now & ->).
  unfold Spec.logs_request, Spec.logs_response.
  rewrite <- !coalesce_effective. cbn.
  destruct (coalesce _ (ModuleOptions.logRequestBody options)).
  - split; [split; [done|by eauto]|done].
  - split; [split; [by intros [? [=]]|done]|done].
Qed.

Lemma policy_merge_presence_witness :
  AuditLogData.responseData
    (auditData ModuleOptions.defaults
       (defer (marked_context logs_response_body "/orders/7")
          logs_response_body
          (extractRequestInfo (plain_request "/orders/7"))
          (extractTokenInfo Json.parse Base64.decode ModuleOptions.defaults
             (plain_request "/orders/7"))
          {| ResponseInfo.statusCode := VInt 200;
             ResponseInfo.data := VString "deleted" |}
          15))
  = VString "deleted".
Proof.
  apply (policy_merge_presence Json.parse Base64.decode Regex.test
           ModuleOptions.defaults
           (marked_context logs_response_body "/orders/7")
           (returns (VString "deleted") 200 1015)
           (returns (VString "deleted") 200 1015)
           _ _ eq_refl (list_elem_of_here _ _)).
Defined.

End InterceptorClaims.


(** *** Dates *)

Module DateProps.
Import JsDate.
Local Open Scope Z_scope.

Lemma DayFromYear_step (y : Z) :
  DayFromYear (y + 1) = DayFromYear y + DaysInYear y.
Proof.
  unfold DayFromYear, DaysInYear.
  repeat match goal with
         | |- context [?a =? ?b] => destruct (Z.eqb_spec a b)
         end;
    cbn [negb]; Z.div_mod_to_equations; lia.
Qed.

Lemma DayFromYear_mono (y y' : Z) :
  y <= y' → DayFromYear y <= DayFromYear y'.
Proof. unfold DayFromYear. intros. Z.div_mod_to_equations. lia. Qed.

(** [YearFromTime] is the year of the day: the year starts on or before
    it and the next year after it. *)
Lemma YearFromTime_spec (t : Z) :
  DayFromYear (YearFromTime t) <= Day t < DayFromYear (YearFromTime t + 1).
Proof.
  unfold YearFromTime. generalize (Day t). intros d. cbv zeta.
  destruct (Z.leb_spec (DayFromYear (1970 + 400 * d / 146097 + 1)) d).
  - split; [assumption|]. unfold DayFromYear in *.
    Z.div_mod_to_equations. lia.
  - destruct (Z.leb_spec (DayFromYear (1970 + 400 * d / 146097)) d).
    + split; assumption.
    + replace (1970 + 400 * d / 146097 - 1 + 1)
        with (1970 + 400 * d / 146097) by lia.
      split; [|lia]. unfold DayFromYear in *. Z.div_mod_to_equations. lia.
Qed.

Lemma YearFromTime_largest (t y : Z) :
  DayFromYear y <= Day t ↔ y <= YearFromTime t.
Proof.
  pose proof (YearFromTime_spec t) as [Hlo Hhi]. split.
  - intros Hy.
    destruct (Z.le_gt_cases y (YearFromTime t)) as [|Hgt]; [assumption|].
    pose proof (DayFromYear_mono (YearFromTime t + 1) y ltac:(lia)). lia.
  - intros Hy. pose proof (DayFromYear_mono y (YearFromTime t) Hy). lia.
Qed.





(** 14 November 2023, 22:13:20 UTC, read in UTC and three hours west. *)
Example date_example :
  YearFromTime 1700000000000 = 2023
  ∧ MonthFromTime 1700000000000 = 10
  ∧ getDate (fixed 0) 1700000000000 = 14
  ∧ getDate (fixed (-10800000)) 1700000000000 = 14
  ∧ getDate (fixed 7200000) 1700000000000 = 15
  ∧ setDate (fixed 0) 1700000000000 (14 - 90) = 1692224000000.
Proof. repeat split; reflexivity. Qed.

End DateProps.

(** *** The service *)

Module ServiceProps.
Import Js Effect Service.

Ltac run_M :=
  unfold saveAuditLog, cleanupOldAuditLogs, createAuditLog, try_catch,
    mbind, M_bind, mret, M_ret, bind, ret, throw, lift, log,
    call_save, call_delete.

Section WithRepository.

Context {Store : Type} `{Repository Store}.
Variable options : ModuleOptions.t.

Lemma saveAuditLog_returns (auditData : AuditLogData.t) (w : World Store) :
  fst (saveAuditLog options auditData w) = Returned tt.
Proof.
  run_M. destruct (create (plain_object auditData)) as [auditLog|e]; [|done].
  destruct (save auditLog (store w)) as [[[]|e] s]; [|done].
  by destruct (ModuleOptions.logLevel options) as [[| | |]|].
Qed.

Lemma saveAuditLog_save_calls (auditData : AuditLogData.t) (w : World Store) :
  (save_calls (snd (saveAuditLog options auditData w)) ≤ S (save_calls w))%nat.
Proof.
  run_M. destruct (create (plain_object auditData)) as [auditLog|e];
    [|cbn; lia].
  destruct (save auditLog (store w)) as [[[]|e] s]; [|cbn; lia].
  destruct (ModuleOptions.logLevel options) as [[| | |]|]; cbn; lia.
Qed.

Lemma saveAuditLog_create_throws (auditData : AuditLogData.t)
    (w : World Store) (e : value) :
  create (plain_object auditData) = Thrown e →
  saveAuditLog options auditData w
  = (Returned tt,
     {| store := store w;
        logged := logged w
                  ++ [LogError "Failed to save audit log"
                        (message_of e) (stack_of e)];
        save_calls := save_calls w |}).
Proof. intros Hc. run_M. by rewrite Hc. Qed.

Lemma saveAuditLog_save_throws (auditData : AuditLogData.t)
    (w : World Store) (auditLog : AuditLogEntity.t) (e : value) (s : Store) :
  create (plain_object auditData) = Returned auditLog →
  save auditLog (store w) = (Thrown e, s) →
  saveAuditLog options auditData w
  = (Returned tt,
     {| store := s;
        logged := logged w
                  ++ [LogError "Failed to save audit log"
                        (message_of e) (stack_of e)];
        save_calls := S (save_calls w) |}).
Proof. intros Hc Hs. run_M. by rewrite Hc, Hs. Qed.

Lemma createAuditLog_returns (call : Deferred.t) (w : World Store) :
  fst (createAuditLog options call w) = Returned tt.
Proof.
  pose proof (saveAuditLog_returns (Interceptor.auditData options call) w) as Hr.
  unfold createAuditLog, try_catch.
  destruct (saveAuditLog options (Interceptor.auditData options call) w)
    as [[[]|e] w']; [done|discriminate Hr].
Qed.

Lemma run_deferred_returns (calls : list Deferred.t) (w : World Store) :
  fst (run_deferred options calls w) = Returned tt.
Proof.
  revert w. induction calls as [|c calls IH]; intros w; [done|].
  cbn [run_deferred]. unfold mbind, M_bind, bind, try_catch.
  pose proof (createAuditLog_returns c w) as Hr.
  destruct (createAuditLog options c w) as [[[]|e] w']; [apply IH|].
  discriminate Hr.
Qed.

End WithRepository.

(** The in-memory store. *)
Lemma filter_length_le {A} (p : A -> bool) (l : list A) :
  (length (List.filter p l) ≤ length l)%nat.
Proof. induction l as [|x l IH]; simpl; [lia|]. destruct (p x); simpl; lia. Qed.

Lemma affected_or_0_Some (n : Z) :
  affected_or_0 {| affected := Some n |} = n.
Proof.
  unfold affected_or_0. cbn [affected].
  by destruct (Z.eqb_spec n 0) as [->|].
Qed.

Lemma cleanup_memory (days_before : Z -> Z -> Z) (now : Z)
    (retentionDays : option Z) (w : World Db) :
  outage (store w) = None →
  let cutoffDate := days_before now (default 90%Z retentionDays) in
  let gone := List.filter (older_than cutoffDate) (rows (store w)) in
  let deletedCount :=
    if reports_affected (store w) then Z.of_nat (length gone) else 0%Z in
  cleanupOldAuditLogs days_before now retentionDays w
  = (Returned deletedCount,
     {| store :=
          with_rows (store w)
            (List.filter (fun e => negb (older_than cutoffDate e))
                         (rows (store w)))
            (next_id (store w));
        logged :=
          logged w
          ++ [LogInfo "Cleaned up audit logs"
                [ VInt deletedCount; VInt (default 90%Z retentionDays) ]];
        save_calls := save_calls w |}).
Proof.
  intros Ho. run_M. cbn [delete_where_timestamp_lt memory]. rewrite Ho.
  cbn [store logged save_calls].
  destruct (reports_affected (store w)); [|done].
  by rewrite affected_or_0_Some.
Qed.


End ServiceProps.

(** *** Claims about the service *)

Module ServiceClaims.
Import Js Effect Service ServiceProps Samples.

(** C5. Whatever the repository does, [saveAuditLog] returns normally: a
    failure of [create] or of [save] is written to the log as one error and
    goes no further, and [save] is called at most once. The deferred calls
    of a request all return, and the observable handed back for a request
    is the same whatever the repository and the store are, so the caller of
    the endpoint sees no difference between a write that succeeds and one
    that fails. *)
Theorem best_effort_write :
  (∀ (Store : Type) (repository : Repository Store)
     (options : ModuleOptions.t) (auditData : AuditLogData.t)
     (w : World Store),
     fst (saveAuditLog options auditData w) = Returned tt
     ∧ (save_calls (snd (saveAuditLog options auditData w))
        ≤ S (save_calls w))%nat)
  ∧ (∀ (Store : Type) (repository : Repository Store)
       (options : ModuleOptions.t) (auditData : AuditLogData.t)
       (w : World Store) (auditLog : AuditLogEntity.t) (e : value)
       (s : Store),
       create (plain_object auditData) = Returned auditLog →
       save auditLog (store w) = (Thrown e, s) →
       saveAuditLog options auditData w
       = (Returned tt,
          {| store := s;
             logged := logged w
                       ++ [LogError "Failed to save audit log"
                             (message_of e) (stack_of e)];
             save_calls := S (save_calls w) |}))
  ∧ (∀ (Store : Type) (repository : Repository Store)
       (options : ModuleOptions.t) (calls : list Deferred.t)
       (w : World Store),
       fst (run_deferred options calls w) = Returned tt)
  ∧ (∀ (Store1 Store2 : Type) (repository1 : Repository Store1)
       (repository2 : Repository Store2)
       (JSON_parse : string -> option value)
       (base64url_toString : string -> string)
       (RegExp_test : string -> string -> option bool)
       (options : ModuleOptions.t)
       (context : Interceptor.ExecutionContext) (next : Observable.t)
       (w1 : World Store1) (w2 : World Store2),
       fst <$> Server.serve JSON_parse base64url_toString RegExp_test
                 options context next w1
       = fst <$> Server.serve JSON_parse base64url_toString RegExp_test
                   options context next w2).
Proof.
  split; [|split; [|split]].
  - intros. split; [apply saveAuditLog_returns|apply saveAuditLog_save_calls].
  - intros Store repository options auditData w auditLog e s Hc Hs.
    by apply (saveAuditLog_save_throws options auditData w auditLog e s).
  - intros. apply run_deferred_returns.
  - intros. unfold Server.serve.
    by destruct (Interceptor.intercept _ _ _ _ _ _) as [[? ?]|].
Qed.

Lemma best_effort_write_witness :
  saveAuditLog ModuleOptions.defaults sample_data (start db_down)
  = (Returned tt,
     {| store := db_down;
        logged :=
          [LogError "Failed to save audit log"
             (VString "connect ECONNREFUSED 127.0.0.1:5432")
             (VString "Error: connect ECONNREFUSED 127.0.0.1:5432")];
        save_calls := 1 |}).
Proof.
  apply (proj1 (proj2 best_effort_write) Db memory ModuleOptions.defaults
           sample_data (start db_down) (plain_object sample_data)
           connection_refused db_down);
    reflexivity.
Defined.



(** The same cleanup on a driver that does not report affected rows, and
    the row aged exactly 90 days, which stays. *)
Example cleanup_example :
  fst (AuditLoggerService.cleanupOldAuditLogs (JsDate.fixed 0) (500 * day)
         None (start (three_rows false)))
  = Returned 0%Z
  ∧ rows (store (snd (AuditLoggerService.cleanupOldAuditLogs
                        (JsDate.fixed 0) (500 * day) None
                        (start (three_rows false)))))
    = [ row_at (410 * day); row_at (490 * day) ].
Proof. split; reflexivity. Qed.

(** Where the clocks went forward an hour within the 90 days, the cutoff
    is an hour later than 90 times 24 hours ago, and the row aged exactly
    that goes too. *)
Example cleanup_across_clock_change :
  cutoffDate (JsDate.summer_time_from 0 (450 * day)) (500 * day) 90
  = (410 * day + 3600000)%Z
  ∧ rows (store (snd (AuditLoggerService.cleanupOldAuditLogs
                        (JsDate.summer_time_from 0 (450 * day))
                        (500 * day) None (start (three_rows false)))))
    = [ row_at (490 * day) ].
Proof. split; reflexivity. Qed.

End ServiceClaims.


(** *** Text lemmas *)

Module TextProps.
Import JsString Text.

Lemma includes_hd_split (c : ascii) (s : string) :
  includes (hd EmptyString (split c s)) c = false.
Proof.
  induction s as [|d r IH]; [done|]. cbn [split].
  destruct (Ascii.eqb d c) eqn:E; [done|].
  destruct (split c r) as [|p ps]; cbn [hd includes] in *; by rewrite E.
Qed.

Lemma split_nonempty (c : ascii) (s : string) : split c s ≠ [].
Proof.
  destruct s as [|d r]; [done|]. cbn [split].
  destruct (Ascii.eqb d c); [done|]. by destruct (split c r).
Qed.

Lemma includes_trimStart (c : ascii) (s : string) :
  includes s c = false → includes (trimStart s) c = false.
Proof.
  induction s as [|d r IH]; [done|]. cbn [trimStart includes].
  destruct (Ascii.eqb d c) eqn:E; [done|]. intros Hr.
  destruct (is_space d); [by apply IH|]. cbn [includes]. by rewrite E.
Qed.

Lemma includes_trimEnd (c : ascii) (s : string) :
  includes s c = false → includes (trimEnd s) c = false.
Proof.
  induction s as [|d r IH]; [done|]. cbn [trimEnd includes].
  destruct (Ascii.eqb d c) eqn:E; [done|]. intros Hr.
  destruct (is_space d && is_empty (trimEnd r)); [done|].
  cbn [includes]. rewrite E. by apply IH.
Qed.

Lemma trimStart_starts (s : string) : starts_with_space (trimStart s) = false.
Proof.
  induction s as [|d r IH]; [done|]. cbn [trimStart].
  destruct (is_space d) eqn:E; [done|]. cbn [starts_with_space]. done.
Qed.

Lemma trimEnd_starts (s : string) :
  starts_with_space s = false → starts_with_space (trimEnd s) = false.
Proof.
  destruct s as [|d r]; [done|]. cbn [starts_with_space trimEnd].
  intros Hd. by rewrite Hd.
Qed.

Lemma trimEnd_ends (s : string) : ends_with_space (trimEnd s) = false.
Proof.
  induction s as [|d r IH]; [done|]. cbn [trimEnd].
  destruct (is_space d) eqn:Ed, (is_empty (trimEnd r)) eqn:Er;
    cbn [andb ends_with_space]; rewrite ?Er; done.
Qed.

Lemma trim_all_space (s : string) :
  forallb is_space s = true → trim s = EmptyString.
Proof.
  unfold trim. induction s as [|d r IH]; [done|]. cbn [forallb trimStart].
  intros [-> Hr]%andb_true_iff. by apply IH.
Qed.

Lemma includes_app (c : ascii) (a b : string) :
  includes (a ++ b) c = includes a c || includes b c.
Proof.
  induction a as [|d r IH]; [done|]. simpl. by destruct (Ascii.eqb d c).
Qed.

Lemma split_app_sep (c : ascii) (a r : string) :
  includes a c = false → split c (a ++ String c r) = a :: split c r.
Proof.
  induction a as [|d a IH]; simpl.
  - intros _. by rewrite Ascii.eqb_refl.
  - destruct (Ascii.eqb d c); [done|]. intros Ha. by rewrite IH.
Qed.

Lemma split_no_sep (c : ascii) (s : string) :
  includes s c = false → split c s = [s].
Proof.
  induction s as [|d r IH]; [done|]. simpl.
  destruct (Ascii.eqb d c); [done|]. intros Hr. by rewrite IH.
Qed.

Lemma space_no_comma (ws : string) :
  forallb is_space ws = true → includes ws "," = false.
Proof.
  induction ws as [|d r IH]; [done|]. cbn [forallb includes].
  intros [Hd Hr]%andb_true_iff.
  destruct (Ascii.eqb_spec d ","%char) as [->|]; [done|]. by apply IH.
Qed.

Lemma is_empty_app_cons (a : string) (c : ascii) (r : string) :
  is_empty (a ++ String c r) = false.
Proof. by destruct a. Qed.

End TextProps.

(** *** The address of the client ([extractRealIp]) *)

Module IpProps.
Import JsString Js Interceptor Text TextProps.

Lemma get_forwarded (request : Request.t) :
  Request.get request "X-Forwarded-For"
  = Request.headers request !! "x-forwarded-for".
Proof. reflexivity. Qed.

(** X1. A non-empty X-Forwarded-For header decides the address alone: it
    is the text before the first comma, trimmed, whatever the other
    headers and the socket say; it holds no comma and no white space at
    either end. *)
Theorem extractRealIp_forwarded (request : Request.t) (forwarded : string) :
  Request.headers request !! "x-forwarded-for" = Some forwarded →
  is_empty forwarded = false →
  extractRealIp request = trim (hd EmptyString (split "," forwarded))
  ∧ includes (extractRealIp request) "," = false
  ∧ starts_with_space (extractRealIp request) = false
  ∧ ends_with_space (extractRealIp request) = false.
Proof.
  intros Hf Hne.
  assert (Hip : extractRealIp request
                = trim (hd EmptyString (split "," forwarded))).
  { unfold extractRealIp. rewrite get_forwarded, Hf.
    unfold truthy_string. by rewrite Hne. }
  rewrite Hip. split; [done|]. unfold trim. split; [|split].
  - apply includes_trimEnd, includes_trimStart, includes_hd_split.
  - apply trimEnd_starts, trimStart_starts.
  - apply trimEnd_ends.
Qed.

Lemma extractRealIp_forwarded_witness :
  includes
    (extractRealIp (More.forwarded_request " 203.0.113.9 , 10.0.0.1")) ","
  = false.
Proof.
  apply (extractRealIp_forwarded
           (More.forwarded_request " 203.0.113.9 , 10.0.0.1")
           " 203.0.113.9 , 10.0.0.1");
    reflexivity.
Defined.

(** X2. Without a usable X-Forwarded-For header (absent or empty), the
    address is the first non-empty of X-Real-IP, X-Client-IP, the remote
    address of the connection, that of the socket and [request.ip], in
    that order, and the word unknown when there is none: it is never
    empty. *)
Theorem extractRealIp_fallback (request : Request.t) :
  Spec.nonempty (Request.headers request !! "x-forwarded-for") = None →
  extractRealIp request
  = default "unknown"
      (head (omap Spec.nonempty
               [ Request.headers request !! "x-real-ip";
                 Request.headers request !! "x-client-ip";
                 Request.connection_remoteAddress request;
                 Request.socket_remoteAddress request;
                 Request.ip request ]))
  ∧ is_empty (extractRealIp request) = false.
Proof.
  intros Hf.
  assert (Ht : truthy_string (Request.headers request !! "x-forwarded-for")
               = false).
  { unfold truthy_string. unfold Spec.nonempty in Hf.
    destruct (Request.headers request !! "x-forwarded-for") as [f|]; [|done].
    by destruct (is_empty f). }
  unfold extractRealIp. rewrite get_forwarded, Ht.
  change (Request.get request "X-Real-IP")
    with (Request.headers request !! "x-real-ip").
  change (Request.get request "X-Client-IP")
    with (Request.headers request !! "x-client-ip").
  unfold or_string, truthy_string.
  destruct (Request.headers request !! "x-real-ip") as [[|? ?]|];
    destruct (Request.headers request !! "x-client-ip") as [[|? ?]|];
    destruct (Request.connection_remoteAddress request) as [[|? ?]|];
    destruct (Request.socket_remoteAddress request) as [[|? ?]|];
    destruct (Request.ip request) as [[|? ?]|]; done.
Qed.

Lemma extractRealIp_fallback_witness :
  is_empty (extractRealIp (Samples.plain_request "/orders")) = false.
Proof.
  apply (extractRealIp_fallback (Samples.plain_request "/orders")).
  reflexivity.
Defined.

(** X3. An X-Forwarded-For header whose first entry is blank (a comma
    preceded by white space at most) gives the empty address, although the
    socket knows the peer. *)
Theorem extractRealIp_blank_first_entry (request : Request.t)
    (ws rest : string) :
  forallb is_space ws = true →
  Request.headers request !! "x-forwarded-for" = Some (ws ++ "," ++ rest) →
  extractRealIp request = EmptyString.
Proof.
  intros Hws Hf. unfold extractRealIp. rewrite get_forwarded, Hf.
  unfold truthy_string.
  change (ws ++ "," ++ rest) with (ws ++ String "," rest).
  rewrite is_empty_app_cons. cbn [negb].
  rewrite (split_app_sep _ _ _ (space_no_comma _ Hws)). cbn [hd].
  by apply trim_all_space.
Qed.

Lemma extractRealIp_blank_first_entry_witness :
  extractRealIp (More.forwarded_request " , 203.0.113.9") = EmptyString.
Proof.
  apply (extractRealIp_blank_first_entry
           (More.forwarded_request " , 203.0.113.9") " " " 203.0.113.9");
    reflexivity.
Defined.

End IpProps.

(** *** More on route exclusion *)

Module RouteMore.
Import JsString Js Interceptor Routes Text TextProps RouteProps.

Lemma prefix_empty (s : string) : String.prefix EmptyString s = true.
Proof. by destruct s. Qed.

Lemma without_last_star_id (route : string) :
  includes route "*" = false → without_last_star route = route.
Proof.
  induction route as [|c r IH]; [done|]. cbn [includes without_last_star].
  destruct (Ascii.eqb c "*"); [done|]. intros Hr. cbn [andb]. by rewrite IH.
Qed.

Lemma without_last_star_app (route : string) :
  includes route "*" = true →
  includes (without_last_star route) "*" = false →
  route = without_last_star route ++ "*".
Proof.
  induction route as [|c r IH]; [done|]. cbn [includes without_last_star].
  destruct (Ascii.eqb_spec c "*"%char) as [->|Hc].
  - intros _. destruct r as [|d r']; [done|]. cbn [is_empty andb includes].
    done.
  - cbn [andb includes]. destruct (Ascii.eqb c "*") eqn:E.
    { by apply Ascii.eqb_eq in E. }
    intros H1 H2.
    change (String c (without_last_star r) ++ "*")
      with (String c (without_last_star r ++ "*")).
    by rewrite <- (IH H1 H2).
Qed.

Lemma glob_star_all (t : string) : Spec.glob "*" t = true.
Proof.
  cbn [Spec.glob]. change (Ascii.eqb "*" "*") with true. cbv iota.
  induction t as [|d r IH]; [done|]. by rewrite IH, orb_true_r.
Qed.

Lemma glob_prefix_star (p url : string) :
  includes p "*" = false →
  Spec.glob (p ++ "*") url = String.prefix p url.
Proof.
  revert url. induction p as [|c p IH]; intros url.
  - intros _. rewrite prefix_empty. apply glob_star_all.
  - cbn [includes]. destruct (Ascii.eqb c "*") eqn:E; [done|]. intros Hp.
    simpl. rewrite E. destruct url as [|d r]; [done|].
    rewrite (IH _ Hp). cbn [String.prefix].
    destruct (ascii_dec c d) as [->|Hne].
    + by rewrite Ascii.eqb_refl.
    + apply Ascii.eqb_neq in Hne. by rewrite Hne.
Qed.

Lemma pattern_matches_prefix_route (route url : string) :
  includes (without_last_star route) "*" = false →
  Spec.pattern_matches route url = startsWith url (without_last_star route).
Proof.
  intros Hq. unfold Spec.pattern_matches, startsWith.
  destruct (includes route "*") eqn:E.
  - rewrite (without_last_star_app _ E Hq) at 1. by apply glob_prefix_star.
  - by rewrite (without_last_star_id _ E).
Qed.

Section WithRuntime.

Variable JSON_parse : string -> option value.
Variable base64url_toString : string -> string.
Variable RegExp_test : string -> string -> option bool.

Lemma shouldExcludeRoute_star_free (options : ModuleOptions.t)
    (routes : list string) (url : string) :
  ModuleOptions.excludeRoutes options = Some routes →
  Forall (fun route => includes route "*" = false) routes →
  shouldExcludeRoute RegExp_test options url
  = Some (existsb (startsWith url) routes).
Proof.
  intros Ho Hr. unfold shouldExcludeRoute. rewrite Ho.
  apply some_existsb. eapply Forall_impl; [exact Hr|].
  intros route Hs. cbn beta. by rewrite Hs.
Qed.

Lemma intercept_excluded (options : ModuleOptions.t)
    (context : ExecutionContext) (next : Observable.t) :
  shouldExcludeRoute RegExp_test options (Request.url (getRequest context))
  = Some true →
  intercept JSON_parse base64url_toString RegExp_test options context next
  = Some (next, []).
Proof.
  intros Hx. unfold intercept. rewrite Hx.
  by destruct (Decorator.isAuditLogEnabled (getHandler context)).
Qed.

(** X4. When no excluded route contains a star, the pattern engine is
    never consulted: a request is excluded exactly when its url, query
    string included, starts with one of the routes; an excluded request is
    handed to the handler unobserved and leaves no record, marked or
    not. *)
Theorem exclusion_by_prefix (options : ModuleOptions.t)
    (routes : list string) (context : ExecutionContext)
    (next : Observable.t) :
  ModuleOptions.excludeRoutes options = Some routes →
  Forall (fun route => includes route "*" = false) routes →
  shouldExcludeRoute RegExp_test options (Request.url (getRequest context))
  = Some (existsb (startsWith (Request.url (getRequest context))) routes)
  ∧ (existsb (startsWith (Request.url (getRequest context))) routes = true →
     intercept JSON_parse base64url_toString RegExp_test options context next
     = Some (next, [])).
Proof.
  intros Ho Hr.
  pose proof (shouldExcludeRoute_star_free options routes
                (Request.url (getRequest context)) Ho Hr) as Hx.
  split; [exact Hx|]. intros He. apply intercept_excluded.
  by rewrite Hx, He.
Qed.

(** X5. An empty string among the excluded routes excludes every request:
    with it (and no star in the routes) no handler is audited, whatever its
    marker and its url. This is the list that [''.split(',')] gives. *)
Theorem empty_route_excludes_all (options : ModuleOptions.t)
    (routes : list string) (context : ExecutionContext)
    (next : Observable.t) :
  ModuleOptions.excludeRoutes options = Some routes →
  Forall (fun route => includes route "*" = false) routes →
  EmptyString ∈ routes →
  intercept JSON_parse base64url_toString RegExp_test options context next
  = Some (next, []).
Proof.
  intros Ho Hr He. apply intercept_excluded.
  rewrite (shouldExcludeRoute_star_free options routes _ Ho Hr).
  f_equal. apply existsb_exists. exists EmptyString. split.
  - by apply list_elem_of_In.
  - apply prefix_empty.
Qed.

End WithRuntime.

Lemma exclusion_by_prefix_witness :
  shouldExcludeRoute Regex.test (ModuleOptions.excluding ["/health"])
    "/health2?probe=1"
  = Some true.
Proof.
  apply (exclusion_by_prefix Json.parse Base64.decode Regex.test
           (ModuleOptions.excluding ["/health"]) ["/health"]
           (Samples.marked_context AuditLogOptions.empty "/health2?probe=1")
           (Samples.returns VUndefined 200 1015) eq_refl).
  repeat constructor.
Defined.

Lemma empty_route_excludes_all_witness :
  intercept Json.parse Base64.decode Regex.test
    (ModuleOptions.excluding [EmptyString])
    (Samples.marked_context AuditLogOptions.empty "/orders")
    (Samples.returns (VString "ok") 200 1015)
  = Some (Samples.returns (VString "ok") 200 1015, []).
Proof.
  apply (empty_route_excludes_all Json.parse Base64.decode Regex.test
           (ModuleOptions.excluding [EmptyString]) [EmptyString]);
    [reflexivity|repeat constructor|apply list_elem_of_here].
Defined.

(** X6. With the pattern engine of [Module Regex], a route made of
    ordinary characters that ends in a star excludes the same urls as the
    route without the star: both exclude exactly the one-line urls that
    start with the text before the star. *)
Theorem trailing_star_is_prefix (options : ModuleOptions.t)
    (routes : list string) (url : string) :
  ModuleOptions.excludeRoutes options = Some routes →
  Forall (fun route => prefix_route route = true) routes →
  single_line url = true →
  shouldExcludeRoute Regex.test options url
  = Some (existsb (fun route => startsWith url (without_last_star route))
            routes).
Proof.
  intros Ho Hr Hu.
  rewrite (shouldExcludeRoute_glob options routes url Ho).
  - f_equal. unfold Spec.isExcluded. clear Ho.
    induction Hr as [|route routes' Hp _ IH]; [done|]. cbn [existsb].
    apply andb_true_iff in Hp as [_ Hq%negb_true_iff].
    by rewrite (pattern_matches_prefix_route _ _ Hq), IH.
  - eapply Forall_impl; [exact Hr|].
    by intros route [? _]%andb_true_iff.
  - exact Hu.
Qed.

Lemma trailing_star_is_prefix_witness :
  shouldExcludeRoute Regex.test (ModuleOptions.excluding ["/api/*"])
    "/api/"
  = Some true.
Proof.
  apply (trailing_star_is_prefix (ModuleOptions.excluding ["/api/*"])
           ["/api/*"] "/api/" eq_refl);
    [repeat constructor|reflexivity].
Defined.

End RouteMore.
(** *** More on the token extractor *)

Module TokenMore.
Import JsString Js Interceptor Text TextProps TokenProps.

Lemma nonempty_Some (o : option string) (s : string) :
  Spec.nonempty o = Some s → o = Some s ∧ is_empty s = false.
Proof.
  unfold Spec.nonempty. destruct o as [x|]; [|done].
  destruct (is_empty x) eqn:E; [done|]. by intros [= <-].
Qed.

Lemma head_omap_nonempty (read : string -> option string)
    (names : list string) (t : string) :
  head (omap (fun k => Spec.nonempty (read k)) names) = Some t →
  is_empty t = false.
Proof.
  induction names as [|k names IH]; [done|]. simpl.
  destruct (Spec.nonempty (read k)) as [v|] eqn:E; [|exact IH].
  simpl. intros [= <-]. by apply nonempty_Some in E as [_ ?].
Qed.

(** X7. The resolver of the source never gives the empty string: it gives
    [undefined] or a token of at least one character, so that the test
    [if (token)] that guards the decoding tells exactly whether a token
    was found. *)
Theorem extractTokenFromRequest_nonempty (request : Request.t) (t : string) :
  extractTokenFromRequest request = Some t → is_empty t = false.
Proof.
  rewrite extractTokenFromRequest_spec.
  destruct (Spec.nonempty (Request.headers request !! "authorization"))
    as [h|] eqn:Eh.
  - apply nonempty_Some in Eh as [_ Hh].
    destruct (match_Bearer h) as [m|] eqn:Em; cbn [default].
    + intros [= <-]. by apply match_Bearer_spec in Em as (n & _ & _ & _ & _ & ?).
    + by intros [= <-].
  - unfold Spec.candidates. rewrite head_app_omap.
    destruct (head (omap _ customHeaders)) as [v|] eqn:Ec.
    + intros [= <-]. by apply head_omap_nonempty in Ec.
    + apply head_omap_nonempty.
Qed.

Lemma extractTokenFromRequest_nonempty_witness :
  is_empty "abc" = false.
Proof.
  apply (extractTokenFromRequest_nonempty Samples.bearer_and_query_request).
  reflexivity.
Defined.

Section WithRuntime.

Variable JSON_parse : string -> option value.
Variable base64url_toString : string -> string.

(** X8. Without a token, or with an empty one from a custom extractor,
    no identity is derived: the user id and the email are [undefined] and
    the custom decoders, when configured, are not consulted. *)
Theorem no_token_no_identity (options : ModuleOptions.t)
    (request : Request.t) :
  truthy_string
    (TokenExtractionResult.token
       (extractTokenInfo JSON_parse base64url_toString options request))
  = false →
  TokenExtractionResult.userId
    (extractTokenInfo JSON_parse base64url_toString options request)
  = VUndefined
  ∧ TokenExtractionResult.userEmail
      (extractTokenInfo JSON_parse base64url_toString options request)
    = VUndefined.
Proof.
  unfold extractTokenInfo.
  destruct (truthy_string
              match ModuleOptions.customTokenExtractor options with
              | Some extractor => extractor request
              | None => extractTokenFromRequest request
              end) eqn:E; cbn; [|done].
  intros Hf. by rewrite Hf in E.
Qed.

Lemma split_three (h m s : string) :
  includes h "." = false → includes m "." = false →
  includes s "." = false →
  split "." (h ++ "." ++ m ++ "." ++ s) = [h; m; s].
Proof.
  intros Hh Hm Hs.
  change (h ++ "." ++ m ++ "." ++ s)
    with (h ++ String "." (m ++ String "." s)).
  by rewrite (split_app_sep _ _ _ Hh), (split_app_sep _ _ _ Hm),
    (split_no_sep _ _ Hs).
Qed.

Lemma includes_three (h m s : string) :
  includes (h ++ "." ++ m ++ "." ++ s) "." = true.
Proof.
  change (h ++ "." ++ m ++ "." ++ s)
    with (h ++ String "." (m ++ String "." s)).
  rewrite includes_app. cbn [includes].
  change (Ascii.eqb "." ".") with true. apply orb_true_r.
Qed.

Lemma decode_claim_three (h m s : string) (p q : prop) (ps qs : list prop) :
  includes h "." = false → includes m "." = false →
  includes s "." = false →
  decode_claim JSON_parse base64url_toString (h ++ "." ++ m ++ "." ++ s)
    p ps q qs
  = match JSON_parse (base64url_toString m) with
    | Some payload => get_first payload p ps
    | None => None
    end.
Proof.
  intros Hh Hm Hs. unfold decode_claim.
  by rewrite includes_three, (split_three _ _ _ Hh Hm Hs).
Qed.

(** X9. Of a token of three dot-separated parts only the middle part is
    read: the first part and the signature have no influence on the
    identity, so two tokens with the same payload give the same user id and
    the same email whatever their signatures. *)
Theorem identity_ignores_signature (h1 s1 h2 s2 m : string) :
  includes h1 "." = false → includes s1 "." = false →
  includes h2 "." = false → includes s2 "." = false →
  includes m "." = false →
  extractUserIdFromCustomToken JSON_parse base64url_toString
    (h1 ++ "." ++ m ++ "." ++ s1)
  = extractUserIdFromCustomToken JSON_parse base64url_toString
      (h2 ++ "." ++ m ++ "." ++ s2)
  ∧ extractEmailFromCustomToken JSON_parse base64url_toString
      (h1 ++ "." ++ m ++ "." ++ s1)
    = extractEmailFromCustomToken JSON_parse base64url_toString
        (h2 ++ "." ++ m ++ "." ++ s2).
Proof.
  intros Hh1 Hs1 Hh2 Hs2 Hm.
  unfold extractUserIdFromCustomToken, extractEmailFromCustomToken.
  by rewrite !decode_claim_three.
Qed.

(** X10. A payload that is not an object gives no identity, with one
    exception. When the middle part decodes to [null], to a number, to a
    boolean or to an array, the user id and the email are [undefined]
    (for [null] through the swallowed TypeError). When it decodes to a
    JSON string, the email is [undefined] but the user id is the method
    [sub] that every string inherits, a function and not a string. *)
Theorem identity_of_non_object_payload (h m s : string) (payload : value) :
  includes h "." = false → includes m "." = false →
  includes s "." = false →
  JSON_parse (base64url_toString m) = Some payload →
  match payload with
  | VNull | VBool _ | VNumber _ | VArray _ =>
      extractUserIdFromCustomToken JSON_parse base64url_toString
        (h ++ "." ++ m ++ "." ++ s) = VUndefined
      ∧ extractEmailFromCustomToken JSON_parse base64url_toString
          (h ++ "." ++ m ++ "." ++ s) = VUndefined
  | VString _ =>
      extractUserIdFromCustomToken JSON_parse base64url_toString
        (h ++ "." ++ m ++ "." ++ s) = VFunction "String.prototype.sub"
      ∧ extractEmailFromCustomToken JSON_parse base64url_toString
          (h ++ "." ++ m ++ "." ++ s) = VUndefined
  | _ => True
  end.
Proof.
  intros Hh Hm Hs Hp.
  unfold extractUserIdFromCustomToken, extractEmailFromCustomToken.
  rewrite !decode_claim_three by done. rewrite Hp.
  by destruct payload.
Qed.

End WithRuntime.

Lemma no_token_no_identity_witness :
  TokenExtractionResult.userId
    (extractTokenInfo Json.parse Base64.decode ModuleOptions.defaults
       (Samples.plain_request "/orders"))
  = VUndefined.
Proof.
  apply (no_token_no_identity Json.parse Base64.decode
           ModuleOptions.defaults (Samples.plain_request "/orders")).
  reflexivity.
Defined.

Lemma identity_ignores_signature_witness :
  extractUserIdFromCustomToken Json.parse Base64.decode
    ("header" ++ "." ++ "eyJzdWIiOiJ1MSIsImVtYWlsIjoiYUBiLmNvbSJ9" ++ "."
     ++ "sig")
  = extractUserIdFromCustomToken Json.parse Base64.decode
      ("x" ++ "." ++ "eyJzdWIiOiJ1MSIsImVtYWlsIjoiYUBiLmNvbSJ9" ++ "."
       ++ "forged").
Proof.
  apply (identity_ignores_signature Json.parse Base64.decode
           "header" "sig" "x" "forged"
           "eyJzdWIiOiJ1MSIsImVtYWlsIjoiYUBiLmNvbSJ9");
    reflexivity.
Defined.

(** The middle part [ImFiYyI] is the base64url text of a JSON string. *)
Lemma identity_of_non_object_payload_witness :
  extractUserIdFromCustomToken Json.parse Base64.decode
    ("header" ++ "." ++ "ImFiYyI" ++ "." ++ "sig")
  = VFunction "String.prototype.sub"
  ∧ extractEmailFromCustomToken Json.parse Base64.decode
      ("header" ++ "." ++ "ImFiYyI" ++ "." ++ "sig")
    = VUndefined.
Proof.
  apply (identity_of_non_object_payload Json.parse Base64.decode
           "header" "ImFiYyI" "sig" (VString "abc"));
    reflexivity.
Defined.

End TokenMore.
(** *** More on the interceptor *)

Module InterceptorMore.
Import JsString Js Interceptor Text InterceptorProps.

Section WithRuntime.

Variable JSON_parse : string -> option value.
Variable base64url_toString : string -> string.
Variable RegExp_test : string -> string -> option bool.
Variable options : ModuleOptions.t.

(** Every call registered for an audited request is built from the
    request as read on entry. *)
Lemma intercept_calls_defer (context : ExecutionContext)
    (next handed_back : Observable.t) (calls : list Deferred.t)
    (call : Deferred.t) :
  intercept JSON_parse base64url_toString RegExp_test options context next
  = Some (handed_back, calls) →
  call ∈ calls →
  ∃ (responseInfo : ResponseInfo.t) (now : Z),
    call = defer context (Spec.per_call context)
             (extractRequestInfo (getRequest context))
             (extractTokenInfo JSON_parse base64url_toString options
                (getRequest context))
             responseInfo now.
Proof.
  unfold intercept.
  destruct (Decorator.isAuditLogEnabled (getHandler context)); cbn [negb].
  - destruct (shouldExcludeRoute _ _ _) as [[|]|]; [| |done].
    + intros [= _ <-] Hin. by apply elem_of_nil in Hin.
    + intros [= Hp] Hin. apply (pipe_calls_defer _ _ _ _ next).
      unfold Spec.per_call. unfold Decorator.getAuditLogOptions in Hp.
      by rewrite Hp.
  - intros [= _ <-] Hin. by apply elem_of_nil in Hin.
Qed.

(** X11. For an audited request the observable handed back carries the
    values of the handler unchanged, and one deferred call is registered
    per value, plus one when the handler ends in an error other than
    [null] and [undefined]: a handler that emits several values is
    recorded several times. The end of the observable is that of the
    handler, except that a thrown [null] or [undefined] is replaced by the
    TypeError of the callback. *)
Theorem one_record_per_notification (context : ExecutionContext)
    (next : Observable.t) :
  Spec.audited RegExp_test options context →
  ∃ (handed_back : Observable.t) (calls : list Deferred.t),
    intercept JSON_parse base64url_toString RegExp_test options context next
    = Some (handed_back, calls)
    ∧ Observable.values handed_back = Observable.values next
    ∧ length calls
      = (length (Observable.values next)
         + match Observable.ending next with
           | Observable.Complete => 0
           | Observable.Error e _ => if nullish e then 0 else 1
           end)%nat
    ∧ Observable.ending handed_back
      = match Observable.ending next with
        | Observable.Complete => Observable.Complete
        | Observable.Error e now =>
            Observable.Error (if nullish e then TypeError status else e) now
        end.
Proof.
  intros Ha. rewrite (intercept_audited _ _ _ _ _ _ Ha). unfold pipe.
  destruct (Observable.ending next) as [|e now] eqn:Ee.
  - eexists _, _. split; [reflexivity|]. rewrite length_map, Ee.
    repeat split; lia.
  - destruct (decide (nullish e = true)) as [Hn|Hn].
    + assert (Hs : catchError_selector context (Spec.per_call context)
                     (extractRequestInfo (getRequest context))
                     (extractTokenInfo JSON_parse base64url_toString options
                        (getRequest context)) e now
                   = ([], TypeError status)) by (by destruct e).
      rewrite Hs, Hn. eexists _, _. split; [reflexivity|].
      cbn [Observable.values Observable.ending].
      rewrite length_app, length_map. by repeat split.
    + apply not_true_is_false in Hn.
      unfold catchError_selector.
      rewrite (get_defined e status), (get_defined e message), Hn
        by (by destruct e).
      eexists _, _. split; [reflexivity|].
      cbn [Observable.values Observable.ending].
      rewrite length_app, length_map. by repeat split.
Qed.

(** X12. What one request persists in clear. Every record of an audited
    request has the url of the request, query string included, as
    endpoint, and the raw token; when the request body is logged, its
    requestData holds the body and the query parameters as received: only
    the headers go through the sanitizer. *)
Theorem record_keeps_url_query_body (context : ExecutionContext)
    (next handed_back : Observable.t) (calls : list Deferred.t)
    (call : Deferred.t) :
  intercept JSON_parse base64url_toString RegExp_test options context next
  = Some (handed_back, calls) →
  call ∈ calls →
  Spec.logs_request options context = true →
  let data := auditData options call in
  let request := getRequest context in
  AuditLogData.endpoint data = Request.url request
  ∧ AuditLogData.httpMethod data = Request.method request
  ∧ AuditLogData.token data
    = TokenExtractionResult.token
        (extractTokenInfo JSON_parse base64url_toString options request)
  ∧ AuditLogData.requestData data
    = Some {| RequestData.body := Request.body request;
              RequestData.query := Request.query request;
              RequestData.headers :=
                Sanitizer.sanitizeHeaders (Request.headers request) |}.
Proof.
  intros Hi Hin Hl.
  destruct (intercept_calls_defer _ _ _ _ _ Hi Hin) as (resp & now & ->).
  unfold Spec.logs_request in Hl. rewrite <- coalesce_effective in Hl.
  cbn. by rewrite Hl.
Qed.

(** X13. When the handler of an audited request returns once, the
    observable handed back is the handler's own, and exactly one record is
    composed: its status code is the one the response has at that moment,
    its execution time the clock at that moment minus the clock on entry,
    its timestamp the one taken on entry, and its responseData the value
    returned when the response body is logged. *)
Theorem success_path_record (context : ExecutionContext)
    (data : value) (statusCode now : Z) :
  Spec.audited RegExp_test options context →
  let next :=
    {| Observable.values :=
         [ {| Observable.data := data; Observable.statusCode := statusCode;
              Observable.now := now |} ];
       Observable.ending := Observable.Complete |} in
  ∃ call : Deferred.t,
    intercept JSON_parse base64url_toString RegExp_test options context next
    = Some (next, [call])
    ∧ AuditLogData.statusCode (auditData options call) = VInt statusCode
    ∧ AuditLogData.executionTimeMs (auditData options call)
      = (now - startTime context)%Z
    ∧ AuditLogData.timestamp (auditData options call) = timestamp context
    ∧ AuditLogData.responseData (auditData options call)
      = if Spec.logs_response options context then data else VUndefined.
Proof.
  intros Ha next. rewrite (intercept_audited _ _ _ _ _ _ Ha).
  eexists. split; [reflexivity|]. cbn.
  unfold Spec.logs_response. by rewrite coalesce_effective.
Qed.

(** X14. The credential of [Authorization: Bearer t] is redacted in the
    logged headers and kept in the record all the same: with no custom
    extractor and the request body logged, every record of the request has
    the marker under [authorization] in its requestData and [t] itself in
    its token field. *)
Theorem bearer_token_redacted_and_kept (context : ExecutionContext)
    (next handed_back : Observable.t) (calls : list Deferred.t)
    (call : Deferred.t) (t : string) :
  ModuleOptions.customTokenExtractor options = None →
  Request.headers (getRequest context) !! "authorization"
  = Some ("Bearer " ++ t) →
  is_empty t = false → span_length is_space t = 0%nat →
  Routes.single_line t = true →
  intercept JSON_parse base64url_toString RegExp_test options context next
  = Some (handed_back, calls) →
  call ∈ calls →
  Spec.logs_request options context = true →
  AuditLogData.token (auditData options call) = Some t
  ∧ ∃ requestData : RequestData.t,
      AuditLogData.requestData (auditData options call) = Some requestData
      ∧ RequestData.headers requestData !! "authorization"
        = Some Sanitizer.REDACTED.
Proof.
  intros Hc Hh Ht Hsp Hline Hi Hin Hl.
  destruct (intercept_calls_defer _ _ _ _ _ Hi Hin) as (resp & now & ->).
  unfold Spec.logs_request in Hl. rewrite <- coalesce_effective in Hl.
  assert (Htok : extractTokenFromRequest (getRequest context) = Some t).
  { rewrite TokenProps.extractTokenFromRequest_spec, Hh.
    unfold Spec.nonempty.
    change (is_empty ("Bearer " ++ t)) with false. cbv iota.
    change ("Bearer " ++ t) with ("Bearer" ++ " " ++ t).
    by rewrite (TokenProps.match_Bearer_complete "Bearer" " " t). }
  split.
  - cbn. unfold extractTokenInfo. rewrite Hc, Htok.
    unfold truthy_string. by rewrite Ht.
  - cbn -[Sanitizer.sanitizeHeaders]. rewrite Hl.
    eexists. split; [reflexivity|]. cbn [RequestData.headers].
    rewrite SanitizerProps.lookup_sanitizeHeaders, Hh.
    rewrite decide_True by (rewrite list_elem_of_In; cbn; tauto).
    reflexivity.
Qed.

End WithRuntime.

Lemma one_record_per_notification_witness :
  ∃ (handed_back : Observable.t) (calls : list Deferred.t),
    intercept Json.parse Base64.decode Regex.test ModuleOptions.defaults
      (Samples.marked_context AuditLogOptions.empty "/events") More.two_values
    = Some (handed_back, calls)
    ∧ Observable.values handed_back = Observable.values More.two_values
    ∧ length calls = 2%nat
    ∧ Observable.ending handed_back = Observable.Complete.
Proof.
  apply (one_record_per_notification Json.parse Base64.decode Regex.test
           ModuleOptions.defaults
           (Samples.marked_context AuditLogOptions.empty "/events")
           More.two_values).
  split; reflexivity.
Defined.

Lemma record_keeps_url_query_body_witness :
  AuditLogData.endpoint
    (auditData ModuleOptions.defaults
       (defer (More.login_context "abc") More.logs_request_body
          (extractRequestInfo (More.bearer_request "abc"))
          (extractTokenInfo Json.parse Base64.decode ModuleOptions.defaults
             (More.bearer_request "abc"))
          {| ResponseInfo.statusCode := VInt 201;
             ResponseInfo.data := VString "ok" |}
          30))
  = "/login?next=%2Fhome".
Proof.
  apply (record_keeps_url_query_body Json.parse Base64.decode Regex.test
           ModuleOptions.defaults (More.login_context "abc")
           (Samples.returns (VString "ok") 201 1030)
           (Samples.returns (VString "ok") 201 1030)
           _ _ eq_refl (list_elem_of_here _ _) eq_refl).
Defined.

Lemma success_path_record_witness :
  ∃ call : Deferred.t,
    intercept Json.parse Base64.decode Regex.test ModuleOptions.defaults
      (Samples.marked_context AuditLogOptions.empty "/orders")
      (Samples.returns (VString "ok") 200 1015)
    = Some (Samples.returns (VString "ok") 200 1015, [call])
    ∧ AuditLogData.statusCode (auditData ModuleOptions.defaults call)
      = VInt 200
    ∧ AuditLogData.executionTimeMs (auditData ModuleOptions.defaults call)
      = 15%Z
    ∧ AuditLogData.timestamp (auditData ModuleOptions.defaults call)
      = 1000%Z
    ∧ AuditLogData.responseData (auditData ModuleOptions.defaults call)
      = VUndefined.
Proof.
  apply (success_path_record Json.parse Base64.decode Regex.test
           ModuleOptions.defaults
           (Samples.marked_context AuditLogOptions.empty "/orders")
           (VString "ok") 200 1015).
  split; reflexivity.
Defined.

Lemma bearer_token_redacted_and_kept_witness :
  AuditLogData.token
    (auditData ModuleOptions.defaults
       (defer (More.login_context "abc") More.logs_request_body
          (extractRequestInfo (More.bearer_request "abc"))
          (extractTokenInfo Json.parse Base64.decode ModuleOptions.defaults
             (More.bearer_request "abc"))
          {| ResponseInfo.statusCode := VInt 201;
             ResponseInfo.data := VString "ok" |}
          30))
  = Some "abc".
Proof.
  apply (bearer_token_redacted_and_kept Json.parse Base64.decode Regex.test
           ModuleOptions.defaults (More.login_context "abc")
           (Samples.returns (VString "ok") 201 1030)
           (Samples.returns (VString "ok") 201 1030)
           _ _ "abc" eq_refl eq_refl eq_refl eq_refl eq_refl eq_refl
           (list_elem_of_here _ _) eq_refl).
Defined.

End InterceptorMore.
(** *** More on the service *)

Module ServiceMore.
Import JsString Js Interceptor Effect Service ServiceProps InterceptorProps.

(** X15. A cleanup that the store rejects fails for its caller: the error
    of the store is thrown again as it is, after one error entry in the
    log; nothing is returned. (Unlike the write of a record, which
    swallows the error.) *)
Theorem cleanup_failure_rethrown {Store : Type} `{Repository Store}
    (days_before : Z -> Z -> Z) (now : Z) (retentionDays : option Z)
    (w : World Store) (e : value) (s : Store) :
  delete_where_timestamp_lt
    (days_before now (default 90%Z retentionDays)) (store w)
  = (Thrown e, s) →
  cleanupOldAuditLogs days_before now retentionDays w
  = (Thrown e,
     {| store := s;
        logged := logged w
                  ++ [LogError "Failed to cleanup old audit logs"
                        (message_of e) (stack_of e)];
        save_calls := save_calls w |}).
Proof. intros Hd. run_M. by rewrite Hd. Qed.

Lemma cleanup_failure_rethrown_witness :
  fst (cleanupOldAuditLogs utc_days_before 5000 None
         (Samples.start Samples.db_down))
  = Thrown Samples.connection_refused.
Proof.
  rewrite (cleanup_failure_rethrown (H := memory) utc_days_before 5000 None
             (Samples.start Samples.db_down) Samples.connection_refused
             Samples.db_down);
    reflexivity.
Defined.

Lemma filter_filter_neg (cutoff1 cutoff2 : Z) (l : list AuditLogEntity.t) :
  (cutoff2 ≤ cutoff1)%Z →
  List.filter (older_than cutoff2)
    (List.filter (fun e => negb (older_than cutoff1 e)) l) = []
  ∧ List.filter (fun e => negb (older_than cutoff2 e))
      (List.filter (fun e => negb (older_than cutoff1 e)) l)
    = List.filter (fun e => negb (older_than cutoff1 e)) l.
Proof.
  intros Hc. induction l as [|x l [IH1 IH2]]; [done|]. cbn [List.filter].
  destruct (older_than cutoff1 x) eqn:E1; cbn [negb]; [done|].
  cbn [List.filter].
  assert (E2 : older_than cutoff2 x = false).
  { unfold older_than in *. apply Z.ltb_ge. apply Z.ltb_ge in E1. lia. }
  rewrite E2. cbn [negb]. by rewrite IH1, IH2.
Qed.

(** X16. Cleaning up is idempotent on the in-memory store: after a cleanup,
    a second one with the same or an earlier cutoff deletes nothing,
    returns 0 and leaves the rows as the first one left them. *)
Theorem cleanup_twice (days_before : Z -> Z -> Z) (now1 now2 : Z)
    (days1 days2 : option Z) (w : World Db) :
  outage (store w) = None →
  (days_before now2 (default 90 days2)
   ≤ days_before now1 (default 90 days1))%Z →
  let w1 := snd (cleanupOldAuditLogs days_before now1 days1 w) in
  fst (cleanupOldAuditLogs days_before now2 days2 w1) = Returned 0%Z
  ∧ store (snd (cleanupOldAuditLogs days_before now2 days2 w1)) = store w1.
Proof.
  intros Ho Hc w1. subst w1.
  rewrite (cleanup_memory days_before now1 days1 w Ho). cbn [snd].
  rewrite cleanup_memory by done.
  cbn [fst snd store rows with_rows next_id reports_affected].
  destruct (filter_filter_neg _ _ (rows (store w)) Hc) as [-> ->].
  split; [by destruct (reports_affected (store w))|done].
Qed.

Lemma cleanup_twice_witness :
  fst (cleanupOldAuditLogs utc_days_before (500 * Samples.day) None
         (snd (cleanupOldAuditLogs utc_days_before (500 * Samples.day) None
                 (Samples.start (Samples.three_rows true)))))
  = Returned 0%Z.
Proof.
  apply (cleanup_twice utc_days_before (500 * Samples.day)
           (500 * Samples.day) None None
           (Samples.start (Samples.three_rows true)));
    [reflexivity|]. unfold utc_days_before. lia.
Defined.

Section WithRuntime.

Variable JSON_parse : string -> option value.
Variable base64url_toString : string -> string.
Variable RegExp_test : string -> string -> option bool.
Variable options : ModuleOptions.t.

(** X17. End to end on a store that accepts the write: an audited request
    whose handler returns once gets its observable back unchanged and adds
    exactly one row, after the rows already there, with the next id of the
    store, the url of the request as endpoint and the status code of the
    response; [save] is called once. *)
Theorem audited_request_adds_one_row (context : ExecutionContext)
    (data : value) (statusCode now : Z) (w : World Db) :
  Spec.audited RegExp_test options context →
  outage (store w) = None →
  ∃ (w' : World Db) (row : AuditLogEntity.t),
    Server.serve JSON_parse base64url_toString RegExp_test options context
      (Samples.returns data statusCode now) w
    = Some (Samples.returns data statusCode now, w')
    ∧ rows (store w') = (rows (store w) ++ [row])%list
    ∧ AuditLogEntity.id row = Some (next_id (store w))
    ∧ AuditLogEntity.endpoint row = Request.url (getRequest context)
    ∧ AuditLogEntity.statusCode row = VInt statusCode
    ∧ next_id (store w') = (next_id (store w) + 1)%Z
    ∧ save_calls w' = S (save_calls w).
Proof.
  intros Ha Ho. unfold Server.serve.
  rewrite (intercept_audited _ _ _ _ _ _ Ha).
  unfold pipe, Samples.returns.
  cbn [Observable.ending Observable.values map run_deferred].
  unfold mbind, M_bind, bind. run_M. run_M.
  cbn [create save memory store]. rewrite Ho.
  cbn [store logged save_calls].
  destruct (ModuleOptions.logLevel options) as [[| | |]|];
    (eexists _, _; split; [reflexivity|]; by repeat split).
Qed.

(** X18. End to end on a store that rejects the write: the same request
    gets the same observable back; no row is added, the failure is one
    error entry in the log, and nothing is thrown. *)
Theorem audited_request_on_failing_store (context : ExecutionContext)
    (data : value) (statusCode now : Z) (w : World Db) (e : value) :
  Spec.audited RegExp_test options context →
  outage (store w) = Some e →
  Server.serve JSON_parse base64url_toString RegExp_test options context
    (Samples.returns data statusCode now) w
  = Some (Samples.returns data statusCode now,
          {| store := store w;
             logged := logged w
                       ++ [LogError "Failed to save audit log"
                             (message_of e) (stack_of e)];
             save_calls := S (save_calls w) |}).
Proof.
  intros Ha Ho. unfold Server.serve.
  rewrite (intercept_audited _ _ _ _ _ _ Ha).
  unfold pipe, Samples.returns.
  cbn [Observable.ending Observable.values map run_deferred].
  unfold mbind, M_bind, bind. run_M. run_M.
  cbn [create save memory store]. by rewrite Ho.
Qed.

End WithRuntime.

Lemma audited_request_adds_one_row_witness :
  ∃ (w' : World Db) (row : AuditLogEntity.t),
    Server.serve Json.parse Base64.decode Regex.test ModuleOptions.defaults
      (Samples.marked_context AuditLogOptions.empty "/orders")
      (Samples.returns (VString "ok") 200 1015)
      (Samples.start (Samples.three_rows true))
    = Some (Samples.returns (VString "ok") 200 1015, w')
    ∧ rows (store w') = (rows (Samples.three_rows true) ++ [row])%list
    ∧ AuditLogEntity.id row = Some 4%Z
    ∧ AuditLogEntity.endpoint row = "/orders"
    ∧ AuditLogEntity.statusCode row = VInt 200
    ∧ next_id (store w') = 5%Z
    ∧ save_calls w' = 1%nat.
Proof.
  apply (audited_request_adds_one_row Json.parse Base64.decode Regex.test
           ModuleOptions.defaults
           (Samples.marked_context AuditLogOptions.empty "/orders")
           (VString "ok") 200 1015
           (Samples.start (Samples.three_rows true)));
    [split; reflexivity|reflexivity].
Defined.

Lemma audited_request_on_failing_store_witness :
  fst <$> Server.serve Json.parse Base64.decode Regex.test
            ModuleOptions.defaults
            (Samples.marked_context AuditLogOptions.empty "/orders")
            (Samples.returns (VString "ok") 200 1015)
            (Samples.start Samples.db_down)
  = Some (Samples.returns (VString "ok") 200 1015).
Proof.
  rewrite (audited_request_on_failing_store Json.parse Base64.decode
             Regex.test ModuleOptions.defaults
             (Samples.marked_context AuditLogOptions.empty "/orders")
             (VString "ok") 200 1015 (Samples.start Samples.db_down)
             Samples.connection_refused);
    [reflexivity|split; reflexivity|reflexivity].
Defined.

End ServiceMore.
(** *** Reporting *)

Module ReportingProps.
Import JsString Js Effect Service Reporting.

Lemma firstn_add {A} (a b : nat) (l : list A) :
  firstn (a + b) l = (firstn a l ++ firstn b (skipn a l))%list.
Proof.
  revert l. induction a as [|a IH]; intros l; [done|].
  destruct l as [|x l]; simpl; [by destruct b|]. by rewrite IH.
Qed.

Lemma windows_tile {A} (l : list A) (L n : nat) :
  flat_map (fun i => firstn L (skipn (i * L) l)) (seq 0 n)
  = firstn (n * L) l.
Proof.
  induction n as [|n IH]; [done|].
  rewrite seq_S, flat_map_app, IH. cbn [flat_map plus].
  rewrite app_nil_r. replace (S n * L)%nat with (n * L + L)%nat by lia.
  by rewrite firstn_add.
Qed.

Lemma number_or_nonneg (o : option Z) (d : Z) :
  (0 ≤ default 0 o)%Z → (0 < d)%Z → (0 < number_or o d)%Z.
Proof.
  unfold number_or. destruct o as [n|]; simpl; [|done].
  destruct (Z.eqb_spec n 0); lia.
Qed.

Section WithDatabase.

Variable holds : Condition -> AuditLogEntity.t -> bool.
Variable ordered :
  Column.t -> SortOrder -> list AuditLogEntity.t -> list AuditLogEntity.t.

Lemma getAuditLogs_returns (filters : Filters.t) (options : Paging.t)
    (db : Db) :
  outage db = None →
  (0 ≤ default 0 (Paging.page options))%Z →
  (0 ≤ default 0 (Paging.limit options))%Z →
  let page := number_or (Paging.page options) 1 in
  let limit := number_or (Paging.limit options) 50 in
  let all :=
    ordered (default Column.timestamp (Paging.sortBy options))
      (default DESC (Paging.sortOrder options))
      (selected holds (conditions filters) db) in
  getAuditLogs holds ordered filters options db
  = Returned
      {| Page.data :=
           firstn (Z.to_nat limit)
             (skipn (Z.to_nat ((page - 1) * limit)) all);
         Page.total :=
           Z.of_nat (length (selected holds (conditions filters) db));
         Page.page := page;
         Page.limit := limit |}.
Proof.
  intros Ho Hp Hl page limit all.
  pose proof (number_or_nonneg _ 1 Hp eq_refl) as Hp1.
  pose proof (number_or_nonneg _ 50 Hl eq_refl) as Hl1.
  unfold getAuditLogs, getManyAndCount, query, and_then.
  cbn [Query.skip Query.take Query.wheres Query.orderBy fst snd].
  rewrite Ho. fold page limit.
  destruct (Z.ltb_spec ((page - 1) * limit) 0) as [Hneg|_]; [nia|].
  destruct (Z.ltb_spec limit 0) as [Hneg|_]; [lia|]. done.
Qed.

(** X19. The pages of a listing tile it: for a fixed filter, order and
    limit (not negative; 0 counts as 50), the rows of pages 1 to n, put
    end to end, are the first n times limit rows of the ordered selection,
    so no row is skipped and none is shown twice. *)
Theorem pages_tile (filters : Filters.t) (limit : option Z)
    (sortBy : option Column.t) (sortOrder : option SortOrder) (db : Db)
    (n : nat) :
  outage db = None →
  (0 ≤ default 0 limit)%Z →
  flat_map
    (fun i =>
       rows_of
         (getAuditLogs holds ordered filters
            {| Paging.page := Some (Z.of_nat (S i));
               Paging.limit := limit;
               Paging.sortBy := sortBy;
               Paging.sortOrder := sortOrder |} db))
    (seq 0 n)
  = firstn (n * Z.to_nat (number_or limit 50))
      (ordered (default Column.timestamp sortBy) (default DESC sortOrder)
         (selected holds (conditions filters) db)).
Proof.
  intros Ho Hl. rewrite <- windows_tile. apply flat_map_ext. intros i.
  rewrite getAuditLogs_returns; [|done|simpl; lia|done].
  cbn [rows_of Page.data Paging.page Paging.limit Paging.sortBy
       Paging.sortOrder].
  pose proof (number_or_nonneg _ 50 Hl eq_refl) as Hl1.
  assert (Hpage : number_or (Some (Z.of_nat (S i))) 1 = Z.of_nat (S i)).
  { unfold number_or. destruct (Z.eqb_spec (Z.of_nat (S i)) 0); [lia|done]. }
  rewrite Hpage. do 3 f_equal. nia.
Qed.

(** X20. A page or a limit that is left out or 0 counts as page 1 and as
    50 rows; the page reports the page and the limit in force, holds at
    most that many rows, and its total counts all the rows selected,
    whatever the page, the limit and the order. *)
Theorem page_defaults (filters : Filters.t) (options : Paging.t) (db : Db) :
  outage db = None →
  (0 ≤ default 0 (Paging.page options))%Z →
  (0 ≤ default 0 (Paging.limit options))%Z →
  ∃ p : Page.t,
    getAuditLogs holds ordered filters options db = Returned p
    ∧ Page.page p
      = match Paging.page options with
        | Some 0%Z | None => 1%Z
        | Some n => n
        end
    ∧ Page.limit p
      = match Paging.limit options with
        | Some 0%Z | None => 50%Z
        | Some n => n
        end
    ∧ (length (Page.data p) ≤ Z.to_nat (Page.limit p))%nat
    ∧ Page.total p
      = Z.of_nat (length (selected holds (conditions filters) db)).
Proof.
  intros Ho Hp Hl. rewrite getAuditLogs_returns by done.
  eexists. split; [reflexivity|]. cbn [Page.page Page.limit Page.data Page.total].
  split; [by destruct (Paging.page options) as [[| |]|]|].
  split; [by destruct (Paging.limit options) as [[| |]|]|].
  split; [apply firstn_le_length|done].
Qed.

(** X21. [getAuditLogsCount] agrees with [getAuditLogs]: for the same date
    range, the count is the total of the listing, whatever the page, the
    limit and the order of the listing, and both fail with the same error
    when the store does. *)
Theorem count_is_total (startDate endDate : option Z) (options : Paging.t)
    (db : Db) :
  (0 ≤ default 0 (Paging.page options))%Z →
  (0 ≤ default 0 (Paging.limit options))%Z →
  getAuditLogsCount holds startDate endDate db
  = and_then
      (getAuditLogs holds ordered
         {| Filters.userId := None; Filters.serviceName := None;
            Filters.httpMethod := None; Filters.statusCode := None;
            Filters.startDate := startDate; Filters.endDate := endDate;
            Filters.endpoint := None |}
         options db)
      (fun p => Returned (Page.total p)).
Proof.
  intros Hp Hl. destruct (outage db) as [e|] eqn:Ho.
  - unfold getAuditLogsCount, getCount, getAuditLogs, getManyAndCount.
    by rewrite Ho.
  - rewrite getAuditLogs_returns by done.
    unfold getAuditLogsCount, getCount. by rewrite Ho.
Qed.

Lemma when_text_same (a b : option string) (c : string -> Condition) :
  same_text a b = true → when_text a c = when_text b c.
Proof.
  unfold same_text, when_text, blank_text.
  intros [[Ha Hb]%andb_prop| ->%bool_decide_eq_true]%orb_prop; [|done].
  destruct a, b; by rewrite ?Ha, ?Hb.
Qed.

Lemma when_number_same (a b : option Z) (c : Z -> Condition) :
  same_number a b = true → when_number a c = when_number b c.
Proof.
  unfold same_number, when_number, blank_number.
  intros [[Ha Hb]%andb_prop| ->%bool_decide_eq_true]%orb_prop; [|done].
  destruct a, b; by rewrite ?Ha, ?Hb.
Qed.

(** X22. A filter whose value is falsy does not filter: two requests whose
    filters differ only where both are absent, an empty text or the status
    code 0 get the same answer. So the status code 0, or an empty user id,
    cannot be asked for. *)
Theorem falsy_filters_ignored (f g : Filters.t) (options : Paging.t)
    (db : Db) :
  same_filters f g = true →
  getAuditLogs holds ordered f options db
  = getAuditLogs holds ordered g options db.
Proof.
  unfold same_filters.
  intros [[[[[[Hu Hs]%andb_prop Hm]%andb_prop Hc]%andb_prop He]%andb_prop
            Hsd%bool_decide_eq_true]%andb_prop Hed%bool_decide_eq_true]%andb_prop.
  unfold getAuditLogs, query, conditions.
  rewrite (when_text_same _ _ _ Hu), (when_text_same _ _ _ Hs),
    (when_text_same _ _ _ Hm), (when_number_same _ _ _ Hc),
    (when_text_same _ _ _ He), Hsd, Hed.
  reflexivity.
Qed.

Variable average : list AuditLogEntity.t -> option string.
Variable top : Column.t -> list AuditLogEntity.t -> list (value * string).
Variable parseFloat : string -> value.
Variable parseInt : string -> value.

(** X23. The top users of the statistics do not follow the filters: the
    query for them calls [where], which drops the date range and the
    service name set on the base query, so two calls with different
    filters on the same store report the same top users. *)
Theorem top_users_ignore_filters
    (startDate1 endDate1 startDate2 endDate2 : option Z)
    (serviceName1 serviceName2 : option string) (db : Db)
    (s1 s2 : Statistics.t) :
  getAuditStatistics holds average top parseFloat parseInt
    startDate1 endDate1 serviceName1 db = Returned s1 →
  getAuditStatistics holds average top parseFloat parseInt
    startDate2 endDate2 serviceName2 db = Returned s2 →
  Statistics.topUsers s1 = Statistics.topUsers s2
  ∧ Statistics.topUsers s1
    = map (fun item => (fst item, parseInt (snd item)))
        (top Column.userId
           (selected holds [Sql "audit.userId IS NOT NULL"] db)).
Proof.
  unfold getAuditStatistics, getCount, getRawOne, getRawMany, and_then.
  destruct (outage db) as [e|]; [done|].
  by intros [= <-] [= <-].
Qed.

End WithDatabase.

Lemma pages_tile_witness :
  flat_map
    (fun i =>
       rows_of
         (getAuditLogs sample_holds sample_ordered Filters.none
            {| Paging.page := Some (Z.of_nat (S i));
               Paging.limit := Some 2%Z;
               Paging.sortBy := None;
               Paging.sortOrder := None |} (Samples.three_rows true)))
    (seq 0 2)
  = firstn (2 * Z.to_nat (number_or (Some 2%Z) 50))
      (sample_ordered (default Column.timestamp None) (default DESC None)
         (selected sample_holds (conditions Filters.none)
            (Samples.three_rows true))).
Proof.
  apply (pages_tile sample_holds sample_ordered Filters.none (Some 2%Z)
           None None (Samples.three_rows true) 2);
    [reflexivity|simpl; lia].
Defined.

Lemma page_defaults_witness :
  ∃ p : Page.t,
    getAuditLogs sample_holds sample_ordered Filters.none
      {| Paging.page := Some 0%Z; Paging.limit := None;
         Paging.sortBy := None; Paging.sortOrder := None |}
      (Samples.three_rows true)
    = Returned p
    ∧ Page.page p = 1%Z
    ∧ Page.limit p = 50%Z
    ∧ (length (Page.data p) ≤ Z.to_nat (Page.limit p))%nat
    ∧ Page.total p
      = Z.of_nat
          (length (selected sample_holds (conditions Filters.none)
                     (Samples.three_rows true))).
Proof.
  apply (page_defaults sample_holds sample_ordered Filters.none
           {| Paging.page := Some 0%Z; Paging.limit := None;
              Paging.sortBy := None; Paging.sortOrder := None |}
           (Samples.three_rows true));
    [reflexivity|simpl; lia|simpl; lia].
Defined.

Lemma count_is_total_witness :
  getAuditLogsCount sample_holds (Some (400 * Samples.day)%Z) None
    (Samples.three_rows true)
  = Returned 2%Z.
Proof.
  rewrite (count_is_total sample_holds sample_ordered
             (Some (400 * Samples.day)%Z) None
             {| Paging.page := None; Paging.limit := Some 1%Z;
                Paging.sortBy := None; Paging.sortOrder := None |}
             (Samples.three_rows true));
    [reflexivity|simpl; lia|simpl; lia].
Defined.

Lemma falsy_filters_ignored_witness :
  getAuditLogs sample_holds sample_ordered
    (blank_filters (Some (400 * Samples.day)%Z) None)
    {| Paging.page := None; Paging.limit := None;
       Paging.sortBy := None; Paging.sortOrder := None |}
    (Samples.three_rows true)
  = getAuditLogs sample_holds sample_ordered
      {| Filters.userId := None; Filters.serviceName := None;
         Filters.httpMethod := None; Filters.statusCode := None;
         Filters.startDate := Some (400 * Samples.day)%Z;
         Filters.endDate := None; Filters.endpoint := None |}
      {| Paging.page := None; Paging.limit := None;
         Paging.sortBy := None; Paging.sortOrder := None |}
      (Samples.three_rows true).
Proof.
  apply (falsy_filters_ignored sample_holds sample_ordered). reflexivity.
Defined.

Lemma top_users_ignore_filters_witness :
  ∃ s1 s2 : Statistics.t,
    getAuditStatistics sample_holds (fun _ => None) (fun _ _ => [])
      (fun _ => VInt 0) (fun _ => VInt 0)
      None None None (Samples.three_rows true) = Returned s1
    ∧ getAuditStatistics sample_holds (fun _ => None) (fun _ _ => [])
        (fun _ => VInt 0) (fun _ => VInt 0)
        (Some (400 * Samples.day)%Z) None (Some "OrdersService")
        (Samples.three_rows true) = Returned s2
    ∧ Statistics.totalRequests s1 = 3%Z
    ∧ Statistics.totalRequests s2 = 0%Z
    ∧ Statistics.topUsers s1 = Statistics.topUsers s2.
Proof.
  eexists _, _. split; [reflexivity|]. split; [reflexivity|].
  split; [reflexivity|]. split; [reflexivity|].
  exact (proj1 (top_users_ignore_filters sample_holds (fun _ => None)
                  (fun _ _ => []) (fun _ => VInt 0) (fun _ => VInt 0)
                  None None (Some (400 * Samples.day)%Z) None
                  None (Some "OrdersService") (Samples.three_rows true)
                  _ _ eq_refl eq_refl)).
Defined.

End ReportingProps.

(** *** Diagnostics *)

Module DiagnosticsProps.
Import JsString Js Effect Service Diagnostics.

(** The flags of [testConnection] are nested. *)
Lemma testConnection_nested (probe : Probe) :
  let r := fst (testConnection probe) in
  (ConnectionTest.canWrite r = true → ConnectionTest.tableExists r = true)
  ∧ (ConnectionTest.tableExists r = true → ConnectionTest.connected r = true)
  ∧ (ConnectionTest.canWrite r = true → ConnectionTest.error r = VUndefined).
Proof.
  unfold testConnection, diagnostics_failed.
  destruct probe as [rep meta init has rel cs del]. cbn.
  destruct rep; cbn; [|done].
  destruct meta as [t|e]; cbn; [|done].
  destruct init as [[|]|e]; cbn; [|done|done].
  destruct has as [[|]|e]; cbn; [| |done].
  - destruct rel as [[]|e]; cbn; [|done].
    destruct cs as [[]|e]; cbn; [|done].
    by destruct del as [[]|e].
  - by destruct rel as [[]|e].
Qed.

(** X24. The three flags of [testConnection] are nested: it reports that
    it can write only when it reports the table, and the table only when
    it reports the connection. It reports that it can write exactly when
    every step answered well, and then without an error. *)
Theorem testConnection_flags (probe : Probe) :
  let r := fst (testConnection probe) in
  (ConnectionTest.canWrite r = true → ConnectionTest.tableExists r = true)
  ∧ (ConnectionTest.tableExists r = true → ConnectionTest.connected r = true)
  ∧ (ConnectionTest.canWrite r = true → ConnectionTest.error r = VUndefined)
  ∧ (ConnectionTest.canWrite r = true
     ↔ repository probe = true
       ∧ (∃ tableName, metadata_tableName probe = Returned tableName)
       ∧ isInitialized probe = Returned true
       ∧ hasTable probe = Returned true
       ∧ release probe = Returned tt
       ∧ create_and_save probe = Returned tt
       ∧ delete_test_record probe = Returned tt).
Proof.
  unfold testConnection, diagnostics_failed.
  destruct probe as [rep meta init has rel cs del]. cbn.
  destruct rep; cbn;
    [|repeat split; try done; by intros (? & _)].
  destruct meta as [t|e]; cbn;
    [|repeat split; try done; by intros (_ & (? & ?) & _)].
  destruct init as [[|]|e]; cbn;
    [| repeat split; try done; by intros (_ & _ & ? & _)
     | repeat split; try done; by intros (_ & _ & ? & _)].
  destruct has as [[|]|e]; cbn.
  - destruct rel as [[]|e]; cbn;
      [|repeat split; try done; by intros (_ & _ & _ & _ & ? & _)].
    destruct cs as [[]|e]; cbn;
      [|repeat split; try done; by intros (_ & _ & _ & _ & _ & ? & _)].
    destruct del as [[]|e]; cbn;
      [|repeat split; try done; by intros (_ & _ & _ & _ & _ & _ & ?)].
    repeat split; eauto.
  - destruct rel as [[]|e]; cbn;
      repeat split; try done; by intros (_ & _ & _ & ? & _).
  - repeat split; try done; by intros (_ & _ & _ & ? & _).
Qed.

(** X25. A failure after the table was found is reported as a failure of
    everything: when the test write or the removal of the test row throws,
    the result says not connected and no table, although both checks had
    passed, with the message of the error; in the second case the test row
    had been written. *)
Theorem late_failure_reports_disconnected (probe : Probe)
    (tableName e : value) :
  repository probe = true →
  metadata_tableName probe = Returned tableName →
  isInitialized probe = Returned true →
  hasTable probe = Returned true →
  release probe = Returned tt →
  create_and_save probe = Thrown e
  ∨ (create_and_save probe = Returned tt
     ∧ delete_test_record probe = Thrown e) →
  testConnection probe
  = (failed (message_of e),
     [ LogDebug "Entity metadata found" [tableName];
       LogError "Audit Logger diagnostics failed" (message_of e)
         VUndefined ]).
Proof.
  intros Hr Hm Hi Hh Hl Hw. unfold testConnection, diagnostics_failed.
  rewrite Hr, Hm, Hi, Hh, Hl. cbn [negb].
  by destruct Hw as [->|[-> ->]].
Qed.

Lemma late_failure_reports_disconnected_witness :
  fst (testConnection write_refused)
  = failed (VString "permission denied for table audit_logs").
Proof.
  rewrite (late_failure_reports_disconnected write_refused
             (VString "audit_logs")
             (VObject ErrorPrototype
                [ ("message",
                   VString "permission denied for table audit_logs") ]));
    [reflexivity|reflexivity|reflexivity|reflexivity|reflexivity|reflexivity|].
  left. reflexivity.
Defined.

(** X26. The health report never comes without advice, and it is healthy
    exactly when the test could write; then the advice is the three lines
    of a working system. *)
Theorem checkHealth_status (probe : Probe) (now : Z) (health : Health.t) :
  checkHealth probe now = Some health →
  Health.recommendations health ≠ []
  ∧ (Health.status health = "healthy"
     ↔ ConnectionTest.canWrite (Health.details health) = true)
  ∧ (Health.status health = "healthy" →
     generateRecommendations (Health.details health)
     = Some (Health.recommendations health)
     ∧ length (Health.recommendations health) = 3%nat
     ∧ ConnectionTest.error (Health.details health) = VUndefined).
Proof.
  unfold checkHealth.
  pose proof (testConnection_nested probe) as (H1 & H2 & H3).
  cbv zeta in H1, H2, H3.
  destruct (fst (testConnection probe)) as [c t w err].
  cbn [ConnectionTest.canWrite ConnectionTest.tableExists
       ConnectionTest.connected ConnectionTest.error] in *.
  unfold generateRecommendations.
  cbn [ConnectionTest.canWrite ConnectionTest.tableExists
       ConnectionTest.connected ConnectionTest.error].
  destruct w.
  - rewrite (H1 eq_refl) in *. rewrite (H2 eq_refl), (H3 eq_refl).
    cbn. intros [= <-]. cbn. by repeat split.
  - destruct (not_registered err) as [[|]|]; [| |done].
    + intros [= <-]. cbn. rewrite !andb_false_r. by repeat split.
    + intros [= <-]. cbn. rewrite !andb_false_r. cbn.
      split; [|by repeat split].
      destruct c, t; done.
Qed.

Lemma checkHealth_status_witness :
  ∃ health : Health.t,
    checkHealth all_fine 1000 = Some health
    ∧ Health.status health = "healthy"
    ∧ length (Health.recommendations health) = 3%nat.
Proof.
  eexists. split; [reflexivity|].
  pose proof (checkHealth_status all_fine 1000 _ eq_refl) as (_ & Hs & Hr).
  split; [by apply Hs|]. by apply Hr, Hs.
Defined.

Section WithRepository.

Context {Store : Type} `{Repository Store}.
Variable repository_available : bool.
Variable saved_id : Store -> value.

(** X27. [saveAuditLogWithDiagnostics] never throws and calls [save] at
    most once. It reports a success only after [save] went through, with
    no error. With no repository, or with an empty method or endpoint, it
    reports a failure and leaves the store alone: [save] is not called. *)
Theorem saveAuditLogWithDiagnostics_report (auditData : AuditLogData.t)
    (w : World Store) :
  ∃ (report : SaveReport.t) (w' : World Store),
    saveAuditLogWithDiagnostics repository_available saved_id auditData w
    = (Returned report, w')
    ∧ (save_calls w' ≤ S (save_calls w))%nat
    ∧ (SaveReport.success report = true →
       save_calls w' = S (save_calls w)
       ∧ SaveReport.error report = VUndefined
       ∧ ∃ auditLog,
           create (plain_object auditData) = Returned auditLog
           ∧ save auditLog (store w) = (Returned tt, store w'))
    ∧ (repository_available = false
       ∨ is_empty (AuditLogData.httpMethod auditData) = true
       ∨ is_empty (AuditLogData.endpoint auditData) = true →
       SaveReport.success report = false
       ∧ store w' = store w
       ∧ save_calls w' = save_calls w).
Proof.
  unfold saveAuditLogWithDiagnostics, report_saved, try_catch,
    mbind, M_bind, mret, M_ret, bind, ret, lift, log, call_save.
  cbn [store logged save_calls].
  destruct repository_available; cbn [negb].
  - destruct (is_empty (AuditLogData.httpMethod auditData)) eqn:Em;
      cbn [orb].
    { eexists _, _. split; [reflexivity|]. cbn. repeat split; (lia || done). }
    destruct (is_empty (AuditLogData.endpoint auditData)) eqn:Ee.
    { eexists _, _. split; [reflexivity|]. cbn. repeat split; (lia || done). }
    destruct (create (plain_object auditData)) as [auditLog|e] eqn:Ec.
    + cbn [store logged save_calls].
      destruct (save auditLog (store w)) as [[[]|e] s] eqn:Es.
      * eexists _, _. split; [reflexivity|]. cbn.
        split; [lia|]. split.
        -- intros _. repeat split. by exists auditLog.
        -- by intros [|[|]].
      * eexists _, _. split; [reflexivity|]. cbn.
        split; [lia|]. split; [done|]. by intros [|[|]].
    + eexists _, _. split; [reflexivity|]. cbn.
      split; [lia|]. split; [done|]. by intros [|[|]].
  - eexists _, _. split; [reflexivity|]. cbn. repeat split; (lia || done).
Qed.

End WithRepository.

Lemma saveAuditLogWithDiagnostics_report_witness :
  ∃ (report : SaveReport.t) (w' : World Db),
    saveAuditLogWithDiagnostics true memory_saved_id Samples.sample_data
      (Samples.start (Samples.three_rows true))
    = (Returned report, w')
    ∧ SaveReport.success report = true
    ∧ SaveReport.details report = TheId (VInt 4)
    ∧ save_calls w' = 1%nat.
Proof.
  destruct (saveAuditLogWithDiagnostics_report true memory_saved_id
              Samples.sample_data (Samples.start (Samples.three_rows true)))
    as (report & w' & Hr & _ & Hs & _).
  exists report, w'. split; [exact Hr|].
  vm_compute in Hr. injection Hr as <- <-.
  split; [reflexivity|]. split; [reflexivity|]. by apply Hs.
Defined.

End DiagnosticsProps.

(** *** Counts of the reports *)

Module CountProps.
Import JsString Js Effect Service Reporting.

Section WithDatabase.

Variable holds : Condition -> AuditLogEntity.t -> bool.
Variable ordered :
  Column.t -> SortOrder -> list AuditLogEntity.t -> list AuditLogEntity.t.
Variable average : list AuditLogEntity.t -> option string.
Variable top : Column.t -> list AuditLogEntity.t -> list (value * string).
Variable parseFloat : string -> value.
Variable parseInt : string -> value.

Lemma filter_length_implies {A} (p q : A -> bool) (l : list A) :
  (∀ a, p a = true → q a = true) →
  (length (List.filter p l) ≤ length (List.filter q l))%nat.
Proof.
  intros Hpq. induction l as [|a l IH]; [done|]. cbn.
  destruct (p a) eqn:Hp.
  - rewrite (Hpq a Hp). cbn. lia.
  - destruct (q a); cbn; lia.
Qed.

(** A condition more never selects a row more. *)
Lemma selected_more (wheres more : list Condition) (db : Db) :
  (length (selected holds (wheres ++ more) db)
   ≤ length (selected holds wheres db))%nat.
Proof.
  apply filter_length_implies. intros row.
  rewrite forallb_app. by intros [? _]%andb_prop.
Qed.

Lemma getCount_more (wheres more : list Condition) (db : Db) (n m : Z) :
  getCount holds wheres db = Returned n →
  getCount holds (wheres ++ more)%list db = Returned m →
  (0 ≤ m ≤ n)%Z.
Proof.
  unfold getCount. destruct (outage db); [done|].
  intros [= <-] [= <-]. pose proof (selected_more wheres more db). lia.
Qed.

(** X28. On a store that does not change while the statistics are taken
    (the counts are separate queries, here answered by one state of the
    store), and whatever the conditions mean in the database, the
    statistics never count more successful requests, nor more failed
    ones, than requests in all, and no count is negative. *)
Theorem statistics_counts_bounded (startDate endDate : option Z)
    (serviceName : option string) (db : Db) (stats : Statistics.t) :
  getAuditStatistics holds average top parseFloat parseInt
    startDate endDate serviceName db = Returned stats →
  (0 ≤ Statistics.successfulRequests stats
   ≤ Statistics.totalRequests stats)%Z
  ∧ (0 ≤ Statistics.failedRequests stats
     ≤ Statistics.totalRequests stats)%Z.
Proof.
  unfold getAuditStatistics.
  set (base := (when_date startDate TimestampGe ++ _)%list).
  destruct (getCount holds base db) as [total|] eqn:Ht; [|done].
  cbn [and_then].
  destruct (getCount holds (base ++ [Sql _]) db) as [ok|] eqn:Hok; [|done].
  cbn [and_then].
  destruct (getCount holds (base ++ [Sql "audit.statusCode >= 400"]) db)
    as [ko|] eqn:Hko; [|done].
  cbn [and_then].
  destruct (getRawOne holds average base db); [|done]. cbn [and_then].
  destruct (getRawMany holds top Column.endpoint base db); [|done].
  cbn [and_then].
  destruct (getRawMany holds top Column.userId _ db); [|done].
  cbn [and_then]. intros [= <-]. cbn.
  split; eapply getCount_more; eauto.
Qed.

(** X29. On a database that does not change meanwhile, [getStats] never
    reports more logs for the last 24 hours than in all, and at most ten
    recent logs, however the database orders rows and compares dates; when
    the database is down it answers with the failure and the message of
    the error. *)
Theorem getStats_consistent (now later : Z) (db : Db) :
  match getStats holds ordered now later db with
  | Stats.Report totalLogs last24Hours recentLogs lastUpdate =>
      outage db = None
      ∧ (0 ≤ last24Hours ≤ totalLogs)%Z
      ∧ (length recentLogs ≤ 10)%nat
      ∧ lastUpdate = later
  | Stats.Failure title text at_ =>
      ∃ e, outage db = Some e
           ∧ title = "Failed to get stats"
           ∧ text = message_of e
           ∧ at_ = later
  end.
Proof.
  unfold getStats, getAuditLogsCount, getAuditLogs, getManyAndCount.
  cbn [when_date app].
  destruct (getCount holds [] db) as [total|e] eqn:Ht; cbn [and_then].
  - destruct (getCount holds [TimestampGe _] db) as [recent|e] eqn:Hr;
      cbn [and_then].
    + pose proof (getCount_more [] [TimestampGe _] db _ _ Ht Hr) as Hle.
      unfold getCount in Ht. destruct (outage db); [done|].
      cbn. repeat split; try lia.
      cbn [Page.data]. rewrite length_firstn. lia.
    + unfold getCount in Ht, Hr. by destruct (outage db).
  - unfold getCount in Ht. destruct (outage db) as [e'|]; [|done].
    injection Ht as <-. by exists e'.
Qed.

End WithDatabase.

Lemma statistics_counts_bounded_witness :
  ∃ stats : Statistics.t,
    getAuditStatistics sample_holds (fun _ => None) (fun _ _ => [])
      (fun _ => VInt 0) (fun _ => VInt 0)
      None None (Some "OrdersService") (Samples.three_rows true)
    = Returned stats
    ∧ (0 ≤ Statistics.successfulRequests stats
       ≤ Statistics.totalRequests stats)%Z
    ∧ (0 ≤ Statistics.failedRequests stats
       ≤ Statistics.totalRequests stats)%Z.
Proof.
  eexists. split; [reflexivity|].
  apply (statistics_counts_bounded sample_holds (fun _ => None)
           (fun _ _ => []) (fun _ => VInt 0) (fun _ => VInt 0)
           None None (Some "OrdersService") (Samples.three_rows true)).
  reflexivity.
Defined.

End CountProps.
